(** * dastNeuron: the network of [model.py]

    A shallow embedding of [FeatureExtractor], [Regressioner] and
    [Classifier].  Tensors are a shape together with their contiguous
    row-major storage; entries are real numbers, the exact arithmetic that
    the float32 kernels approximate (rounding, overflow and NaN are outside
    this model).  Python exceptions are values of [exn]; the two global
    random sources that the code draws from (numpy's [RandomState] and
    torch's default generator) and the process's standard output are
    threaded explicitly through the monad [M]. *)

From Stdlib Require Import String Ascii DecimalString.
From Stdlib Require Import Reals Lra Lia Arith ZArith Bool List Permutation.
Import ListNotations.

Set Implicit Arguments.

(* Dimensions such as 512 and 2048 are unary numerals: products of them are
   reasoned about, never evaluated. *)
Arguments Nat.mul : simpl never.
Arguments Nat.div : simpl never.
Arguments Nat.modulo : simpl never.

(* ================================================================== *)
(** ** Python exceptions and the effect monad *)

Inductive exn : Type :=
| AssertionError (msg : string)
| SystemExit (code : Z)
| NotImplementedError
| ValueError (msg : string)
| IndexError (msg : string)
| KeyError (msg : string)
| ZeroDivisionError (msg : string)
| RuntimeError (msg : string).

Inductive result (A : Type) : Type :=
| Ok (a : A)
| Err (e : exn).
Arguments Ok {A} a.
Arguments Err {A} e.

(** torch's default generator: an arbitrary sequence of samples of U[0,1)
    and the number of samples consumed so far. *)
Record Generator : Type := mkGenerator {
  g_tape : nat -> R;
  g_pos : nat
}.

(** numpy's global [RandomState]: an arbitrary sequence of raw draws and the
    number of draws consumed so far. *)
Record RandomState : Type := mkRandomState {
  np_tape : nat -> nat;
  np_pos : nat
}.

Record World : Type := mkWorld {
  torch_rng : Generator;
  np_rng : RandomState;
  stdout : list string
}.

Definition M (A : Type) : Type := World -> result A * World.

Definition ret {A} (a : A) : M A := fun w => (Ok a, w).

Definition raise {A} (e : exn) : M A := fun w => (Err e, w).

Definition bind {A B} (m : M A) (k : A -> M B) : M B :=
  fun w =>
    match m w with
    | (Ok a, w') => k a w'
    | (Err e, w') => (Err e, w')
    end.

Definition lift {A} (r : result A) : M A := fun w => (r, w).

Declare Scope py_scope.
Delimit Scope py_scope with py.
Notation "x <- m ;; k" := (bind m (fun x => k))
  (at level 100, m at next level, right associativity) : py_scope.
Notation "m ;;; k" := (bind m (fun _ => k))
  (at level 100, right associativity) : py_scope.
Open Scope py_scope.

(** [assert cond, msg] *)
Definition py_assert (cond : bool) (msg : string) : M unit :=
  if cond then ret tt else raise (AssertionError msg).

(** [print(line)] *)
Definition print (line : string) : M unit :=
  fun w => (Ok tt, mkWorld (torch_rng w) (np_rng w) (stdout w ++ [line])).

(** [for a in l: body(a)], collecting what each iteration produced. *)
Fixpoint for_each {A B} (l : list A) (body : A -> M B) : M (list B) :=
  match l with
  | [] => ret []
  | a :: l' => b <- body a ;; bs <- for_each l' body ;; ret (b :: bs)
  end.

(* ================================================================== *)
(** ** Text: [str.format] on integers and on [torch.Size] *)

Definition str_of_nat (n : nat) : string :=
  NilEmpty.string_of_uint (Nat.to_uint n).

Fixpoint join (sep : string) (l : list string) : string :=
  match l with
  | [] => EmptyString
  | [s] => s
  | s :: l' => (s ++ sep ++ join sep l')%string
  end.

(** [str(torch.Size(s))], e.g. ["torch.Size([1, 3, 32])"]. *)
Definition str_of_Size (s : list nat) : string :=
  ("torch.Size([" ++ join ", " (map str_of_nat s) ++ "])")%string.

Definition contains (needle hay : string) : Prop :=
  exists pre post, hay = (pre ++ needle ++ post)%string.

(* ================================================================== *)
(** ** Tensors *)

Record tensor : Type := mkTensor {
  shape : list nat;
  data : list R
}.

Definition numel (s : list nat) : nat := fold_right Nat.mul 1 s.

Definition wf_tensor (t : tensor) : Prop :=
  length (data t) = numel (shape t).

Definition rank (t : tensor) : nat := length (shape t).

(** flat read; out-of-range reads do not occur on well-formed tensors *)
Definition get (t : tensor) (i : nat) : R := nth i (data t) 0%R.

Definition tab {A} (n : nat) (f : nat -> A) : list A := map f (seq 0 n).

Definition tab2 {A} (n m : nat) (f : nat -> nat -> A) : list A :=
  flat_map (fun i => tab m (f i)) (seq 0 n).

Definition tab3 {A} (n m k : nat) (f : nat -> nat -> nat -> A) : list A :=
  flat_map (fun i => tab2 m k (f i)) (seq 0 n).

Arguments tab : simpl never.
Arguments tab2 : simpl never.
Arguments tab3 : simpl never.

Definition Rsum (l : list R) : R := fold_right Rplus 0%R l.

(** [torch.zeros] on the dimensions [s] *)
Definition zeros (s : list nat) : tensor := mkTensor s (repeat 0%R (numel s)).

(** [t.shape[i]] for a non-negative [i] *)
Definition shape_at (t : tensor) (i : nat) : M nat :=
  match nth_error (shape t) i with
  | Some d => ret d
  | None => raise (IndexError "tuple index out of range")
  end.

(** [t.shape[-1]] *)
Definition shape_last (t : tensor) : M nat :=
  match rev (shape t) with
  | d :: _ => ret d
  | [] => raise (IndexError "tuple index out of range")
  end.

(** [t.unsqueeze(dim)] for [0 <= dim]: a view, the storage is unchanged. *)
Definition unsqueeze (t : tensor) (dim : nat) : result tensor :=
  if dim <=? rank t
  then Ok (mkTensor (firstn dim (shape t) ++ 1 :: skipn dim (shape t)) (data t))
  else Err (IndexError "Dimension out of range").

(** [t[..., a:b]] for [0 <= a, b]: Python clamps the slice to the axis. *)
Definition slice_last (t : tensor) (a b : nat) : result tensor :=
  match rev (shape t) with
  | [] => Err (IndexError "too many indices for tensor of dimension 0")
  | L :: lead_rev =>
      let lo := Nat.min a L in
      let hi := Nat.max lo (Nat.min b L) in
      let lead := rev lead_rev in
      Ok (mkTensor (lead ++ [hi - lo])
            (tab2 (numel lead) (hi - lo) (fun r j => get t (r * L + lo + j))))
  end.

(** [t.permute(p0, p1, p2)] on a rank-3 tensor: entry [(i0,i1,i2)] of the
    result is the entry of [t] whose index along axis [p_j] is [i_j]. *)
Definition permute3 (t : tensor) (p0 p1 p2 : nat) : result tensor :=
  match shape t with
  | [n0; n1; n2] =>
      let dims := [n0; n1; n2] in
      if existsb (Nat.eqb 0) [p0; p1; p2] && existsb (Nat.eqb 1) [p0; p1; p2]
         && existsb (Nat.eqb 2) [p0; p1; p2]
      then
        let pick (i0 i1 i2 ax : nat) : nat :=
          if ax =? p0 then i0 else if ax =? p1 then i1 else i2 in
        Ok (mkTensor [nth p0 dims 0; nth p1 dims 0; nth p2 dims 0]
              (tab3 (nth p0 dims 0) (nth p1 dims 0) (nth p2 dims 0)
                 (fun i0 i1 i2 =>
                    get t ((pick i0 i1 i2 0 * n1 + pick i0 i1 i2 1) * n2
                           + pick i0 i1 i2 2))))
      else Err (RuntimeError "permute: repeated dim")
  | _ => Err (RuntimeError "permute: number of dims don't match")
  end.

(** [torch.cat(ts, dim=1)].  Operands must agree in every dimension but the
    second (the legacy exemption of 1-D empty operands is not modelled). *)
Definition cat_compatible (s s' : list nat) : bool :=
  match s, s' with
  | n0 :: _ :: rest, n0' :: _ :: rest' =>
      (n0 =? n0') && (if list_eq_dec Nat.eq_dec rest rest' then true else false)
  | _, _ => false
  end.

Definition cat1 (ts : list tensor) : result tensor :=
  match ts with
  | [] => Err (RuntimeError "torch.cat(): expected a non-empty list of Tensors")
  | t0 :: _ =>
      match shape t0 with
      | n0 :: _ :: rest =>
          if forallb (fun t => cat_compatible (shape t0) (shape t)) ts
          then
            let inner := numel rest in
            let width (t : tensor) := nth 1 (shape t) 0 * inner in
            Ok (mkTensor
                  (n0 :: fold_right (fun t acc => nth 1 (shape t) 0 + acc) 0 ts
                      :: rest)
                  (flat_map
                     (fun b =>
                        flat_map
                          (fun t => tab (width t) (fun j => get t (b * width t + j)))
                          ts)
                     (seq 0 n0)))
          else Err (RuntimeError "Sizes of tensors must match except in dimension 1")
      | _ => Err (IndexError "Dimension out of range")
      end
  end.

(** [torch.mean(t, dim=1)] (exact division; an empty axis, where torch
    yields NaN, has no counterpart here). *)
Definition mean1 (t : tensor) : result tensor :=
  match shape t with
  | n0 :: n1 :: rest =>
      let inner := numel rest in
      Ok (mkTensor (n0 :: rest)
            (tab2 n0 inner
               (fun b r =>
                  (Rsum (tab n1 (fun j => get t ((b * n1 + j) * inner + r)))
                   / INR n1)%R)))
  | _ => Err (IndexError "Dimension out of range")
  end.

(** [torch.flatten(t, start_dim=1, end_dim=-1)] *)
Definition flatten1 (t : tensor) : result tensor :=
  match shape t with
  | n0 :: n1 :: rest => Ok (mkTensor [n0; numel (n1 :: rest)] (data t))
  | _ => Err (IndexError "Dimension out of range")
  end.

(** [t.view(1, -1)]: the inferred dimension is ambiguous for an empty
    tensor, which torch rejects. *)
Definition view_1_m1 (t : tensor) : result tensor :=
  if numel (shape t) =? 0
  then Err (RuntimeError "cannot reshape tensor of 0 elements into shape [1, -1]")
  else Ok (mkTensor [1; numel (shape t)] (data t)).

Definition map_tensor (f : R -> R) (t : tensor) : tensor :=
  mkTensor (shape t) (map f (data t)).

Definition Rsigmoid (x : R) : R := (1 / (1 + exp (- x)))%R.

(** [torch.sigmoid] *)
Definition sigmoid (t : tensor) : tensor := map_tensor Rsigmoid t.

(* ================================================================== *)
(** ** The random sources *)

(** [tensor.uniform_(lo, hi)] on a fresh tensor of dimensions [s]: one
    sample of the generator per entry. *)
Definition uniform_ (s : list nat) (lo hi : R) : M tensor :=
  fun w =>
    let g := torch_rng w in
    (Ok (mkTensor s
           (tab (numel s)
              (fun i => (lo + (hi - lo) * g_tape g (g_pos g + i))%R))),
     mkWorld (mkGenerator (g_tape g) (g_pos g + numel s)) (np_rng w) (stdout w)).

(** [nn.init.xavier_uniform_] with gain 1 on a fresh tensor of dimensions [s]. *)
Definition xavier_uniform_ (s : list nat) : M tensor :=
  match s with
  | n0 :: n1 :: rest =>
      let receptive_field_size := numel rest in
      let fan_in := n1 * receptive_field_size in
      let fan_out := n0 * receptive_field_size in
      if fan_in + fan_out =? 0
      then raise (ZeroDivisionError "float division by zero")
      else
        let std := (1 * sqrt (2 / INR (fan_in + fan_out)))%R in
        let a := (sqrt 3 * std)%R in
        uniform_ s (- a)%R a
  | _ => raise (ValueError "Fan in and fan out can not be computed for tensor with fewer than 2 dimensions")
  end.

(** numpy's bounded draw: a value in [[0, max]]. *)
Definition random_interval (max : nat) : M nat :=
  fun w =>
    match max with
    | 0 => (Ok 0, w)
    | S _ =>
        let rs := np_rng w in
        (Ok (np_tape rs (np_pos rs) mod (S max)),
         mkWorld (torch_rng w) (mkRandomState (np_tape rs) (S (np_pos rs)))
           (stdout w))
    end.

(** [np.arange(n)] *)
Definition np_arange (n : nat) : list nat := seq 0 n.

(** [l[i] = a] within range *)
Fixpoint set_nth {A} (l : list A) (i : nat) (a : A) : list A :=
  match l, i with
  | [], _ => []
  | _ :: l', 0 => a :: l'
  | b :: l', S i' => b :: set_nth l' i' a
  end.

(** [x[i], x[j] = x[j], x[i]] *)
Definition swap (x : list nat) (i j : nat) : list nat :=
  set_nth (set_nth x i (nth j x 0)) j (nth i x 0).

(** [np.random.shuffle(x)] on a 1-D array:
    [for i in reversed(range(1, n)): j = random_interval(i); swap x[i], x[j]] *)
Fixpoint shuffle_from (i : nat) (x : list nat) : M (list nat) :=
  match i with
  | 0 => ret x
  | S i' => j <- random_interval i ;; shuffle_from i' (swap x i j)
  end.

Definition np_random_shuffle (x : list nat) : M (list nat) :=
  shuffle_from (length x - 1) x.

(** [np.random.randint(low, high)] *)
Definition np_random_randint (low high : Z) : M Z :=
  if (high <=? low)%Z
  then raise (ValueError "low >= high")
  else r <- random_interval (Z.to_nat (high - low - 1)) ;;
       ret (low + Z.of_nat r)%Z.

(* ================================================================== *)
(** ** torch.nn modules *)

#[warnings="-register-all"]
Inductive nn_Module : Type :=
| Linear (in_features out_features : nat) (weight bias : tensor)
| Dropout (p : R)
| Identity
| LeakyReLU (negative_slope : R)
| LogSoftmax (dim : nat)
| Conv1d (in_channels out_channels kernel_size : nat) (weight bias : tensor)
| Sequential (layers : list nn_Module).

(** [F.linear]: [y = x W^T + b] along the last axis. *)
Definition linear (in_f out_f : nat) (w b x : tensor) : result tensor :=
  match rev (shape x) with
  | [] => Err (RuntimeError "linear: input must have at least one dimension")
  | d :: lead_rev =>
      if d =? in_f
      then
        let lead := rev lead_rev in
        Ok (mkTensor (lead ++ [out_f])
              (tab2 (numel lead) out_f
                 (fun r o =>
                    (Rsum (tab in_f
                             (fun i => get x (r * in_f + i) * get w (o * in_f + i)))
                     + get b o)%R)))
      else Err (RuntimeError "mat1 and mat2 shapes cannot be multiplied")
  end.

(** [F.dropout(x, p, training)] *)
Definition F_dropout (p : R) (training : bool) (x : tensor) : M tensor :=
  if training
  then
    noise <- uniform_ (shape x) 0 1 ;;
    ret (mkTensor (shape x)
           (tab (length (data x))
              (fun i =>
                 if Rlt_dec (get noise i) p then 0%R
                 else (get x i / (1 - p))%R)))
  else ret x.

Definition Rleaky_relu (slope x : R) : R :=
  if Rle_dec 0 x then x else (slope * x)%R.

(** [F.log_softmax(x, dim)]; the model uses [dim=1] only. *)
Definition log_softmax (dim : nat) (x : tensor) : result tensor :=
  match dim, shape x with
  | 1, n0 :: n1 :: rest =>
      let inner := numel rest in
      Ok (mkTensor (shape x)
            (tab3 n0 n1 inner
               (fun b j r =>
                  (get x ((b * n1 + j) * inner + r)
                   - ln (Rsum (tab n1
                                 (fun j' => exp (get x ((b * n1 + j') * inner + r))))))%R)))
  | 1, _ => Err (IndexError "Dimension out of range")
  | _, _ => Err (RuntimeError "log_softmax: only dim=1 is modelled")
  end.

(** [F.conv1d] with stride 1 and no padding, on a batched input. *)
Definition conv1d (in_c out_c k : nat) (w b x : tensor) : result tensor :=
  match shape x with
  | [n; c; len] =>
      if negb (c =? in_c)
      then Err (RuntimeError "conv1d: unexpected number of input channels")
      else if len <? k
      then Err (RuntimeError "Kernel size can't be greater than actual input size")
      else
        Ok (mkTensor [n; out_c; len - k + 1]
              (tab3 n out_c (len - k + 1)
                 (fun bi o t =>
                    (get b o
                     + Rsum (tab2 in_c k
                               (fun ci kk =>
                                  get w ((o * in_c + ci) * k + kk)
                                  * get x ((bi * in_c + ci) * len + t + kk))))%R)))
  | _ => Err (RuntimeError "conv1d: expected a 3D input")
  end.

(** [module(x)]: the forward pass of a module, in training or eval mode. *)
Fixpoint call (training : bool) (m : nn_Module) (x : tensor) : M tensor :=
  match m with
  | Linear in_f out_f w b => lift (linear in_f out_f w b x)
  | Dropout p => F_dropout p training x
  | Identity => ret x
  | LeakyReLU slope => ret (map_tensor (Rleaky_relu slope) x)
  | LogSoftmax dim => lift (log_softmax dim x)
  | Conv1d in_c out_c k w b => lift (conv1d in_c out_c k w b x)
  | Sequential layers =>
      (fix run (ms : list nn_Module) (x : tensor) : M tensor :=
         match ms with
         | [] => ret x
         | m' :: ms' => y <- call training m' x ;; run ms' y
         end) layers x
  end.

Fixpoint call_all (training : bool) (ms : list nn_Module) (x : tensor) : M tensor :=
  match ms with
  | [] => ret x
  | m :: ms' => y <- call training m x ;; call_all training ms' y
  end.

(** Parameter initialisation of [nn.Linear(in_f, out_f)]
    ([kaiming_uniform_] with [a = sqrt 5] for the weight, a uniform bias). *)
Definition kaiming_bound (fan_in : nat) : R :=
  (sqrt 3 * (sqrt (2 / (1 + sqrt 5 ^ 2)) / sqrt (INR fan_in)))%R.

Definition bias_bound (fan_in : nat) : R :=
  if fan_in =? 0 then 0%R else (1 / sqrt (INR fan_in))%R.

Definition nn_Linear (in_f out_f : nat) : M nn_Module :=
  w <- uniform_ [out_f; in_f] (- kaiming_bound in_f)%R (kaiming_bound in_f) ;;
  b <- uniform_ [out_f] (- bias_bound in_f)%R (bias_bound in_f) ;;
  ret (Linear in_f out_f w b).

(** [nn.Conv1d(in_c, out_c, kernel_size=k, bias=True)] *)
Definition nn_Conv1d (in_c out_c k : nat) : M nn_Module :=
  w <- uniform_ [out_c; in_c; k] (- kaiming_bound (in_c * k))%R
         (kaiming_bound (in_c * k)) ;;
  b <- uniform_ [out_c] (- bias_bound (in_c * k))%R (bias_bound (in_c * k)) ;;
  ret (Conv1d in_c out_c k w b).

(** [nn.LSTM(input_size, hidden_size, bias=True)]: one layer, one direction,
    sequence-first layout; gates in torch's order (input, forget, cell,
    output). *)
Record LSTM : Type := mkLSTM {
  input_size : nat;
  hidden_size : nat;
  weight_ih_l0 : tensor;
  weight_hh_l0 : tensor;
  bias_ih_l0 : tensor;
  bias_hh_l0 : tensor
}.

Definition nn_LSTM (input_sz hidden_sz : nat) : M LSTM :=
  let stdv := if hidden_sz =? 0 then 0%R else (1 / sqrt (INR hidden_sz))%R in
  w_ih <- uniform_ [4 * hidden_sz; input_sz] (- stdv)%R stdv ;;
  w_hh <- uniform_ [4 * hidden_sz; hidden_sz] (- stdv)%R stdv ;;
  b_ih <- uniform_ [4 * hidden_sz] (- stdv)%R stdv ;;
  b_hh <- uniform_ [4 * hidden_sz] (- stdv)%R stdv ;;
  ret (mkLSTM input_sz hidden_sz w_ih w_hh b_ih b_hh).

Section LSTMForward.
Variable net : LSTM.
Variable nbatch : nat.

Let isz := input_size net.
Let H := hidden_size net.

(** pre-activation of gate [k] for unit [j] of batch row [b] *)
Definition lstm_gate (k : nat) (xt h : list R) (b j : nat) : R :=
  (Rsum (tab isz (fun i => get (weight_ih_l0 net) ((k * H + j) * isz + i)
                           * nth (b * isz + i) xt 0))
   + get (bias_ih_l0 net) (k * H + j)
   + Rsum (tab H (fun m => get (weight_hh_l0 net) ((k * H + j) * H + m)
                           * nth (b * H + m) h 0))
   + get (bias_hh_l0 net) (k * H + j))%R.

Definition lstm_cell (xt : list R) (hc : list R * list R) : list R * list R :=
  let (h, c) := hc in
  let c' :=
    tab2 nbatch H
      (fun b j =>
         (Rsigmoid (lstm_gate 1 xt h b j) * nth (b * H + j) c 0
          + Rsigmoid (lstm_gate 0 xt h b j) * tanh (lstm_gate 2 xt h b j))%R) in
  let h' :=
    tab2 nbatch H
      (fun b j =>
         (Rsigmoid (lstm_gate 3 xt h b j) * tanh (nth (b * H + j) c' 0))%R) in
  (h', c').

Fixpoint lstm_steps (xs : list (list R)) (hc : list R * list R)
  : list R * (list R * list R) :=
  match xs with
  | [] => ([], hc)
  | xt :: xs' =>
      let hc' := lstm_cell xt hc in
      let (out, hcn) := lstm_steps xs' hc' in
      (fst hc' ++ out, hcn)
  end.
End LSTMForward.

(** [net(x, hx)]: returns [(output, (h_n, c_n))]; without [hx] the initial
    state is zero. *)
Definition lstm_forward (net : LSTM) (x : tensor) (hx : option (tensor * tensor))
  : result (tensor * (tensor * tensor)) :=
  match shape x with
  | [T; B; isz] =>
      if negb (isz =? input_size net)
      then Err (RuntimeError "input.size(-1) must be equal to input_size")
      else
        let H := hidden_size net in
        let state_shape := [1; B; H] in
        let start :=
          match hx with
          | None => Ok (zeros state_shape, zeros state_shape)
          | Some (h0, c0) =>
              if list_eq_dec Nat.eq_dec (shape h0) state_shape
              then if list_eq_dec Nat.eq_dec (shape c0) state_shape
                   then Ok (h0, c0)
                   else Err (RuntimeError "Expected hidden[1] size to match")
              else Err (RuntimeError "Expected hidden[0] size to match")
          end in
        match start with
        | Err e => Err e
        | Ok (h0, c0) =>
            let xs :=
              tab T (fun t => tab (B * isz) (fun i => get x (t * (B * isz) + i))) in
            let '(out, (hn, cn)) := lstm_steps net B xs (data h0, data c0) in
            Ok (mkTensor [T; B; H] out,
                (mkTensor state_shape hn, mkTensor state_shape cn))
        end
  | _ => Err (RuntimeError "LSTM: expected a 3D input")
  end.

(** What autograd and placement record about a tensor. *)
Inductive Device : Type := CPU | GPU.

Record autograd_tensor : Type := mkAutograd {
  values : tensor;
  requires_grad : bool;
  device : Device
}.

(** [nn.Parameter(t, requires_grad)]: a fresh leaf in host memory *)
Definition nn_Parameter (t : tensor) (grad : bool) : autograd_tensor :=
  mkAutograd t grad CPU.

(** [p.cuda()]: the same entries on the GPU; an object that is already
    there is returned as it is.  (A machine with a GPU is assumed: without
    one the call raises, which is not modelled.) *)
Definition to_cuda (p : autograd_tensor) : autograd_tensor :=
  mkAutograd (values p) (requires_grad p) GPU.

Definition str_of_Z (z : Z) : string :=
  match z with
  | Zneg _ => ("-" ++ str_of_nat (Z.abs_nat z))%string
  | _ => str_of_nat (Z.abs_nat z)
  end.

(* ================================================================== *)
(** ** arch.resnet and arch.reverselayer (imported by model.py) *)

(** The forward pass of a backbone, as [self.conv(dynamic)] uses it. *)
Definition Backbone : Type := tensor -> result tensor.

(** The constructors [model.py] imports from [arch.resnet]; each receives the
    number of input channels.  Their code is not part of this development:
    they are taken as given. *)
Record arch_resnet : Type := mkArch {
  resnet18 : nat -> M Backbone;
  resnet34 : nat -> M Backbone;
  resnet50 : nat -> M Backbone;
  resnet101 : nat -> M Backbone;
  resnet152 : nat -> M Backbone
}.

(** Modelled from the spec: [ReverseLayerF.apply] of [arch.reverselayer],
    whose code is not at hand.  "On the forward pass this is the identity";
    the coefficient only matters to the backward pass. *)
Definition ReverseLayerF_apply (x : tensor) (alpha : R) : tensor := x.

(* ================================================================== *)
(** ** class FeatureExtractor *)

Module FeatureExtractor.

Record t : Type := mk {
  time_len : nat;
  sequence_num : nat;
  output_dim : nat;
  cnn_type : string;
  time_type : string;
  fc_layers : Z;
  _cuda : bool;
  dropout : bool;
  cnn_config : Z;
  conv : Backbone;
  time_hid_dim : nat;
  time_net : LSTM;
  conv1x1 : nn_Module;
  fc_dim : nat;
  training : bool
}.

(** [resdim[cnn_config]] *)
Definition resdim (cnn_config : Z) : M nat :=
  if (cnn_config =? 18)%Z then ret 512
  else if (cnn_config =? 34)%Z then ret 512
  else if (cnn_config =? 50)%Z then ret 2048
  else if (cnn_config =? 101)%Z then ret 2048
  else if (cnn_config =? 152)%Z then ret 2048
  else raise (KeyError (str_of_Z cnn_config)).

Definition init_hidden (self : t) (hidden_dim batch layer : nat)
  : M (option (autograd_tensor * autograd_tensor)) :=
  h <- xavier_uniform_ [layer; batch; hidden_dim] ;;
  let document_rnn_init_h := nn_Parameter h true in
  let document_rnn_init_h :=
    if _cuda self then to_cuda document_rnn_init_h else document_rnn_init_h in
  if string_dec (time_type self) "lstm"
  then
    c <- xavier_uniform_ [layer; batch; hidden_dim] ;;
    let document_rnn_init_c := nn_Parameter c true in
    let document_rnn_init_c :=
      if _cuda self then to_cuda document_rnn_init_h else document_rnn_init_c in
    ret (Some (document_rnn_init_h, document_rnn_init_c))
  else ret None.

Definition hx_values (hx : option (autograd_tensor * autograd_tensor))
  : option (tensor * tensor) :=
  match hx with
  | Some (h, c) => Some (values h, values c)
  | None => None
  end.

(** The [batch] argument is rebound on the first line. *)
Definition get_feature (self : t) (dynamic : tensor) (batch : Z) (reset : bool)
  : M tensor :=
  batch <- shape_at dynamic 0 ;;
  dynamic <- (if rank dynamic =? 2 then lift (unsqueeze dynamic 1)
              else ret dynamic) ;;
  channels <- shape_at dynamic 1 ;;
  py_assert (channels =? sequence_num self)
    ("Dynamic shape: " ++ str_of_Size (shape dynamic)
     ++ " seq num: " ++ str_of_nat (sequence_num self))%string ;;;
  x <- lift (conv self dynamic) ;;
  x <- lift (permute3 x 2 0 1) ;;
  out <- (if reset && (if in_dec string_dec (time_type self) ["lstm"%string]
                       then true else false)
          then
            hx <- init_hidden self (time_hid_dim self) batch 1 ;;
            lift (lstm_forward (time_net self) x (hx_values hx))
          else lift (lstm_forward (time_net self) x None)) ;;
  let x := fst out in
  x <- lift (permute3 x 1 2 0) ;;
  call (training self) (conv1x1 self) x.

(** [a % b] and [a // b] on non-negative Python ints *)
Definition py_mod (a b : nat) : M nat :=
  if b =? 0 then raise (ZeroDivisionError "integer division or modulo by zero")
  else ret (a mod b).

Definition py_floordiv (a b : nat) : M nat :=
  if b =? 0 then raise (ZeroDivisionError "integer division or modulo by zero")
  else ret (a / b).

(** The body of [for i in _idx[:off]]. *)
Definition window_feature (self : t) (dynamic : tensor) (batch : Z)
    (reset : bool) (i : nat) : M tensor :=
  window <- lift (slice_last dynamic (i * time_len self)
                    ((i + 1) * time_len self)) ;;
  fea <- get_feature self window batch reset ;;
  lift (unsqueeze fea 1).

(** Lines 102-104: the shuffled window indices and the drawn [off];
    [off] is at least 1, so [_idx[:off]] is a prefix. *)
Definition draw_windows (k : nat) : M (Z * list nat) :=
  let _idx := np_arange k in
  _idx <- np_random_shuffle _idx ;;
  off <- np_random_randint 1 (Z.of_nat (length _idx) + 1) ;;
  ret (off, firstn (Z.to_nat off) _idx).

(** Line 110. *)
Definition average (feature : list tensor) : M tensor :=
  c <- lift (cat1 feature) ;;
  m <- lift (mean1 c) ;;
  lift (flatten1 m).

Definition forward (self : t) (dynamic : tensor)
    (feature : option (list tensor)) (batch : Z) (reset : bool) : M tensor :=
  feature <-
    match feature with
    | Some given => ret given
    | None =>
        L <- shape_last dynamic ;;
        r <- py_mod L (time_len self) ;;
        py_assert (r =? 0)
          ("dynamic shape: " ++ str_of_Size (shape dynamic))%string ;;;
        k <- py_floordiv L (time_len self) ;;
        drawn <- draw_windows k ;;
        for_each (snd drawn) (window_feature self dynamic batch reset)
    end ;;
  average feature.

Definition unsupported_depth_message (cnn_config : Z) : string :=
  ("Current ResNet arch also supports layer: [18, 34, 50, 101, 152], but got "
   ++ str_of_Z cnn_config)%string.

(** Lines 40-60: the backbone and the width of its last layer. *)
Definition select_backbone (arch : arch_resnet) (sequence_num : nat)
    (cnn_type : string) (cnn_config : Z) : M (Backbone * nat) :=
  if string_dec cnn_type "resnet"
  then
    conv <-
      (if (cnn_config =? 18)%Z then resnet18 arch sequence_num
       else if (cnn_config =? 34)%Z then resnet34 arch sequence_num
       else if (cnn_config =? 50)%Z then resnet50 arch sequence_num
       else if (cnn_config =? 101)%Z then resnet101 arch sequence_num
       else if (cnn_config =? 152)%Z then resnet152 arch sequence_num
       else print (unsupported_depth_message cnn_config) ;;;
            raise (SystemExit (-1))) ;;
    conv_last_dim <- resdim cnn_config ;;
    ret (conv, conv_last_dim)
  else raise NotImplementedError.

(** [FeatureExtractor(...)]; [arch] stands for the imported constructors.
    New modules are in training mode.  [fc_dim] is not yet set while the
    probe runs: the record holds 0 there, and [get_feature] does not read it. *)
Definition __init__ (arch : arch_resnet)
    (time_len sequence_num output_dim : nat) (cnn_type time_type : string)
    (fc_layers cnn_config : Z) (cuda dropout : bool) : M t :=
  built <- select_backbone arch sequence_num cnn_type cnn_config ;;
  let conv := fst built in
  let time_hid_dim := snd built in
  time_net <-
    (if string_dec time_type "lstm"
     then nn_LSTM time_hid_dim time_hid_dim
     else raise NotImplementedError) ;;
  c <- nn_Conv1d time_hid_dim 512 1 ;;
  let conv1x1 := Sequential [c; LeakyReLU 0.01] in
  let self :=
    mk time_len sequence_num output_dim cnn_type time_type fc_layers cuda
      dropout cnn_config conv time_hid_dim time_net conv1x1 0 true in
  let x := zeros [1; sequence_num; time_len] in
  x <- get_feature self x 1 false ;;
  x <- lift (view_1_m1 x) ;;
  d <- shape_at x 1 ;;
  ret (mk time_len sequence_num output_dim cnn_type time_type fc_layers cuda
         dropout cnn_config conv time_hid_dim time_net conv1x1 d true).

End FeatureExtractor.

(* ================================================================== *)
(** ** class Regressioner *)

(** [fc_dim_list[i]]; every index the constructors use is in range once
    their assertion on [fc_layers] has passed. *)
Definition fc_dim_list (in_dim : nat) : list nat :=
  [in_dim; 512; 256; 256; 128; 128].

(** [module_list[i]] for [0 <= i] *)
Definition module_list_get (ms : list nn_Module) (i : nat) : M nn_Module :=
  match nth_error ms i with
  | Some m => ret m
  | None => raise (IndexError ("index " ++ str_of_nat i ++ " is out of range"))
  end.

Module Regressioner.

Record t : Type := mk {
  in_dim : nat;
  output_dim : nat;
  fc_layers : Z;
  _cuda : bool;
  dropout : bool;
  fc : list nn_Module;
  training : bool
}.

Definition __init__ (in_dim output_dim : nat) (fc_layers : Z)
    (cuda dropout : bool) : M t :=
  let dims := fc_dim_list in_dim in
  py_assert ((fc_layers <=? 5)%Z && (0 <? fc_layers)%Z) "" ;;;
  fc_list <-
    for_each (seq 0 (Z.to_nat fc_layers))
      (fun i =>
         l <- nn_Linear (nth i dims 0) (nth (i + 1) dims 0) ;;
         ret (Sequential
                [l; if dropout then Dropout 0.1 else Identity; LeakyReLU 0.01])) ;;
  final <- nn_Linear (nth (Z.to_nat fc_layers) dims 0) output_dim ;;
  ret (mk in_dim output_dim fc_layers cuda dropout (fc_list ++ [final]) true).

(** [for i in range(_end): x = self.fc[i](x); fc_feature.append(x)] *)
Fixpoint stages (self : t) (idx : list nat) (x : tensor)
    (fc_feature : list tensor) : M (tensor * list tensor) :=
  match idx with
  | [] => ret (x, fc_feature)
  | i :: idx' =>
      m <- module_list_get (fc self) i ;;
      x <- call (training self) m x ;;
      stages self idx' x (fc_feature ++ [x])
  end.

Definition forward (self : t) (x : tensor) (_end : option Z)
  : M (tensor * list tensor) :=
  let _end :=
    match _end with
    | None => Z.of_nat (length (fc self))
    | Some e => e
    end in
  r <- stages self (seq 0 (Z.to_nat _end)) x [] ;;
  ret (sigmoid (fst r), snd r).

End Regressioner.

(* ================================================================== *)
(** ** class Classifier *)

Module Classifier.

Record t : Type := mk {
  in_dim : nat;
  fc_layers : Z;
  _cuda : bool;
  dropout : bool;
  fc : nn_Module;
  training : bool
}.

Definition __init__ (in_dim : nat) (fc_layers : Z) (cuda dropout : bool)
  : M t :=
  let dims := fc_dim_list in_dim in
  py_assert ((fc_layers <=? 5)%Z && (0 <? fc_layers)%Z) "" ;;;
  fc_list <-
    for_each (seq 0 (Z.to_nat fc_layers))
      (fun i =>
         l <- nn_Linear (nth i dims 0) (nth (i + 1) dims 0) ;;
         ret ([l] ++ (if dropout then [Dropout 0.1] else [])
              ++ [LeakyReLU 0.01])) ;;
  final <- nn_Linear (nth (Z.to_nat fc_layers) dims 0) 2 ;;
  ret (mk in_dim fc_layers cuda dropout
         (Sequential (concat fc_list ++ [final; LogSoftmax 1])) true).

Definition forward (self : t) (x : tensor) (alpha : R) : M tensor :=
  let x := ReverseLayerF_apply x alpha in
  call (training self) (fc self) x.

End Classifier.

(* ================================================================== *)
(** ** Instances and contracts the properties speak about *)

(** [similar m m']: [m'] has the layers of [m], whatever its parameters
    hold (what training changes). *)
Fixpoint similar (m m' : nn_Module) : Prop :=
  match m, m' with
  | Linear i o _ _, Linear i' o' _ _ => i = i' /\ o = o'
  | Dropout p, Dropout p' => p = p'
  | Identity, Identity => True
  | LeakyReLU s, LeakyReLU s' => s = s'
  | LogSoftmax d, LogSoftmax d' => d = d'
  | Conv1d i o k _ _, Conv1d i' o' k' _ _ => i = i' /\ o = o' /\ k = k'
  | Sequential ms, Sequential ms' =>
      (fix all2 (ms ms' : list nn_Module) : Prop :=
         match ms, ms' with
         | [], [] => True
         | a :: l, a' :: l' => similar a a' /\ all2 l l'
         | _, _ => False
         end) ms ms'
  | _, _ => False
  end.

(** Width of the last axis after module [m], for an input whose last axis
    has width [d] and which has at least two axes; [None] where the module
    rejects that width. *)
Fixpoint width_after (m : nn_Module) (d : nat) : option nat :=
  match m with
  | Linear i o _ _ => if d =? i then Some o else None
  | Dropout _ | Identity | LeakyReLU _ => Some d
  | LogSoftmax dim => if dim =? 1 then Some d else None
  | Conv1d _ _ _ _ _ => None
  | Sequential ms =>
      (fix go (ms : list nn_Module) (d : nat) : option nat :=
         match ms with
         | [] => Some d
         | m' :: ms' =>
             match width_after m' d with
             | Some d' => go ms' d'
             | None => None
             end
         end) ms d
  end.

(** Modelled from the spec: the backbones of [arch.resnet], whose code is
    not at hand.  "Backbone output: rank-3 array [batch, channels,
    time_steps]": on a batch of windows the batch axis passes through, and
    whether a window is accepted, and with which channel and step counts,
    depends on its length only. *)
Definition backbone_contract (conv : Backbone) (channels : nat) : Prop :=
  forall x y B L,
    wf_tensor x -> shape x = [B; channels; L] -> conv x = Ok y ->
    wf_tensor y /\
    exists c t,
      shape y = [B; c; t] /\
      forall x' B',
        wf_tensor x' -> shape x' = [B'; channels; L] ->
        exists y', conv x' = Ok y' /\ wf_tensor y' /\ shape y' = [B'; c; t].

Fixpoint widths_after (ms : list nn_Module) (d : nat) : option nat :=
  match ms with
  | [] => Some d
  | m :: ms' =>
      match width_after m d with
      | Some d' => widths_after ms' d'
      | None => None
      end
  end.

Definition supported_depth (cnn_config : Z) : Prop :=
  In cnn_config [18; 34; 50; 101; 152]%Z.

(** A regression head that was constructed and then trained or switched
    between training and evaluation mode. *)
Definition Regressioner_retrained (r0 r : Regressioner.t) : Prop :=
  Regressioner.in_dim r = Regressioner.in_dim r0
  /\ Regressioner.output_dim r = Regressioner.output_dim r0
  /\ Regressioner.fc_layers r = Regressioner.fc_layers r0
  /\ Regressioner.dropout r = Regressioner.dropout r0
  /\ similar (Sequential (Regressioner.fc r0)) (Sequential (Regressioner.fc r)).

Definition Regressioner_constructed (r : Regressioner.t) : Prop :=
  exists in_dim output_dim fc_layers cuda dropout w0 r0 w1,
    Regressioner.__init__ in_dim output_dim fc_layers cuda dropout w0 = (Ok r0, w1)
    /\ Regressioner_retrained r0 r.

Definition Classifier_retrained (c0 c : Classifier.t) : Prop :=
  Classifier.in_dim c = Classifier.in_dim c0
  /\ Classifier.fc_layers c = Classifier.fc_layers c0
  /\ Classifier.dropout c = Classifier.dropout c0
  /\ similar (Classifier.fc c0) (Classifier.fc c).

Definition Classifier_constructed (c : Classifier.t) : Prop :=
  exists in_dim fc_layers cuda dropout w0 c0 w1,
    Classifier.__init__ in_dim fc_layers cuda dropout w0 = (Ok c0, w1)
    /\ Classifier_retrained c0 c.

(** The prefix lengths [Regressioner.forward] can be asked for: [None] (all
    stages) or a count that does not exceed the number of stages. *)
Definition valid_end (r : Regressioner.t) (_end : option Z) : Prop :=
  match _end with
  | None => True
  | Some e => (e <= Z.of_nat (length (Regressioner.fc r)))%Z
  end.

Definition in_unit_interval (t : tensor) : Prop :=
  forall v, In v (data t) -> (0 <= v <= 1)%R.

(** Row [b] of a matrix. *)
Definition row (t : tensor) (b : nat) : list R :=
  let d := nth 1 (shape t) 0 in
  firstn d (skipn (b * d) (data t)).

(** A feature extractor that was constructed and then trained or switched
    between training and evaluation mode: the configuration, the backbone
    and the layer dimensions stay, the parameters of the recurrent layer and
    of the projection may hold anything. *)
Definition FeatureExtractor_retrained (fe0 fe : FeatureExtractor.t) : Prop :=
  FeatureExtractor.time_len fe = FeatureExtractor.time_len fe0
  /\ FeatureExtractor.sequence_num fe = FeatureExtractor.sequence_num fe0
  /\ FeatureExtractor.time_type fe = FeatureExtractor.time_type fe0
  /\ FeatureExtractor._cuda fe = FeatureExtractor._cuda fe0
  /\ (FeatureExtractor.output_dim fe = FeatureExtractor.output_dim fe0
      /\ FeatureExtractor.cnn_type fe = FeatureExtractor.cnn_type fe0
      /\ FeatureExtractor.fc_layers fe = FeatureExtractor.fc_layers fe0
      /\ FeatureExtractor.dropout fe = FeatureExtractor.dropout fe0
      /\ FeatureExtractor.cnn_config fe = FeatureExtractor.cnn_config fe0
      /\ FeatureExtractor.conv fe = FeatureExtractor.conv fe0)
  /\ FeatureExtractor.time_hid_dim fe = FeatureExtractor.time_hid_dim fe0
  /\ FeatureExtractor.fc_dim fe = FeatureExtractor.fc_dim fe0
  /\ input_size (FeatureExtractor.time_net fe)
     = input_size (FeatureExtractor.time_net fe0)
  /\ hidden_size (FeatureExtractor.time_net fe)
     = hidden_size (FeatureExtractor.time_net fe0)
  /\ similar (FeatureExtractor.conv1x1 fe0) (FeatureExtractor.conv1x1 fe).

Definition FeatureExtractor_constructed (arch : arch_resnet)
    (fe : FeatureExtractor.t) : Prop :=
  exists time_len sequence_num output_dim cnn_type time_type fc_layers
         cnn_config cuda dropout w0 fe0 w1,
    FeatureExtractor.__init__ arch time_len sequence_num output_dim cnn_type
      time_type fc_layers cnn_config cuda dropout w0 = (Ok fe0, w1)
    /\ FeatureExtractor_retrained fe0 fe.

(** The layers every instance of [FeatureExtractor] holds. *)
Definition FeatureExtractor_layers (fe : FeatureExtractor.t) : Prop :=
  FeatureExtractor.time_type fe = "lstm"%string
  /\ 0 < FeatureExtractor.time_hid_dim fe
  /\ input_size (FeatureExtractor.time_net fe) = FeatureExtractor.time_hid_dim fe
  /\ hidden_size (FeatureExtractor.time_net fe) = FeatureExtractor.time_hid_dim fe
  /\ exists W b,
       FeatureExtractor.conv1x1 fe
       = Sequential [Conv1d (FeatureExtractor.time_hid_dim fe) 512 1 W b;
                     LeakyReLU 0.01].

(** Two worlds agree on what a call with flag [reset] can draw from: on
    numpy's random state always, on torch's generator when [reset] is set. *)
Definition same_seed (reset : bool) (w1 w2 : World) : Prop :=
  np_rng w1 = np_rng w2 /\ (reset = true -> torch_rng w1 = torch_rng w2).

(** A computation yields the same result, and related worlds, from related
    worlds. *)
Definition respects {A} (R : World -> World -> Prop) (m : M A) : Prop :=
  forall w1 w2, R w1 w2 -> fst (m w1) = fst (m w2) /\ R (snd (m w1)) (snd (m w2)).

(** A world to run examples in, and stand-ins for [arch.resnet] that meet
    the backbone contract: one output step per input sample, all zero. *)
Definition world0 : World :=
  mkWorld (mkGenerator (fun _ => 0%R) 0) (mkRandomState (fun _ => 0) 0) [].

(** A world whose torch generator yields the same sample [u] forever. *)
Definition world_with_tape (u : R) : World :=
  mkWorld (mkGenerator (fun _ => u) 0) (mkRandomState (fun _ => 0) 0) [].

(** A world whose torch generator yields 0 first and 1/2 from then on. *)
Definition world_stepping : World :=
  mkWorld (mkGenerator (fun n => if n =? 0 then 0%R else (1 / 2)%R) 0)
    (mkRandomState (fun _ => 0) 0) [].

(** The bound of [xavier_uniform_] on dimensions [[layer, batch, hidden]]. *)
Definition xavier_bound (layer batch hidden : nat) : R :=
  (sqrt 3 * (1 * sqrt (2 / INR (batch * numel [hidden] + layer * numel [hidden]))))%R.

(** A world whose numpy source yields the raw draws 1, 2, 3, ... *)
Definition world_counting : World :=
  mkWorld (mkGenerator (fun _ => 0%R) 0) (mkRandomState (fun n => n + 1) 0) [].

Definition constant_backbone (channels : nat) : Backbone :=
  fun x =>
    match shape x with
    | [B; _; L] => Ok (zeros [B; channels; L])
    | _ => Err (RuntimeError "expected a 3D input")
    end.

Definition constant_arch : arch_resnet :=
  mkArch (fun _ => ret (constant_backbone 512))
         (fun _ => ret (constant_backbone 512))
         (fun _ => ret (constant_backbone 2048))
         (fun _ => ret (constant_backbone 2048))
         (fun _ => ret (constant_backbone 2048)).

(** What one recurrent unit with all-zero weights makes of the cell entry
    [c0], and the draw [xavier_uniform_] makes of the sample [u] on the
    dimensions [[1, 1, 512]]. *)
Definition zero_weight_unit (c0 : R) : R :=
  (Rsigmoid 0 * tanh (Rsigmoid 0 * c0 + Rsigmoid 0 * tanh 0))%R.

Definition xavier_sample (u : R) : R :=
  (- xavier_bound 1 1 512
   + (xavier_bound 1 1 512 - - xavier_bound 1 1 512) * u)%R.

(** [torch.ones] on the dimensions [s] *)
Definition ones (s : list nat) : tensor := mkTensor s (repeat 1%R (numel s)).

(** An 18-layer instance over the stand-in backbone, with chosen parameters:
    a recurrent layer whose weights and biases are all 0 and a projection
    whose weights are all 1 and whose biases are all 0. *)
Definition sample_extractor (time_len sequence_num : nat) (cuda : bool)
  : FeatureExtractor.t :=
  FeatureExtractor.mk time_len sequence_num 1 "resnet" "lstm" 1 cuda false 18
    (constant_backbone 512) 512
    (mkLSTM 512 512 (zeros [4 * 512; 512]) (zeros [4 * 512; 512])
       (zeros [4 * 512]) (zeros [4 * 512]))
    (Sequential [Conv1d 512 512 1 (ones [512; 512; 1]) (zeros [512]);
                 LeakyReLU 0.01])
    (512 * time_len) true.

(* ================================================================== *)
(** ** What a computation leaves alone, and the layers of the heads *)

(** [keeps Q m]: whether [m] returns or raises, it takes every world [w] to
    a world [w'] with [Q w w']. *)
Definition keeps {A} (Q : World -> World -> Prop) (m : M A) : Prop :=
  forall w, Q w (snd (m w)).

Definition untouched (w w' : World) : Prop := w' = w.

(** Only torch's generator may have advanced. *)
Definition torch_only (w w' : World) : Prop :=
  np_rng w' = np_rng w /\ stdout w' = stdout w.

(** Only numpy's random state may have advanced. *)
Definition numpy_only (w w' : World) : Prop :=
  torch_rng w' = torch_rng w /\ stdout w' = stdout w.

(** Nothing was printed. *)
Definition silent (w w' : World) : Prop := stdout w' = stdout w.

(** The world after [n] more samples of torch's generator were consumed. *)
Definition advance (n : nat) (w : World) : World :=
  mkWorld (mkGenerator (g_tape (torch_rng w)) (g_pos (torch_rng w) + n))
    (np_rng w) (stdout w).

(** Whether a module holds an [nn.Dropout], the one layer of this file
    whose forward pass draws random numbers. *)
Fixpoint has_dropout (m : nn_Module) : bool :=
  match m with
  | Dropout _ => true
  | Sequential ms =>
      (fix any (ms : list nn_Module) : bool :=
         match ms with
         | [] => false
         | m' :: ms' => has_dropout m' || any ms'
         end) ms
  | _ => false
  end.

(** The widths of the activations that the modules [ms] produce in turn
    from an input of width [d]. *)
Fixpoint stage_widths (ms : list nn_Module) (d : nat) : option (list nat) :=
  match ms with
  | [] => Some []
  | m :: ms' =>
      match width_after m d with
      | Some d' =>
          match stage_widths ms' d' with
          | Some ds => Some (d' :: ds)
          | None => None
          end
      | None => None
      end
  end.

(** The layers [Regressioner.__init__] (lines 150-157) and
    [Classifier.__init__] (lines 186-192) put in place for [n] hidden
    stages, with every parameter left empty: [similar] compares an instance
    to them. *)
Definition Regressioner_layout (in_dim output_dim n : nat) (dropout : bool)
  : list nn_Module :=
  let dims := fc_dim_list in_dim in
  map (fun i =>
         Sequential
           [Linear (nth i dims 0) (nth (i + 1) dims 0) (zeros []) (zeros []);
            if dropout then Dropout 0.1 else Identity;
            LeakyReLU 0.01])
      (seq 0 n)
  ++ [Linear (nth n dims 0) output_dim (zeros []) (zeros [])].

Definition Classifier_layout (in_dim n : nat) (dropout : bool)
  : list nn_Module :=
  let dims := fc_dim_list in_dim in
  concat
    (map (fun i =>
            [Linear (nth i dims 0) (nth (i + 1) dims 0) (zeros []) (zeros [])]
            ++ (if dropout then [Dropout 0.1] else [])
            ++ [LeakyReLU 0.01])
         (seq 0 n))
  ++ [Linear (nth n dims 0) 2 (zeros []) (zeros []); LogSoftmax 1].

(* ================================================================== *)
(** * Properties *)

Unset Implicit Arguments.

(** ** Lists and tabulation *)

Lemma length_tab {A} (n : nat) (f : nat -> A) : length (tab n f) = n.
Proof. unfold tab. now rewrite length_map, length_seq. Qed.

Lemma length_flat_map_const {A B} (f : A -> list B) (l : list A) (m : nat) :
  (forall a, In a l -> length (f a) = m) ->
  length (flat_map f l) = length l * m.
Proof.
  induction l as [|a l IH]; intros Hf; simpl.
  - reflexivity.
  - rewrite length_app, Hf by (now left).
    rewrite IH by (intros; apply Hf; now right). lia.
Qed.

Lemma length_tab2 {A} (n m : nat) (f : nat -> nat -> A) :
  length (tab2 n m f) = n * m.
Proof.
  unfold tab2. rewrite length_flat_map_const with (m := m).
  - now rewrite length_seq.
  - intros; apply length_tab.
Qed.

Lemma length_tab3 {A} (n m k : nat) (f : nat -> nat -> nat -> A) :
  length (tab3 n m k f) = n * (m * k).
Proof.
  unfold tab3. rewrite length_flat_map_const with (m := m * k).
  - now rewrite length_seq.
  - intros; apply length_tab2.
Qed.

Lemma nth_tab {A} (n : nat) (f : nat -> A) (i : nat) (d : A) :
  i < n -> nth i (tab n f) d = f i.
Proof.
  intros Hi. unfold tab.
  rewrite nth_indep with (d' := f 0) by (now rewrite length_map, length_seq).
  rewrite map_nth. now rewrite seq_nth.
Qed.

Lemma nth_flat_map_const {B} (f : nat -> list B) (n m i j : nat) (d : B) :
  (forall a, a < n -> length (f a) = m) ->
  i < n -> j < m ->
  nth (i * m + j) (flat_map f (seq 0 n)) d = nth j (f i) d.
Proof.
  intros Hlen. revert i.
  assert (G : forall s k i, (forall a, s <= a < s + k -> length (f a) = m) ->
              i < k -> j < m ->
              nth (i * m + j) (flat_map f (seq s k)) d = nth j (f (s + i)) d).
  { intros s k; revert s. induction k as [|k IH]; intros s i Hl Hi Hj; [lia|].
    simpl. destruct i as [|i].
    - rewrite app_nth1 by (rewrite Hl; lia).
      now rewrite Nat.add_0_r.
    - rewrite app_nth2 by (rewrite Hl; lia).
      rewrite Hl by lia.
      replace (S i * m + j - m) with (i * m + j) by lia.
      rewrite IH by (try lia; intros; apply Hl; lia).
      f_equal. f_equal. lia. }
  intros i Hi Hj. rewrite G; auto. intros; apply Hlen; lia.
Qed.

Lemma nth_tab2 {A} (n m : nat) (f : nat -> nat -> A) (i j : nat) (d : A) :
  i < n -> j < m -> nth (i * m + j) (tab2 n m f) d = f i j.
Proof.
  intros Hi Hj. unfold tab2.
  rewrite nth_flat_map_const with (m := m); auto.
  - now apply nth_tab.
  - intros; apply length_tab.
Qed.

Lemma nth_tab3 {A} (n m k : nat) (f : nat -> nat -> nat -> A)
      (a b c : nat) (d : A) :
  a < n -> b < m -> c < k ->
  nth (a * (m * k) + (b * k + c)) (tab3 n m k f) d = f a b c.
Proof.
  intros Ha Hb Hc. unfold tab3.
  rewrite nth_flat_map_const with (m := m * k); auto.
  - now apply nth_tab2.
  - intros; apply length_tab2.
  - nia.
Qed.

Lemma numel_cons (a : nat) (s : list nat) : numel (a :: s) = a * numel s.
Proof. reflexivity. Qed.

Lemma numel_nil : numel [] = 1.
Proof. reflexivity. Qed.

Lemma numel_app (s s' : list nat) : numel (s ++ s') = numel s * numel s'.
Proof.
  induction s as [|a s IH].
  - rewrite numel_nil. simpl. lia.
  - change ((a :: s) ++ s') with (a :: (s ++ s')).
    rewrite !numel_cons, IH. lia.
Qed.

(** ** The effect monad *)

Lemma bind_ok {A B} (m : M A) (k : A -> M B) (w w' : World) (a : A) :
  m w = (Ok a, w') -> bind m k w = k a w'.
Proof. intros H. unfold bind. now rewrite H. Qed.
Arguments bind_ok {A B m} k {w w' a} _.

Lemma bind_err {A B} (m : M A) (k : A -> M B) (w w' : World) (e : exn) :
  m w = (Err e, w') -> bind m k w = (Err e, w').
Proof. intros H. unfold bind. now rewrite H. Qed.
Arguments bind_err {A B m} k {w w' e} _.

Lemma bind_ok_inv {A B} (m : M A) (k : A -> M B) (w w' : World) (b : B) :
  bind m k w = (Ok b, w') ->
  exists a w1, m w = (Ok a, w1) /\ k a w1 = (Ok b, w').
Proof.
  unfold bind. destruct (m w) as [[a|e] w1]; intros H.
  - now exists a, w1.
  - discriminate.
Qed.

Lemma lift_ok_inv {A} (r : result A) (w w' : World) (a : A) :
  lift r w = (Ok a, w') -> r = Ok a /\ w' = w.
Proof. unfold lift. intros H; inversion H; auto. Qed.

Lemma ret_ok_inv {A} (a a' : A) (w w' : World) :
  ret a w = (Ok a', w') -> a = a' /\ w' = w.
Proof. unfold ret. intros H; inversion H; auto. Qed.

Lemma py_assert_ok_inv (c : bool) (msg : string) (w w' : World) (u : unit) :
  py_assert c msg w = (Ok u, w') -> c = true /\ w' = w.
Proof.
  unfold py_assert. destruct c; unfold ret, raise; intros H; inversion H; auto.
Qed.

(** Inverts a successful run, one [bind] at a time. *)
Ltac inv_run H :=
  repeat match type of H with
    | bind _ _ _ = (Ok _, _) =>
        let a := fresh "a" in
        let w := fresh "w" in
        let H1 := fresh "Hrun" in
        apply bind_ok_inv in H; destruct H as (a & w & H1 & H);
        cbv beta zeta in H
    end.

Lemma for_each_total {A B} (body : A -> M B) (P : A -> B -> Prop) (l : list A) :
  (forall a w, In a l -> exists b w', body a w = (Ok b, w') /\ P a b) ->
  forall w, exists bs w', for_each l body w = (Ok bs, w') /\ Forall2 P l bs.
Proof.
  induction l as [|a l IH]; intros Hbody w; simpl.
  - exists [], w. split; [reflexivity | constructor].
  - destruct (Hbody a w (or_introl eq_refl)) as (b & w1 & Hb & HP).
    destruct (IH (fun a' w' Hin => Hbody a' w' (or_intror Hin)) w1)
      as (bs & w2 & Hbs & HPs).
    exists (b :: bs), w2. split.
    + rewrite (bind_ok _ Hb). rewrite (bind_ok _ Hbs). reflexivity.
    + now constructor.
Qed.

Lemma for_each_ok_inv {A B} (body : A -> M B) (l : list A) (w w' : World)
      (bs : list B) :
  for_each l body w = (Ok bs, w') ->
  Forall2 (fun a b => exists w1 w2, body a w1 = (Ok b, w2)) l bs.
Proof.
  revert w w' bs. induction l as [|a l IH]; intros w w' bs H; simpl in H.
  - apply ret_ok_inv in H. destruct H as [<- _]. constructor.
  - inv_run H. apply ret_ok_inv in H. destruct H as [<- _].
    constructor.
    + eexists _, _; eassumption.
    + eapply IH; eassumption.
Qed.

(** ** Parameter initialisation *)

Lemma uniform__run (s : list nat) (lo hi : R) (w : World) :
  exists t w',
    uniform_ s lo hi w = (Ok t, w') /\ shape t = s /\ wf_tensor t
    /\ np_rng w' = np_rng w /\ stdout w' = stdout w.
Proof.
  eexists _, _. split; [reflexivity|]. simpl.
  repeat split. unfold wf_tensor; simpl. apply length_tab.
Qed.

Lemma nn_Linear_run (i o : nat) (w : World) :
  exists W b w',
    nn_Linear i o w = (Ok (Linear i o W b), w')
    /\ shape W = [o; i] /\ wf_tensor W /\ shape b = [o] /\ wf_tensor b.
Proof.
  unfold nn_Linear.
  destruct (uniform__run [o; i] (- kaiming_bound i) (kaiming_bound i) w)
    as (W & w1 & HW & sW & wW & _).
  destruct (uniform__run [o] (- bias_bound i) (bias_bound i) w1)
    as (b & w2 & Hb & sb & wb & _).
  exists W, b, w2. rewrite (bind_ok _ HW), (bind_ok _ Hb). auto.
Qed.

Lemma nn_Conv1d_run (i o k : nat) (w : World) :
  exists W b w',
    nn_Conv1d i o k w = (Ok (Conv1d i o k W b), w')
    /\ shape W = [o; i; k] /\ wf_tensor W /\ shape b = [o] /\ wf_tensor b.
Proof.
  unfold nn_Conv1d.
  destruct (uniform__run [o; i; k] (- kaiming_bound (i * k))
              (kaiming_bound (i * k)) w) as (W & w1 & HW & sW & wW & _).
  destruct (uniform__run [o] (- bias_bound (i * k)) (bias_bound (i * k)) w1)
    as (b & w2 & Hb & sb & wb & _).
  exists W, b, w2. rewrite (bind_ok _ HW), (bind_ok _ Hb). auto.
Qed.

Lemma nn_LSTM_run (i h : nat) (w : World) :
  exists net w',
    nn_LSTM i h w = (Ok net, w') /\ input_size net = i /\ hidden_size net = h.
Proof.
  unfold nn_LSTM. set (stdv := if h =? 0 then _ else _).
  destruct (uniform__run [4 * h; i] (- stdv) stdv w) as (a & w1 & Ha & _).
  destruct (uniform__run [4 * h; h] (- stdv) stdv w1) as (b & w2 & Hb & _).
  destruct (uniform__run [4 * h] (- stdv) stdv w2) as (c & w3 & Hc & _).
  destruct (uniform__run [4 * h] (- stdv) stdv w3) as (d & w4 & Hd & _).
  eexists _, w4.
  rewrite (bind_ok _ Ha), (bind_ok _ Hb), (bind_ok _ Hc), (bind_ok _ Hd).
  split; [reflexivity|]. auto.
Qed.


(** ** Modules: structure and widths *)

Lemma nn_Module_induction (P : nn_Module -> Prop) :
  (forall i o w b, P (Linear i o w b)) ->
  (forall p, P (Dropout p)) ->
  P Identity ->
  (forall s, P (LeakyReLU s)) ->
  (forall d, P (LogSoftmax d)) ->
  (forall i o k w b, P (Conv1d i o k w b)) ->
  (forall ms, Forall P ms -> P (Sequential ms)) ->
  forall m, P m.
Proof.
  intros HL HD HI HR HS HC HQ.
  fix IH 1. intros [i o w b|p| |s|d|i o k w b|ms].
  - apply HL.
  - apply HD.
  - apply HI.
  - apply HR.
  - apply HS.
  - apply HC.
  - apply HQ. induction ms as [|m ms IHms]; constructor.
    + apply IH.
    + exact IHms.
Qed.

Lemma width_after_Sequential (ms : list nn_Module) (d : nat) :
  width_after (Sequential ms) d = widths_after ms d.
Proof.
  revert d. induction ms as [|m ms IH]; intros d; [reflexivity|].
  simpl. destruct (width_after m d); [apply IH | reflexivity].
Qed.

Lemma widths_after_app (l1 l2 : list nn_Module) (d : nat) :
  widths_after (l1 ++ l2) d =
  match widths_after l1 d with
  | Some d' => widths_after l2 d'
  | None => None
  end.
Proof.
  revert d. induction l1 as [|m l1 IH]; intros d; simpl; [reflexivity|].
  destruct (width_after m d); [apply IH | reflexivity].
Qed.

Lemma similar_Sequential (ms ms' : list nn_Module) :
  similar (Sequential ms) (Sequential ms') <-> Forall2 similar ms ms'.
Proof.
  revert ms'. induction ms as [|m ms IH]; intros [|m' ms'].
  - split; intros; constructor.
  - split; intros H; [destruct H | inversion H].
  - split; intros H; [destruct H | inversion H].
  - split.
    + intros [H1 H2]. constructor; [assumption|]. apply IH. exact H2.
    + intros H. inversion H; subst. split; [assumption|].
      apply (proj2 (IH ms')). assumption.
Qed.

Lemma similar_width (m : nn_Module) :
  forall m' d, similar m m' -> width_after m' d = width_after m d.
Proof.
  induction m using nn_Module_induction; intros m' d' Hs; destruct m'; simpl in Hs;
    try contradiction; try (subst; reflexivity).
  - destruct Hs as [-> ->]. reflexivity.
  - change (similar (Sequential ms) (Sequential layers)) in Hs.
    apply similar_Sequential in Hs.
    rewrite !width_after_Sequential.
    revert d'. induction Hs as [|a a' l l' Ha Hl IHl]; intros d'; [reflexivity|].
    simpl. inversion H; subst.
    rewrite (H2 _ _ Ha). destruct (width_after a d'); [|reflexivity].
    apply IHl. assumption.
Qed.

Lemma similar_refl (m : nn_Module) : similar m m.
Proof.
  induction m using nn_Module_induction; simpl; auto.
  change (similar (Sequential ms) (Sequential ms)).
  apply similar_Sequential. induction H; constructor; auto.
Qed.

Lemma call_Sequential (training : bool) (ms : list nn_Module) :
  forall x w, call training (Sequential ms) x w = call_all training ms x w.
Proof.
  induction ms as [|m ms IH]; intros x w; [reflexivity|].
  simpl. unfold bind. destruct (call training m x w) as [[y|e] w1].
  - apply IH.
  - reflexivity.
Qed.

Lemma call_all_app (training : bool) (l1 l2 : list nn_Module) :
  forall x w,
    call_all training (l1 ++ l2) x w
    = bind (call_all training l1 x) (call_all training l2) w.
Proof.
  induction l1 as [|m l1 IH]; intros x w; [reflexivity|].
  simpl. unfold bind. destruct (call training m x w) as [[y|e] w1].
  - rewrite IH. reflexivity.
  - reflexivity.
Qed.

Lemma linear_shape2 (i o : nat) (W b x : tensor) (B : nat) :
  shape x = [B; i] ->
  exists y, linear i o W b x = Ok y /\ shape y = [B; o].
Proof.
  intros Hx. unfold linear. rewrite Hx. simpl. rewrite Nat.eqb_refl.
  eexists. split; reflexivity.
Qed.

Lemma log_softmax_shape2 (x : tensor) (B d : nat) :
  shape x = [B; d] ->
  exists y, log_softmax 1 x = Ok y /\ shape y = [B; d].
Proof.
  intros Hx. unfold log_softmax. rewrite Hx.
  eexists. split; reflexivity.
Qed.

Lemma F_dropout_run (p : R) (training : bool) (x : tensor) (w : World) :
  exists y w', F_dropout p training x w = (Ok y, w') /\ shape y = shape x.
Proof.
  unfold F_dropout. destruct training.
  - destruct (uniform__run (shape x) 0 1 w) as (n & w1 & Hn & _).
    eexists _, w1. rewrite (bind_ok _ Hn). split; reflexivity.
  - exists x, w. split; reflexivity.
Qed.

(** A module whose width on [d] is defined accepts every rank-2 input of
    that width, whatever the mode and the state of the generator. *)
Lemma call_width (training : bool) (m : nn_Module) :
  forall x B d d' w,
    shape x = [B; d] -> width_after m d = Some d' ->
    exists y w', call training m x w = (Ok y, w') /\ shape y = [B; d'].
Proof.
  induction m as [i o W b|p| |s|dim|i o k W b|ms IHms] using nn_Module_induction;
    intros x B d d' w Hx Hw; simpl in Hw.
  - destruct (Nat.eqb_spec d i) as [->|]; [|discriminate].
    injection Hw as <-.
    destruct (@linear_shape2 i o W b x B Hx) as (y & Hy & Hs).
    exists y, w. simpl. unfold lift. rewrite Hy. auto.
  - injection Hw as <-.
    destruct (F_dropout_run p training x w) as (y & w' & Hy & Hs).
    exists y, w'. split; [exact Hy|]. congruence.
  - injection Hw as <-. exists x, w. auto.
  - injection Hw as <-. eexists _, w. split; [reflexivity|]. exact Hx.
  - destruct (Nat.eqb_spec dim 1) as [->|]; [|discriminate].
    injection Hw as <-.
    destruct (@log_softmax_shape2 x B d Hx) as (y & Hy & Hs).
    exists y, w. cbn [call]. unfold lift. rewrite Hy. auto.
  - discriminate.
  - change (width_after (Sequential ms) d = Some d') in Hw.
    rewrite width_after_Sequential in Hw.
    revert x d w Hx Hw. induction IHms as [|m ms Hm _ IH]; intros x d w Hx Hw.
    + injection Hw as <-. exists x, w. auto.
    + simpl in Hw. destruct (width_after m d) as [d1|] eqn:E; [|discriminate].
      destruct (Hm x B d d1 w Hx E) as (y & w1 & Hy & Hs).
      destruct (IH y d1 w1 Hs Hw) as (z & w2 & Hz & Hsz).
      exists z, w2. rewrite call_Sequential in *. simpl.
      rewrite (bind_ok _ Hy). auto.
Qed.

Lemma call_all_width (training : bool) (ms : list nn_Module) :
  forall x B d d' w,
    shape x = [B; d] -> widths_after ms d = Some d' ->
    exists y w', call_all training ms x w = (Ok y, w') /\ shape y = [B; d'].
Proof.
  intros x B d d' w Hx Hw. rewrite <- call_Sequential.
  apply call_width with (d := d); [exact Hx|].
  now rewrite width_after_Sequential.
Qed.

Lemma widths_after_prefix (l1 l2 : list nn_Module) (d d' : nat) :
  widths_after (l1 ++ l2) d = Some d' ->
  exists d1, widths_after l1 d = Some d1 /\ widths_after l2 d1 = Some d'.
Proof.
  rewrite widths_after_app. destruct (widths_after l1 d) as [d1|]; [|discriminate].
  intros H. now exists d1.
Qed.

(** ** Sigmoid and log-softmax on reals *)

Lemma Rsigmoid_bounds (x : R) : (0 < Rsigmoid x < 1)%R.
Proof.
  unfold Rsigmoid. pose proof (exp_pos (- x)) as He.
  split.
  - apply Rdiv_lt_0_compat; lra.
  - apply Rmult_lt_reg_r with (r := (1 + exp (- x))%R); [lra|].
    unfold Rdiv. rewrite Rmult_assoc, Rinv_l by lra. lra.
Qed.

Lemma sigmoid_unit_interval (t : tensor) (v : R) :
  In v (data (sigmoid t)) -> (0 <= v <= 1)%R.
Proof.
  unfold sigmoid, map_tensor. simpl. rewrite in_map_iff.
  intros (x & <- & _). pose proof (Rsigmoid_bounds x). lra.
Qed.

Lemma sigmoid_shape (t : tensor) : shape (sigmoid t) = shape t.
Proof. reflexivity. Qed.

(** ** Constructors: what they accept *)

Lemma fc_layers_check (fc_layers : Z) :
  ((fc_layers <=? 5)%Z && (0 <? fc_layers)%Z) = true <-> (1 <= fc_layers <= 5)%Z.
Proof. rewrite andb_true_iff, Z.leb_le, Z.ltb_lt. lia. Qed.

Lemma Regressioner_init_rejects in_dim output_dim fc_layers cuda dropout w :
  (fc_layers < 1 \/ 5 < fc_layers)%Z ->
  Regressioner.__init__ in_dim output_dim fc_layers cuda dropout w
  = (Err (AssertionError ""), w).
Proof.
  intros H. unfold Regressioner.__init__.
  destruct ((fc_layers <=? 5)%Z && (0 <? fc_layers)%Z) eqn:E.
  - apply fc_layers_check in E. lia.
  - reflexivity.
Qed.

Lemma Classifier_init_rejects in_dim fc_layers cuda dropout w :
  (fc_layers < 1 \/ 5 < fc_layers)%Z ->
  Classifier.__init__ in_dim fc_layers cuda dropout w
  = (Err (AssertionError ""), w).
Proof.
  intros H. unfold Classifier.__init__.
  destruct ((fc_layers <=? 5)%Z && (0 <? fc_layers)%Z) eqn:E.
  - apply fc_layers_check in E. lia.
  - reflexivity.
Qed.

Lemma FeatureExtractor_init_rejects_depth arch time_len sequence_num output_dim
      time_type fc_layers cnn_config cuda dropout w :
  ~ supported_depth cnn_config ->
  FeatureExtractor.__init__ arch time_len sequence_num output_dim "resnet"
    time_type fc_layers cnn_config cuda dropout w
  = (Err (SystemExit (-1)),
     mkWorld (torch_rng w) (np_rng w)
       (stdout w ++ [FeatureExtractor.unsupported_depth_message cnn_config])).
Proof.
  intros H.
  unfold FeatureExtractor.__init__, FeatureExtractor.select_backbone,
    supported_depth in *.
  simpl in H.
  destruct (string_dec "resnet" "resnet") as [_|N]; [|now elim N].
  destruct (Z.eqb_spec cnn_config 18); [lia|].
  destruct (Z.eqb_spec cnn_config 34); [lia|].
  destruct (Z.eqb_spec cnn_config 50); [lia|].
  destruct (Z.eqb_spec cnn_config 101); [lia|].
  destruct (Z.eqb_spec cnn_config 152); [lia|].
  reflexivity.
Qed.

Lemma FeatureExtractor_init_rejects_family arch time_len sequence_num output_dim
      cnn_type time_type fc_layers cnn_config cuda dropout w :
  cnn_type <> "resnet"%string ->
  FeatureExtractor.__init__ arch time_len sequence_num output_dim cnn_type
    time_type fc_layers cnn_config cuda dropout w
  = (Err NotImplementedError, w).
Proof.
  intros H. unfold FeatureExtractor.__init__, FeatureExtractor.select_backbone.
  destruct (string_dec cnn_type "resnet") as [E|_]; [contradiction|].
  reflexivity.
Qed.

(** ** Regressioner *)

Lemma stage_width (a b : nat) (W bb : tensor) (dr : bool) :
  width_after
    (Sequential [Linear a b W bb; if dr then Dropout 0.1 else Identity;
                 LeakyReLU 0.01]) a = Some b.
Proof. simpl. rewrite Nat.eqb_refl. destruct dr; reflexivity. Qed.

Lemma widths_chain (f : nat -> nat) (ms : list nn_Module) :
  forall s k,
    Forall2 (fun i m => width_after m (f i) = Some (f (i + 1))) (seq s k) ms ->
    widths_after ms (f s) = Some (f (s + k)).
Proof.
  induction ms as [|m ms IH]; intros s k H.
  - inversion H as [E|]. destruct k; [|discriminate].
    now rewrite Nat.add_0_r.
  - destruct k as [|k]; [inversion H|]. simpl in H. inversion H; subst.
    simpl. rewrite H3. replace (s + S k) with (S s + k) by lia.
    replace (s + 1) with (S s) by lia. now apply IH.
Qed.

Lemma Regressioner_init_run in_dim output_dim fc_layers cuda dropout w :
  (1 <= fc_layers <= 5)%Z ->
  exists r w',
    Regressioner.__init__ in_dim output_dim fc_layers cuda dropout w = (Ok r, w')
    /\ Regressioner.in_dim r = in_dim
    /\ Regressioner.output_dim r = output_dim
    /\ Regressioner.fc_layers r = fc_layers
    /\ Regressioner.dropout r = dropout
    /\ length (Regressioner.fc r) = Z.to_nat fc_layers + 1
    /\ widths_after (Regressioner.fc r) in_dim = Some output_dim.
Proof.
  intros H. unfold Regressioner.__init__.
  apply fc_layers_check in H. rewrite H.
  set (f := fun i => nth i (fc_dim_list in_dim) 0).
  match goal with |- context [for_each ?l ?body] =>
    destruct (@for_each_total _ _ body
                (fun i m => width_after m (f i) = Some (f (i + 1))) l)
      with (w := w) as (ms & w1 & Hms & HP)
  end.
  { intros i w0 _.
    destruct (nn_Linear_run (f i) (f (i + 1)) w0) as (W & b & w0' & Hl & _).
    eexists _, w0'. unfold f in Hl. rewrite (bind_ok _ Hl).
    split; [reflexivity | apply stage_width]. }
  destruct (nn_Linear_run (f (Z.to_nat fc_layers)) output_dim w1)
    as (W & b & w2 & Hl & _).
  eexists _, w2.
  unfold py_assert. rewrite (bind_ok (w' := w) (a := tt) _ eq_refl).
  unfold f in Hl. rewrite (bind_ok _ Hms), (bind_ok _ Hl).
  split; [reflexivity|]. cbn [Regressioner.in_dim Regressioner.output_dim
    Regressioner.fc_layers Regressioner.dropout Regressioner.fc].
  repeat (split; [reflexivity|]).
  split.
  - rewrite length_app. apply Forall2_length in HP.
    rewrite length_seq in HP. rewrite <- HP. reflexivity.
  - rewrite widths_after_app.
    change in_dim with (f 0). rewrite (widths_chain f ms 0 _ HP).
    cbn [widths_after width_after Nat.add]. fold (f (Z.to_nat fc_layers)).
    now rewrite Nat.eqb_refl.
Qed.

Lemma Regressioner_constructed_widths (r : Regressioner.t) :
  Regressioner_constructed r ->
  (1 <= Regressioner.fc_layers r <= 5)%Z
  /\ length (Regressioner.fc r) = Z.to_nat (Regressioner.fc_layers r) + 1
  /\ widths_after (Regressioner.fc r) (Regressioner.in_dim r)
     = Some (Regressioner.output_dim r).
Proof.
  intros (in_dim & output_dim & fl & cuda & dr & w0 & r0 & w1 & Hinit & Hre).
  destruct Hre as (Hi & Ho & Hf & Hd & Hs).
  assert (Hfl : (1 <= fl <= 5)%Z).
  { destruct (Z_le_gt_dec 1 fl) as [L|G]; [destruct (Z_le_gt_dec fl 5)|];
      try lia.
    - rewrite Regressioner_init_rejects in Hinit by lia. discriminate.
    - rewrite Regressioner_init_rejects in Hinit by lia. discriminate. }
  destruct (Regressioner_init_run in_dim output_dim fl cuda dr w0 Hfl)
    as (r1 & w1' & Hrun & F1 & F2 & F3 & F4 & F5 & F6).
  rewrite Hrun in Hinit. injection Hinit as -> _.
  rewrite Hi, Ho, Hf, F1, F2, F3. split; [exact Hfl|].
  pose proof (proj1 (similar_Sequential _ _) Hs) as HF.
  split.
  - rewrite <- (Forall2_length HF). exact F5.
  - rewrite <- width_after_Sequential.
    rewrite (similar_width _ _ in_dim Hs).
    rewrite width_after_Sequential. exact F6.
Qed.

Lemma last_cons_indep {A} (l : list A) (a d d' : A) :
  last (a :: l) d = last (a :: l) d'.
Proof.
  revert a. induction l as [|b l IH]; intros a; [reflexivity|].
  change (last (b :: l) d = last (b :: l) d'). apply IH.
Qed.

Lemma stages_spec (self : Regressioner.t) (idx : list nat) :
  forall x acc w y feats w',
    Regressioner.stages self idx x acc w = (Ok (y, feats), w') ->
    exists new, feats = acc ++ new /\ y = last new x /\ length new = length idx.
Proof.
  induction idx as [|i idx IH]; intros x acc w y feats w' H; simpl in H.
  - apply ret_ok_inv in H. destruct H as [E _]. injection E as <- <-.
    exists []. now rewrite app_nil_r.
  - inv_run H. apply IH in H. destruct H as (new & -> & -> & Hlen).
    exists (a0 :: new). rewrite <- app_assoc. simpl. repeat split.
    + destruct new as [|t new]; [reflexivity|].
      change (last (a0 :: t :: new) x) with (last (t :: new) x).
      apply last_cons_indep.
    + now rewrite Hlen.
Qed.

Lemma stages_total (self : Regressioner.t) (ms : list nn_Module) :
  forall pre post x B d d' acc w,
    Regressioner.fc self = pre ++ ms ++ post ->
    shape x = [B; d] -> widths_after ms d = Some d' ->
    exists y feats w',
      Regressioner.stages self (seq (length pre) (length ms)) x acc w
      = (Ok (y, feats), w')
      /\ shape y = [B; d'].
Proof.
  induction ms as [|m ms IH]; intros pre post x B d d' acc w Hfc Hx Hw.
  - injection Hw as <-. exists x, acc, w. auto.
  - simpl in Hw. destruct (width_after m d) as [d1|] eqn:E; [|discriminate].
    destruct (call_width (Regressioner.training self) m x B d d1 w Hx E)
      as (y & w1 & Hy & Hsy).
    destruct (IH (pre ++ [m]) post y B d1 d' (acc ++ [y]) w1) as (z & fs & w2 & Hz & Hsz).
    { rewrite Hfc, <- app_assoc. reflexivity. }
    { exact Hsy. }
    { exact Hw. }
    exists z, fs, w2. split; [|exact Hsz].
    rewrite length_app, Nat.add_1_r in Hz. simpl.
    assert (Hget : module_list_get (Regressioner.fc self) (length pre) w
                   = (Ok m, w)).
    { unfold module_list_get. rewrite Hfc, nth_error_app2 by lia.
      now rewrite Nat.sub_diag. }
    rewrite (bind_ok _ Hget), (bind_ok _ Hy). exact Hz.
Qed.

(** C2: whatever [Regressioner.forward] returns, the first component is the
    sigmoid of the last executed stage's output (of [x] itself when no stage
    was executed) and every entry of it lies in [[0, 1]]; and on a
    constructed head, an input of shape [[batch, in_dim]] and a valid prefix
    length, it does return. *)
Theorem Regressioner_forward_unit_interval (r : Regressioner.t) (x : tensor)
        (_end : option Z) (w : World) :
  (forall out fc_feature w',
      Regressioner.forward r x _end w = (Ok (out, fc_feature), w') ->
      in_unit_interval out /\ out = sigmoid (last fc_feature x))
  /\ (Regressioner_constructed r ->
      forall B, shape x = [B; Regressioner.in_dim r] -> valid_end r _end ->
      exists out fc_feature w',
        Regressioner.forward r x _end w = (Ok (out, fc_feature), w')).
Proof.
  split.
  - intros out feats w' H. unfold Regressioner.forward in H.
    inv_run H. apply ret_ok_inv in H. destruct H as [E _].
    injection E as <- <-. destruct a as [y fs]. simpl.
    apply stages_spec in Hrun. destruct Hrun as (new & -> & -> & _).
    split; [|reflexivity].
    intros v Hv. eapply sigmoid_unit_interval. exact Hv.
  - intros Hc B Hx He.
    destruct (Regressioner_constructed_widths r Hc) as (Hfl & Hlen & Hw).
    set (e := match _end with
              | None => Z.of_nat (length (Regressioner.fc r))
              | Some e => e
              end).
    assert (Hle : Z.to_nat e <= length (Regressioner.fc r)).
    { unfold e. destruct _end as [e'|]; simpl in He; lia. }
    pose proof (firstn_skipn (Z.to_nat e) (Regressioner.fc r)) as Hsplit.
    rewrite <- Hsplit in Hw.
    destruct (widths_after_prefix _ _ _ _ Hw) as (d1 & Hd1 & _).
    destruct (stages_total r (firstn (Z.to_nat e) (Regressioner.fc r)) []
                (skipn (Z.to_nat e) (Regressioner.fc r)) x B _ d1 [] w
                (eq_sym Hsplit) Hx Hd1) as (y & fs & w' & Hrun & _).
    rewrite length_firstn, Nat.min_l in Hrun by exact Hle.
    exists (sigmoid y), fs, w'. unfold Regressioner.forward. fold e.
    simpl in Hrun. rewrite (bind_ok _ Hrun). reflexivity.
Qed.

(** ** Classifier *)

Lemma tab_ext {A} (n : nat) (f g : nat -> A) :
  (forall i, i < n -> f i = g i) -> tab n f = tab n g.
Proof.
  intros H. unfold tab. apply map_ext_in. intros i Hi.
  apply in_seq in Hi. apply H. lia.
Qed.

Lemma map_tab {A B} (h : A -> B) (n : nat) (f : nat -> A) :
  map h (tab n f) = tab n (fun i => h (f i)).
Proof. unfold tab. now rewrite map_map. Qed.

Lemma row_get (t : tensor) (B d b : nat) :
  wf_tensor t -> shape t = [B; d] -> b < B ->
  row t b = tab d (fun j => get t (b * d + j)).
Proof.
  intros Hwf Hs Hb. unfold row. rewrite Hs. cbn [nth].
  unfold wf_tensor in Hwf. rewrite Hs in Hwf.
  rewrite !numel_cons, numel_nil in Hwf.
  apply nth_ext with (d := 0%R) (d' := 0%R).
  - rewrite length_firstn, length_skipn, length_tab. nia.
  - intros j Hj. rewrite length_firstn, length_skipn in Hj.
    assert (Hjd : j < d) by lia.
    rewrite nth_tab by exact Hjd.
    rewrite nth_firstn. destruct (Nat.ltb_spec j d) as [_|]; [|lia].
    rewrite nth_skipn. reflexivity.
Qed.

Lemma Rsum_tab_scale (n : nat) (h : nat -> R) (c : R) :
  Rsum (tab n (fun j => (h j * c)%R)) = (Rsum (tab n h) * c)%R.
Proof.
  unfold tab. induction (seq 0 n) as [|a l IH]; simpl.
  - lra.
  - rewrite IH. lra.
Qed.

Lemma Rsum_tab_pos (n : nat) (h : nat -> R) :
  0 < n -> (forall j, (0 < h j)%R) -> (0 < Rsum (tab n h))%R.
Proof.
  intros Hn Hh. unfold tab.
  assert (G : forall l, l <> [] -> (0 < Rsum (map h l))%R).
  { induction l as [|a l IH]; intros Hl; [congruence|]. simpl.
    destruct l as [|b l].
    - simpl. specialize (Hh a). lra.
    - specialize (Hh a). assert (b :: l <> []) by discriminate.
      specialize (IH H). lra. }
  apply G. destruct n; [lia|]. discriminate.
Qed.

(** the exponentials of a log-softmax row add up to one *)
Lemma log_softmax_row_sum (d : nat) (g : nat -> R) :
  0 < d ->
  Rsum (tab d (fun j => exp (g j - ln (Rsum (tab d (fun j' => exp (g j')))))))
  = 1%R.
Proof.
  intros Hd. set (S := Rsum (tab d (fun j' => exp (g j')))).
  assert (HS : (0 < S)%R) by (apply Rsum_tab_pos; [exact Hd | intros; apply exp_pos]).
  rewrite (tab_ext d _ (fun j => (exp (g j) * / S)%R)).
  - rewrite Rsum_tab_scale. fold S. apply Rinv_r. lra.
  - intros j _. unfold Rminus. rewrite exp_plus, exp_Ropp, exp_ln by exact HS.
    reflexivity.
Qed.

Lemma log_softmax_rows (x y : tensor) (B d : nat) :
  shape x = [B; d] -> 0 < d -> log_softmax 1 x = Ok y ->
  shape y = [B; d] /\ wf_tensor y
  /\ forall b, b < B ->
       length (row y b) = d /\ Rsum (map exp (row y b)) = 1%R.
Proof.
  intros Hx Hd Hy. unfold log_softmax in Hy. rewrite Hx in Hy.
  injection Hy as Hy.
  assert (Hs : shape y = [B; d]) by (now rewrite <- Hy).
  assert (Hwf : wf_tensor y).
  { unfold wf_tensor. rewrite <- Hy. cbn [data shape].
    rewrite length_tab3, !numel_cons. reflexivity. }
  split; [exact Hs|]. split; [exact Hwf|].
  intros b Hb. rewrite (row_get y B d b Hwf Hs Hb).
  split; [apply length_tab|].
  rewrite map_tab.
  rewrite (tab_ext d _
             (fun j => exp (get x (b * d + j)
                            - ln (Rsum (tab d (fun j' => exp (get x (b * d + j')))))))).
  - apply log_softmax_row_sum. exact Hd.
  - intros j Hj. unfold get at 1. rewrite <- Hy. cbn [data].
    replace (b * d + j) with (b * (d * 1) + (j * 1 + 0)) at 1 by lia.
    rewrite nth_tab3 by lia.
    replace ((b * d + j) * 1 + 0) with (b * d + j) by lia.
    f_equal. f_equal. f_equal. f_equal. apply tab_ext. intros j' _.
    replace ((b * d + j') * 1 + 0) with (b * d + j') by lia. reflexivity.
Qed.

Lemma classifier_stage_widths (a b : nat) (W bb : tensor) (dr : bool) :
  widths_after
    ([Linear a b W bb] ++ (if dr then [Dropout 0.1] else []) ++ [LeakyReLU 0.01])
    a = Some b.
Proof. simpl. rewrite Nat.eqb_refl. destruct dr; reflexivity. Qed.

Lemma widths_chain_concat (f : nat -> nat) (ls : list (list nn_Module)) :
  forall s k,
    Forall2 (fun i l => widths_after l (f i) = Some (f (i + 1))) (seq s k) ls ->
    widths_after (concat ls) (f s) = Some (f (s + k)).
Proof.
  induction ls as [|l ls IH]; intros s k H.
  - inversion H as [E|]. destruct k; [|discriminate].
    now rewrite Nat.add_0_r.
  - destruct k as [|k]; [inversion H|]. simpl in H. inversion H; subst.
    simpl. rewrite widths_after_app, H3.
    replace (s + S k) with (S s + k) by lia.
    replace (s + 1) with (S s) by lia. now apply IH.
Qed.

Lemma Classifier_init_run in_dim fc_layers cuda dropout w :
  (1 <= fc_layers <= 5)%Z ->
  exists c w',
    Classifier.__init__ in_dim fc_layers cuda dropout w = (Ok c, w')
    /\ Classifier.in_dim c = in_dim
    /\ Classifier.fc_layers c = fc_layers
    /\ Classifier.dropout c = dropout
    /\ exists body,
         Classifier.fc c = Sequential (body ++ [LogSoftmax 1])
         /\ widths_after body in_dim = Some 2.
Proof.
  intros H. unfold Classifier.__init__.
  apply fc_layers_check in H. rewrite H.
  set (f := fun i => nth i (fc_dim_list in_dim) 0).
  match goal with |- context [for_each ?idx ?body] =>
    destruct (@for_each_total _ _ body
                (fun i ly => widths_after ly (f i) = Some (f (i + 1))) idx)
      with (w := w) as (ms & w1 & Hms & HP)
  end.
  { intros i w0 _.
    destruct (nn_Linear_run (f i) (f (i + 1)) w0) as (W & b & w0' & Hl & _).
    eexists _, w0'. unfold f in Hl. rewrite (bind_ok _ Hl).
    split; [reflexivity | apply classifier_stage_widths]. }
  destruct (nn_Linear_run (f (Z.to_nat fc_layers)) 2 w1)
    as (W & b & w2 & Hl & _).
  eexists _, w2.
  unfold py_assert. rewrite (bind_ok (w' := w) (a := tt) _ eq_refl).
  unfold f in Hl. rewrite (bind_ok _ Hms), (bind_ok _ Hl).
  split; [reflexivity|]. cbn [Classifier.in_dim Classifier.fc_layers
    Classifier.dropout Classifier.fc].
  repeat (split; [reflexivity|]).
  exists (concat ms ++ [Linear (f (Z.to_nat fc_layers)) 2 W b]). split.
  - rewrite <- app_assoc. reflexivity.
  - rewrite widths_after_app.
    change in_dim with (f 0). rewrite (widths_chain_concat f ms 0 _ HP).
    cbn [widths_after width_after Nat.add].
    now rewrite Nat.eqb_refl.
Qed.

Lemma Classifier_constructed_structure (c : Classifier.t) :
  Classifier_constructed c ->
  exists body,
    Classifier.fc c = Sequential (body ++ [LogSoftmax 1])
    /\ widths_after body (Classifier.in_dim c) = Some 2.
Proof.
  intros (in_dim & fl & cuda & dr & w0 & c0 & w1 & Hinit & Hre).
  destruct Hre as (Hi & Hf & Hd & Hs).
  assert (Hfl : (1 <= fl <= 5)%Z).
  { destruct (Z_le_gt_dec 1 fl) as [L|G]; [destruct (Z_le_gt_dec fl 5)|];
      try lia.
    - rewrite Classifier_init_rejects in Hinit by lia. discriminate.
    - rewrite Classifier_init_rejects in Hinit by lia. discriminate. }
  destruct (Classifier_init_run in_dim fl cuda dr w0 Hfl)
    as (c1 & w1' & Hrun & F1 & F2 & F3 & body0 & Hfc & Hw).
  rewrite Hrun in Hinit. injection Hinit as -> _.
  rewrite Hfc in Hs. rewrite Hi, F1.
  destruct (Classifier.fc c) as [| | | | | |ms]; simpl in Hs; try contradiction.
  change (similar (Sequential (body0 ++ [LogSoftmax 1])) (Sequential ms)) in Hs.
  pose proof (proj1 (similar_Sequential _ _) Hs) as HF.
  apply Forall2_app_inv_l in HF.
  destruct HF as (body & tl & Hbody & Htl & ->).
  inversion Htl as [|? m ? ? Hm Hnil]; subst. inversion Hnil; subst.
  destruct m; simpl in Hm; try contradiction. subst dim.
  exists body. split; [reflexivity|].
  rewrite <- width_after_Sequential.
  rewrite (similar_width (Sequential body0) (Sequential body)).
  - rewrite width_after_Sequential. exact Hw.
  - apply similar_Sequential. exact Hbody.
Qed.

(** C3: on a constructed classifier and an input of shape
    [[batch, in_dim]], for every [alpha], [Classifier.forward] returns a
    matrix with two entries per row whose exponentials add up to 1. *)
Theorem Classifier_forward_log_probabilities (c : Classifier.t) (x : tensor)
        (alpha : R) (B : nat) (w : World) :
  Classifier_constructed c ->
  shape x = [B; Classifier.in_dim c] ->
  exists out w',
    Classifier.forward c x alpha w = (Ok out, w')
    /\ shape out = [B; 2]
    /\ forall b, b < B ->
         length (row out b) = 2 /\ Rsum (map exp (row out b)) = 1%R.
Proof.
  intros Hc Hx.
  destruct (Classifier_constructed_structure c Hc) as (body & Hfc & Hw).
  unfold Classifier.forward, ReverseLayerF_apply. rewrite Hfc.
  destruct (call_all_width (Classifier.training c) body x B _ 2 w Hx Hw)
    as (y & w1 & Hy & Hsy).
  destruct (log_softmax_shape2 y B 2 Hsy) as (z & Hz & Hsz).
  exists z, w1. split.
  - rewrite call_Sequential, call_all_app. rewrite (bind_ok _ Hy).
    cbn [call_all call]. unfold bind, lift, ret. rewrite Hz. reflexivity.
  - destruct (log_softmax_rows y z B 2 Hsy (Nat.lt_0_succ 1) Hz) as (Hs & _ & Hrows).
    split; [exact Hs | exact Hrows].
Qed.
(** C5: construction fails on an invalid configuration.  [Regressioner] and
    [Classifier] raise [AssertionError] for every [fc_layers] outside
    [[1, 5]] and are constructed for every value inside it; with family
    ['resnet'], [FeatureExtractor] prints its message and exits with status
    -1 for every depth other than 18, 34, 50, 101 and 152, and for every
    other family it raises [NotImplementedError]. *)
Theorem constructors_reject_invalid_configuration :
  (forall in_dim output_dim fc_layers cuda dropout w,
      ((fc_layers < 1 \/ 5 < fc_layers)%Z ->
       Regressioner.__init__ in_dim output_dim fc_layers cuda dropout w
       = (Err (AssertionError ""), w))
      /\ ((1 <= fc_layers <= 5)%Z ->
          exists r w',
            Regressioner.__init__ in_dim output_dim fc_layers cuda dropout w
            = (Ok r, w')))
  /\ (forall in_dim fc_layers cuda dropout w,
        ((fc_layers < 1 \/ 5 < fc_layers)%Z ->
         Classifier.__init__ in_dim fc_layers cuda dropout w
         = (Err (AssertionError ""), w))
        /\ ((1 <= fc_layers <= 5)%Z ->
            exists c w',
              Classifier.__init__ in_dim fc_layers cuda dropout w = (Ok c, w')))
  /\ (forall arch time_len sequence_num output_dim cnn_type time_type fc_layers
             cnn_config cuda dropout w,
        (cnn_type = "resnet"%string -> ~ supported_depth cnn_config ->
         FeatureExtractor.__init__ arch time_len sequence_num output_dim
           cnn_type time_type fc_layers cnn_config cuda dropout w
         = (Err (SystemExit (-1)),
            mkWorld (torch_rng w) (np_rng w)
              (stdout w
               ++ [FeatureExtractor.unsupported_depth_message cnn_config])))
        /\ (cnn_type <> "resnet"%string ->
            FeatureExtractor.__init__ arch time_len sequence_num output_dim
              cnn_type time_type fc_layers cnn_config cuda dropout w
            = (Err NotImplementedError, w))).
Proof.
  repeat split.
  - apply Regressioner_init_rejects.
  - intros H.
    destruct (Regressioner_init_run in_dim output_dim fc_layers cuda dropout w H)
      as (r & w' & Hr & _).
    now exists r, w'.
  - apply Classifier_init_rejects.
  - intros H.
    destruct (Classifier_init_run in_dim fc_layers cuda dropout w H)
      as (c & w' & Hc & _).
    now exists c, w'.
  - intros -> H. now apply FeatureExtractor_init_rejects_depth.
  - apply FeatureExtractor_init_rejects_family.
Qed.

(** ** Tensor operations: dimensions *)

Lemma wf_zeros (s : list nat) : wf_tensor (zeros s).
Proof. unfold wf_tensor, zeros. cbn [data shape]. apply repeat_length. Qed.

Lemma shape_at_run (t : tensor) (i d : nat) (w : World) :
  nth_error (shape t) i = Some d -> shape_at t i w = (Ok d, w).
Proof. intros H. unfold shape_at. now rewrite H. Qed.

Lemma slice_last_window (x : tensor) (B C L i tl : nat) :
  shape x = [B; C; L] -> (i + 1) * tl <= L ->
  exists y,
    slice_last x (i * tl) ((i + 1) * tl) = Ok y
    /\ shape y = [B; C; tl] /\ wf_tensor y.
Proof.
  intros Hs Hi. unfold slice_last. rewrite Hs. cbn [rev app].
  eexists. split; [reflexivity|].
  assert (E : Nat.max (Nat.min (i * tl) L) (Nat.min ((i + 1) * tl) L)
              - Nat.min (i * tl) L = tl) by lia.
  split.
  - cbn [shape app]. now rewrite E.
  - unfold wf_tensor. cbn [shape data app].
    rewrite length_tab2, !numel_cons, numel_nil, E. lia.
Qed.

Lemma permute3_201 (x : tensor) (n0 n1 n2 : nat) :
  shape x = [n0; n1; n2] ->
  exists y, permute3 x 2 0 1 = Ok y /\ shape y = [n2; n0; n1] /\ wf_tensor y.
Proof.
  intros Hs. unfold permute3. rewrite Hs.
  cbn [existsb Nat.eqb orb andb nth].
  eexists. split; [reflexivity|]. split; [reflexivity|].
  unfold wf_tensor. cbn [shape data].
  rewrite length_tab3, !numel_cons, numel_nil. lia.
Qed.

Lemma permute3_120 (x : tensor) (n0 n1 n2 : nat) :
  shape x = [n0; n1; n2] ->
  exists y, permute3 x 1 2 0 = Ok y /\ shape y = [n1; n2; n0] /\ wf_tensor y.
Proof.
  intros Hs. unfold permute3. rewrite Hs.
  cbn [existsb Nat.eqb orb andb nth].
  eexists. split; [reflexivity|]. split; [reflexivity|].
  unfold wf_tensor. cbn [shape data].
  rewrite length_tab3, !numel_cons, numel_nil. lia.
Qed.

Lemma lstm_steps_length (net : LSTM) (B : nat) (xs : list (list R)) :
  forall hc,
    length (fst (lstm_steps net B xs hc)) = length xs * (B * hidden_size net).
Proof.
  induction xs as [|xt xs IH]; intros hc; [reflexivity|].
  cbn [lstm_steps].
  destruct (lstm_steps net B xs (lstm_cell net B xt hc)) as [out hcn] eqn:E.
  cbn [fst]. rewrite length_app.
  specialize (IH (lstm_cell net B xt hc)). rewrite E in IH. cbn [fst] in IH.
  rewrite IH. destruct hc as [h c]. unfold lstm_cell. cbn [fst].
  rewrite length_tab2. cbn [length]. lia.
Qed.

Lemma lstm_forward_run (net : LSTM) (x : tensor) (T B : nat)
      (hx : option (tensor * tensor)) :
  shape x = [T; B; input_size net] ->
  match hx with
  | None => True
  | Some (h0, c0) =>
      shape h0 = [1; B; hidden_size net] /\ shape c0 = [1; B; hidden_size net]
  end ->
  exists out hn,
    lstm_forward net x hx = Ok (out, hn)
    /\ shape out = [T; B; hidden_size net] /\ wf_tensor out.
Proof.
  intros Hs Hhx. unfold lstm_forward. rewrite Hs. rewrite Nat.eqb_refl.
  cbn [negb].
  set (xs := tab T _).
  assert (G : forall h0 c0,
             exists out hn,
               (let '(out, (hn, cn)) :=
                  lstm_steps net B xs (data h0, data c0) in
                Ok (mkTensor [T; B; hidden_size net] out,
                    (mkTensor [1; B; hidden_size net] hn,
                     mkTensor [1; B; hidden_size net] cn)))
               = Ok (out, hn)
               /\ shape out = [T; B; hidden_size net] /\ wf_tensor out).
  { intros h0 c0.
    pose proof (lstm_steps_length net B xs (data h0, data c0)) as Hlen.
    destruct (lstm_steps net B xs (data h0, data c0)) as [out [hn cn]].
    eexists _, _. split; [reflexivity|]. split; [reflexivity|].
    unfold wf_tensor. cbn [shape data fst] in *. rewrite Hlen.
    unfold xs. rewrite length_tab, !numel_cons, numel_nil. lia. }
  destruct hx as [[h0 c0]|].
  - destruct Hhx as [Hh Hc].
    destruct (list_eq_dec Nat.eq_dec (shape h0) [1; B; hidden_size net]);
      [|contradiction].
    destruct (list_eq_dec Nat.eq_dec (shape c0) [1; B; hidden_size net]);
      [|contradiction].
    apply G.
  - apply G.
Qed.

Lemma conv1x1_run (training : bool) (H : nat) (W b : tensor) (s : R)
      (x : tensor) (B t : nat) (w : World) :
  shape x = [B; H; t] -> 1 <= t ->
  exists y,
    call training (Sequential [Conv1d H 512 1 W b; LeakyReLU s]) x w = (Ok y, w)
    /\ shape y = [B; 512; t] /\ wf_tensor y.
Proof.
  intros Hs Ht. cbn [call]. unfold lift at 1, conv1d. rewrite Hs.
  rewrite Nat.eqb_refl. cbn [negb].
  destruct (Nat.ltb_spec t 1) as [|_]; [lia|].
  eexists. unfold bind, ret. split; [reflexivity|].
  replace (t - 1 + 1) with t by lia.
  split; [reflexivity|].
  unfold wf_tensor, map_tensor. cbn [shape data].
  rewrite length_map, length_tab3, !numel_cons, numel_nil. lia.
Qed.

Lemma unsqueeze1_rank3 (x : tensor) (n0 n1 n2 : nat) :
  shape x = [n0; n1; n2] ->
  exists y,
    unsqueeze x 1 = Ok y /\ shape y = [n0; 1; n1; n2] /\ data y = data x.
Proof.
  intros Hs. unfold unsqueeze, rank. rewrite Hs. cbn [length Nat.leb firstn skipn app].
  eexists. repeat split.
Qed.

Lemma cat1_stack (ts : list tensor) (B C t : nat) :
  ts <> [] ->
  Forall (fun x => shape x = [B; 1; C; t]) ts ->
  exists y, cat1 ts = Ok y /\ shape y = [B; length ts; C; t] /\ wf_tensor y.
Proof.
  intros Hne Hall.
  assert (Hhd : exists t0 ts', ts = t0 :: ts' /\ shape t0 = [B; 1; C; t]).
  { destruct ts as [|t0 ts']; [congruence|]. exists t0, ts'.
    split; [reflexivity | now inversion Hall]. }
  destruct Hhd as (t0 & ts' & Ets & H0).
  assert (Hcompat : forallb (fun x => cat_compatible [B; 1; C; t] (shape x)) ts
                    = true).
  { apply forallb_forall. intros x Hx.
    rewrite Forall_forall in Hall. rewrite (Hall x Hx).
    unfold cat_compatible. rewrite Nat.eqb_refl.
    destruct (list_eq_dec Nat.eq_dec [C; t] [C; t]); [reflexivity | congruence]. }
  assert (Hsum : fold_right (fun x acc => nth 1 (shape x) 0 + acc) 0 ts
                 = length ts).
  { clear - Hall. induction Hall as [|x l Hx _ IH]; [reflexivity|].
    cbn [fold_right length]. rewrite IH, Hx. reflexivity. }
  assert (Hlen : forall b,
             length (flat_map
                       (fun x => tab (nth 1 (shape x) 0 * numel [C; t])
                                   (fun j => get x (b * (nth 1 (shape x) 0
                                                         * numel [C; t]) + j)))
                       ts)
             = length ts * numel [C; t]).
  { intros b. clear - Hall. induction Hall as [|x l Hx _ IH]; [reflexivity|].
    cbn [flat_map length]. rewrite length_app, IH, length_tab, Hx.
    cbn [nth]. lia. }
  subst ts. unfold cat1. rewrite H0, Hcompat, Hsum.
  eexists. split; [reflexivity|]. split; [reflexivity|].
  unfold wf_tensor. cbn [shape data].
  rewrite length_flat_map_const with (m := length (t0 :: ts') * numel [C; t]).
  - rewrite length_seq, !numel_cons. lia.
  - intros b _. apply Hlen.
Qed.

Lemma mean1_rank4 (x : tensor) (B n C t : nat) :
  shape x = [B; n; C; t] ->
  exists y, mean1 x = Ok y /\ shape y = [B; C; t] /\ wf_tensor y.
Proof.
  intros Hs. unfold mean1. rewrite Hs.
  eexists. split; [reflexivity|]. split; [reflexivity|].
  unfold wf_tensor. cbn [shape data]. rewrite length_tab2, !numel_cons. lia.
Qed.

Lemma flatten1_rank3 (x : tensor) (B C t : nat) :
  shape x = [B; C; t] -> wf_tensor x ->
  exists y, flatten1 x = Ok y /\ shape y = [B; numel [C; t]] /\ wf_tensor y.
Proof.
  intros Hs Hwf. unfold flatten1. rewrite Hs.
  eexists. split; [reflexivity|]. split; [reflexivity|].
  unfold wf_tensor in *. cbn [shape data]. rewrite Hwf, Hs.
  rewrite !numel_cons, numel_nil. lia.
Qed.

Lemma average_run (ts : list tensor) (B C t : nat) (w : World) :
  ts <> [] ->
  Forall (fun x => shape x = [B; 1; C; t]) ts ->
  exists y,
    FeatureExtractor.average ts w = (Ok y, w)
    /\ shape y = [B; numel [C; t]] /\ wf_tensor y.
Proof.
  intros Hne Hall.
  destruct (cat1_stack ts B C t Hne Hall) as (c & Hc & Hsc & _).
  destruct (mean1_rank4 c B (length ts) C t Hsc) as (m & Hm & Hsm & Hwm).
  destruct (flatten1_rank3 m B C t Hsm Hwm) as (y & Hy & Hsy & Hwy).
  exists y. unfold FeatureExtractor.average, bind, lift.
  rewrite Hc, Hm, Hy. auto.
Qed.

(** ** Hidden-state initialisation *)

Lemma xavier_uniform__run (n0 n1 : nat) (rest : list nat) (w : World) :
  n1 * numel rest + n0 * numel rest <> 0 ->
  exists t w',
    xavier_uniform_ (n0 :: n1 :: rest) w = (Ok t, w')
    /\ shape t = n0 :: n1 :: rest /\ wf_tensor t
    /\ np_rng w' = np_rng w /\ stdout w' = stdout w.
Proof.
  intros Hne. unfold xavier_uniform_.
  destruct (Nat.eqb_spec (n1 * numel rest + n0 * numel rest) 0) as [E|_];
    [contradiction|].
  apply uniform__run.
Qed.

Lemma xavier_bound_nonneg (layer batch hidden : nat) :
  (0 <= xavier_bound layer batch hidden)%R.
Proof.
  unfold xavier_bound. apply Rmult_le_pos; [apply sqrt_pos|].
  apply Rmult_le_pos; [lra | apply sqrt_pos].
Qed.

Lemma xavier_uniform__values (layer batch hidden : nat) (w w' : World)
      (t : tensor) :
  xavier_uniform_ [layer; batch; hidden] w = (Ok t, w') ->
  t = mkTensor [layer; batch; hidden]
        (tab (numel [layer; batch; hidden])
           (fun i =>
              (- xavier_bound layer batch hidden
               + (xavier_bound layer batch hidden
                  - - xavier_bound layer batch hidden)
                 * g_tape (torch_rng w) (g_pos (torch_rng w) + i))%R))
  /\ torch_rng w'
     = mkGenerator (g_tape (torch_rng w))
         (g_pos (torch_rng w) + numel [layer; batch; hidden])
  /\ np_rng w' = np_rng w.
Proof.
  unfold xavier_uniform_.
  destruct (batch * numel [hidden] + layer * numel [hidden] =? 0);
    [discriminate|].
  unfold uniform_. intros H. injection H as <- <-. cbn [torch_rng np_rng].
  repeat split.
Qed.

Lemma xavier_uniform__bounded (layer batch hidden : nat) (w w' : World)
      (t : tensor) :
  (forall n, (0 <= g_tape (torch_rng w) n <= 1)%R) ->
  xavier_uniform_ [layer; batch; hidden] w = (Ok t, w') ->
  forall v, In v (data t) ->
    (- xavier_bound layer batch hidden <= v <= xavier_bound layer batch hidden)%R.
Proof.
  intros Hu H v Hv.
  destruct (xavier_uniform__values _ _ _ _ _ _ H) as (-> & _ & _).
  cbn [data] in Hv. unfold tab in Hv. apply in_map_iff in Hv.
  destruct Hv as (i & <- & _).
  pose proof (xavier_bound_nonneg layer batch hidden) as Ha.
  specialize (Hu (g_pos (torch_rng w) + i)). nra.
Qed.

Lemma init_hidden_run (self : FeatureExtractor.t) (hidden_dim batch layer : nat)
      (w : World) :
  FeatureExtractor.time_type self = "lstm"%string ->
  0 < hidden_dim -> 0 < layer + batch ->
  exists t1 w1 t2 w2,
    xavier_uniform_ [layer; batch; hidden_dim] w = (Ok t1, w1)
    /\ xavier_uniform_ [layer; batch; hidden_dim] w1 = (Ok t2, w2)
    /\ shape t1 = [layer; batch; hidden_dim] /\ wf_tensor t1
    /\ shape t2 = [layer; batch; hidden_dim] /\ wf_tensor t2
    /\ FeatureExtractor.init_hidden self hidden_dim batch layer w
       = (Ok (Some
                (if FeatureExtractor._cuda self
                 then (mkAutograd t1 true GPU, mkAutograd t1 true GPU)
                 else (mkAutograd t1 true CPU, mkAutograd t2 true CPU))),
          w2).
Proof.
  intros Htt Hh Hlb.
  assert (Hne : batch * numel [hidden_dim] + layer * numel [hidden_dim] <> 0).
  { rewrite numel_cons, numel_nil. nia. }
  destruct (xavier_uniform__run layer batch [hidden_dim] w Hne)
    as (t1 & w1 & H1 & S1 & W1 & _).
  destruct (xavier_uniform__run layer batch [hidden_dim] w1 Hne)
    as (t2 & w2 & H2 & S2 & W2 & _).
  exists t1, w1, t2, w2. repeat (split; [assumption|]).
  unfold FeatureExtractor.init_hidden. rewrite (bind_ok _ H1).
  destruct (string_dec (FeatureExtractor.time_type self) "lstm") as [_|N];
    [|contradiction].
  rewrite (bind_ok _ H2).
  destruct (FeatureExtractor._cuda self); reflexivity.
Qed.

(** ** FeatureExtractor.get_feature *)

Lemma get_feature_run (fe : FeatureExtractor.t) (x y : tensor) (B L t : nat)
      (batch : Z) (reset : bool) (w : World) :
  FeatureExtractor_layers fe ->
  shape x = [B; FeatureExtractor.sequence_num fe; L] ->
  FeatureExtractor.conv fe x = Ok y ->
  shape y = [B; FeatureExtractor.time_hid_dim fe; t] -> 1 <= t ->
  exists out w',
    FeatureExtractor.get_feature fe x batch reset w = (Ok out, w')
    /\ shape out = [B; 512; t] /\ wf_tensor out
    /\ np_rng w' = np_rng w /\ stdout w' = stdout w
    /\ (reset = false -> w' = w)
    /\ (reset = true ->
        torch_rng w'
        = mkGenerator (g_tape (torch_rng w))
            (g_pos (torch_rng w)
             + 2 * numel [1; B; FeatureExtractor.time_hid_dim fe])).
Proof.
  intros (Htt & Hpos & Hin & Hhid & W & b & Hc11) Hx Hy Hsy Ht.
  unfold FeatureExtractor.get_feature.
  rewrite (bind_ok _ (shape_at_run x 0 B w ltac:(now rewrite Hx))).
  unfold rank. rewrite Hx. cbn [length Nat.eqb].
  rewrite (bind_ok (w' := w) (a := x) _ eq_refl).
  rewrite (bind_ok _ (shape_at_run x 1 _ w ltac:(now rewrite Hx))).
  rewrite Nat.eqb_refl. unfold py_assert.
  rewrite (bind_ok (w' := w) (a := tt) _ eq_refl).
  unfold lift at 1. rewrite Hy.
  rewrite (bind_ok (w' := w) (a := y) _ eq_refl).
  destruct (permute3_201 y _ _ _ Hsy) as (p & Hp & Hsp & _).
  unfold lift at 1. rewrite Hp.
  rewrite (bind_ok (w' := w) (a := p) _ eq_refl).
  rewrite <- Hin in Hsp.
  assert (Hlstm : exists out hn w',
             (if reset && (if in_dec string_dec (FeatureExtractor.time_type fe)
                                ["lstm"%string] then true else false)
              then
                hx <- FeatureExtractor.init_hidden fe
                        (FeatureExtractor.time_hid_dim fe) B 1 ;;
                lift (lstm_forward (FeatureExtractor.time_net fe) p
                        (FeatureExtractor.hx_values hx))
              else lift (lstm_forward (FeatureExtractor.time_net fe) p None)) w
             = (Ok (out, hn), w')
             /\ shape out = [t; B; FeatureExtractor.time_hid_dim fe]
             /\ np_rng w' = np_rng w /\ stdout w' = stdout w
             /\ (reset = false -> w' = w)
             /\ (reset = true ->
                 torch_rng w'
                 = mkGenerator (g_tape (torch_rng w))
                     (g_pos (torch_rng w)
                      + 2 * numel [1; B; FeatureExtractor.time_hid_dim fe]))).
  { destruct reset; cbn [andb].
    - destruct (in_dec string_dec (FeatureExtractor.time_type fe) ["lstm"%string])
        as [_|N]; [|exfalso; apply N; left; now rewrite Htt].
      destruct (init_hidden_run fe (FeatureExtractor.time_hid_dim fe) B 1 w
                  Htt Hpos ltac:(lia))
        as (t1 & w1 & t2 & w2 & X1 & X2 & S1 & _ & S2 & _ & Hini).
      rewrite (bind_ok _ Hini).
      destruct (lstm_forward_run (FeatureExtractor.time_net fe) p t B
                  (FeatureExtractor.hx_values
                     (Some (if FeatureExtractor._cuda fe
                            then (mkAutograd t1 true GPU, mkAutograd t1 true GPU)
                            else (mkAutograd t1 true CPU, mkAutograd t2 true CPU))))
                  Hsp)
        as (out & hn & Hout & Hso & _).
      { rewrite Hhid. destruct (FeatureExtractor._cuda fe); cbn; auto. }
      exists out, hn, w2. unfold lift. rewrite Hout. rewrite Hhid in Hso.
      split; [reflexivity|]. split; [exact Hso|].
      destruct (xavier_uniform__run 1 B [FeatureExtractor.time_hid_dim fe] w)
        as (t1' & w1' & X1' & _ & _ & N1 & O1).
      { rewrite numel_cons, numel_nil. nia. }
      destruct (xavier_uniform__run 1 B [FeatureExtractor.time_hid_dim fe] w1)
        as (t2' & w2' & X2' & _ & _ & N2 & O2).
      { rewrite numel_cons, numel_nil. nia. }
      rewrite X1 in X1'. injection X1' as <- <-.
      rewrite X2 in X2'. injection X2' as <- <-.
      destruct (xavier_uniform__values _ _ _ _ _ _ X1) as (_ & G1 & _).
      destruct (xavier_uniform__values _ _ _ _ _ _ X2) as (_ & G2 & _).
      repeat split; try congruence.
      intros _. rewrite G2, G1. cbn [g_tape g_pos]. f_equal. lia.
    - destruct (lstm_forward_run (FeatureExtractor.time_net fe) p t B None Hsp I)
        as (out & hn & Hout & Hso & _).
      exists out, hn, w. unfold lift. rewrite Hout. rewrite Hhid in Hso.
      repeat split; auto. discriminate. }
  destruct Hlstm as (out & hn & w' & Hrun & Hso & Hnp & Hstd & Hw & Hg).
  rewrite (bind_ok _ Hrun). cbn [fst].
  destruct (permute3_120 out _ _ _ Hso) as (q & Hq & Hsq & _).
  unfold lift at 1. rewrite Hq.
  rewrite (bind_ok (w' := w') (a := q) _ eq_refl).
  rewrite Hc11.
  destruct (conv1x1_run (FeatureExtractor.training fe)
              (FeatureExtractor.time_hid_dim fe) W b 0.01 q B t w' Hsq Ht)
    as (z & Hz & Hsz & Hwz).
  exists z, w'. repeat split; assumption.
Qed.

(** ** What a successful run says about its input *)

Lemma permute3_inv (x y : tensor) (p0 p1 p2 : nat) :
  permute3 x p0 p1 p2 = Ok y ->
  exists n0 n1 n2, shape x = [n0; n1; n2].
Proof.
  unfold permute3.
  destruct (shape x) as [|n0 [|n1 [|n2 [|n3 s]]]]; try discriminate.
  intros _. now exists n0, n1, n2.
Qed.

Lemma lstm_forward_inv (net : LSTM) (x : tensor) (hx : option (tensor * tensor))
      (r : tensor * (tensor * tensor)) :
  lstm_forward net x hx = Ok r ->
  exists T B,
    shape x = [T; B; input_size net]
    /\ shape (fst r) = [T; B; hidden_size net].
Proof.
  unfold lstm_forward.
  destruct (shape x) as [|T [|B [|isz [|n3 s]]]]; try discriminate.
  destruct (Nat.eqb_spec isz (input_size net)) as [->|]; [|discriminate].
  cbn [negb].
  match goal with |- context [match ?st with Ok _ => _ | Err _ => _ end] =>
    destruct st as [[h0 c0]|e]; [|discriminate]
  end.
  destruct (lstm_steps net B _ (data h0, data c0)) as [out [hn cn]].
  intros E. injection E as <-. exists T, B. split; reflexivity.
Qed.

Lemma conv1x1_inv (training : bool) (H : nat) (W b : tensor) (s : R)
      (x y : tensor) (w w' : World) :
  call training (Sequential [Conv1d H 512 1 W b; LeakyReLU s]) x w = (Ok y, w') ->
  exists B t, shape x = [B; H; t] /\ 1 <= t /\ shape y = [B; 512; t].
Proof.
  cbn [call]. unfold lift at 1, conv1d.
  destruct (shape x) as [|B [|c [|t [|n3 sh]]]];
    try (unfold bind; discriminate).
  destruct (Nat.eqb_spec c H) as [->|]; [|unfold bind; discriminate].
  cbn [negb].
  destruct (Nat.ltb_spec t 1) as [|Ht]; [unfold bind; discriminate|].
  unfold bind, ret. intros E. injection E as <- _.
  exists B, t. repeat split; [exact Ht|].
  unfold map_tensor. cbn [shape]. now replace (t - 1 + 1) with t by lia.
Qed.

Lemma get_feature_inv (fe : FeatureExtractor.t) (x out : tensor) (B L : nat)
      (batch : Z) (reset : bool) (w w' : World) :
  FeatureExtractor_layers fe ->
  shape x = [B; FeatureExtractor.sequence_num fe; L] ->
  FeatureExtractor.get_feature fe x batch reset w = (Ok out, w') ->
  exists y b t,
    FeatureExtractor.conv fe x = Ok y
    /\ shape y = [b; FeatureExtractor.time_hid_dim fe; t]
    /\ 1 <= t /\ shape out = [b; 512; t].
Proof.
  intros (Htt & Hpos & Hin & Hhid & W & bb & Hc11) Hx H.
  unfold FeatureExtractor.get_feature in H.
  rewrite (bind_ok _ (shape_at_run x 0 B w ltac:(now rewrite Hx))) in H.
  unfold rank in H. rewrite Hx in H. cbn [length Nat.eqb] in H.
  rewrite (bind_ok (w' := w) (a := x) _ eq_refl) in H.
  rewrite (bind_ok _ (shape_at_run x 1 _ w ltac:(now rewrite Hx))) in H.
  rewrite Nat.eqb_refl in H. unfold py_assert in H.
  rewrite (bind_ok (w' := w) (a := tt) _ eq_refl) in H.
  inv_run H.
  apply lift_ok_inv in Hrun. destruct Hrun as [Hy ->].
  apply lift_ok_inv in Hrun0. destruct Hrun0 as [Hp ->].
  destruct (permute3_inv _ _ _ _ _ Hp) as (n0 & n1 & n2 & Hsy).
  destruct (permute3_201 a n0 n1 n2 Hsy) as (p & Hp' & Hsp & _).
  rewrite Hp in Hp'. injection Hp' as <-.
  assert (Hl : exists hx, lstm_forward (FeatureExtractor.time_net fe) a0 hx = Ok a1).
  { destruct (reset && _).
    - inv_run Hrun1. apply lift_ok_inv in Hrun1. destruct Hrun1 as [E _]. eauto.
    - apply lift_ok_inv in Hrun1. destruct Hrun1 as [E _]. eauto. }
  destruct Hl as (hx & Hl).
  destruct (lstm_forward_inv _ _ _ _ Hl) as (T & B' & Hsa0 & Hsa1).
  rewrite Hsp in Hsa0. injection Hsa0 as <- <- ->.
  apply lift_ok_inv in Hrun2. destruct Hrun2 as [Hq ->].
  destruct (permute3_120 (fst a1) _ _ _ Hsa1) as (q & Hq' & Hsq & _).
  rewrite Hq in Hq'. injection Hq' as <-.
  rewrite Hc11 in H.
  destruct (conv1x1_inv _ _ _ _ _ _ _ _ _ H) as (B2 & t2 & Hs2 & Ht2 & Hso).
  rewrite Hsq in Hs2. injection Hs2 as <- _ <-.
  exists a, n0, n2. rewrite <- Hin. auto.
Qed.

(** ** FeatureExtractor: construction *)

Lemma select_backbone_inv arch sequence_num cnn_type cnn_config w conv d w' :
  FeatureExtractor.select_backbone arch sequence_num cnn_type cnn_config w
  = (Ok (conv, d), w') ->
  cnn_type = "resnet"%string /\ supported_depth cnn_config
  /\ (d = 512 \/ d = 2048).
Proof.
  unfold FeatureExtractor.select_backbone, supported_depth.
  destruct (string_dec cnn_type "resnet") as [->|]; [|discriminate].
  intros H. inv_run H. apply ret_ok_inv in H. destruct H as [E _].
  injection E as <- <-. split; [reflexivity|].
  unfold FeatureExtractor.resdim in Hrun0. cbn [In].
  destruct (Z.eqb_spec cnn_config 18);
    [apply ret_ok_inv in Hrun0; destruct Hrun0 as [<- _]; auto|].
  destruct (Z.eqb_spec cnn_config 34);
    [apply ret_ok_inv in Hrun0; destruct Hrun0 as [<- _]; auto|].
  destruct (Z.eqb_spec cnn_config 50);
    [apply ret_ok_inv in Hrun0; destruct Hrun0 as [<- _]; auto 6|].
  destruct (Z.eqb_spec cnn_config 101);
    [apply ret_ok_inv in Hrun0; destruct Hrun0 as [<- _]; auto 6|].
  destruct (Z.eqb_spec cnn_config 152);
    [apply ret_ok_inv in Hrun0; destruct Hrun0 as [<- _]; auto 7|].
  discriminate.
Qed.

(** What the constructor establishes: the configuration is recorded, the
    layers are in place, and [fc_dim] is the number of entries of
    [get_feature] on the all-zero window, which is not 0. *)
Lemma FeatureExtractor_init_inv arch time_len sequence_num output_dim cnn_type
      time_type fc_layers cnn_config cuda dropout w0 fe w1 :
  FeatureExtractor.__init__ arch time_len sequence_num output_dim cnn_type
    time_type fc_layers cnn_config cuda dropout w0 = (Ok fe, w1) ->
  cnn_type = "resnet"%string /\ supported_depth cnn_config
  /\ FeatureExtractor.time_len fe = time_len
  /\ FeatureExtractor.sequence_num fe = sequence_num
  /\ FeatureExtractor._cuda fe = cuda
  /\ FeatureExtractor_layers fe
  /\ exists y0 b0 t0,
       FeatureExtractor.conv fe (zeros [1; sequence_num; time_len]) = Ok y0
       /\ shape y0 = [b0; FeatureExtractor.time_hid_dim fe; t0]
       /\ 1 <= t0 /\ 1 <= b0
       /\ FeatureExtractor.fc_dim fe = numel [b0; 512; t0].
Proof.
  intros H. unfold FeatureExtractor.__init__ in H. inv_run H.
  destruct a as [conv d].
  destruct (select_backbone_inv _ _ _ _ _ _ _ _ Hrun) as (Hct & Hdepth & Hd).
  cbn [fst snd] in *.
  destruct (string_dec time_type "lstm") as [Htt|]; [|discriminate].
  destruct (nn_LSTM_run d d w) as (net & w' & Hnet & Hi & Hh).
  rewrite Hnet in Hrun0. injection Hrun0 as <- <-.
  destruct (nn_Conv1d_run d 512 1 w') as (W & b & w'' & Hc & _).
  rewrite Hc in Hrun1. injection Hrun1 as <- <-.
  match type of Hrun2 with
  | FeatureExtractor.get_feature ?probe _ _ _ _ = _ => set (self := probe) in *
  end.
  assert (Hlayers : FeatureExtractor_layers self).
  { unfold FeatureExtractor_layers, self. cbn.
    repeat split; try assumption; try (destruct Hd; subst d; lia).
    now exists W, b. }
  destruct (get_feature_inv self (zeros [1; sequence_num; time_len]) a2 1
              time_len 1 false _ _ Hlayers eq_refl Hrun2)
    as (y0 & b0 & t0 & Hy0 & Hsy0 & Ht0 & Hsa2).
  apply lift_ok_inv in Hrun3. destruct Hrun3 as [Hv ->].
  unfold view_1_m1 in Hv. rewrite Hsa2 in Hv.
  destruct (Nat.eqb_spec (numel [b0; 512; t0]) 0) as [|Hne]; [discriminate|].
  injection Hv as <-.
  unfold shape_at in Hrun4. cbn [shape nth_error] in Hrun4.
  apply ret_ok_inv in Hrun4. destruct Hrun4 as [<- ->].
  apply ret_ok_inv in H. destruct H as [<- _].
  cbn [FeatureExtractor.time_len FeatureExtractor.sequence_num
       FeatureExtractor._cuda FeatureExtractor.conv FeatureExtractor.time_hid_dim
       FeatureExtractor.fc_dim].
  split; [assumption|]. split; [assumption|].
  split; [reflexivity|]. split; [reflexivity|]. split; [reflexivity|].
  split.
  { unfold FeatureExtractor_layers. cbn.
    repeat split; try assumption; try (destruct Hd; subst d; lia).
    now exists W, b. }
  exists y0, b0, t0. repeat split; try assumption.
  rewrite !numel_cons in Hne. destruct b0; [|lia]. exfalso. apply Hne. lia.
Qed.

Lemma FeatureExtractor_constructed_inv (arch : arch_resnet)
      (fe : FeatureExtractor.t) :
  FeatureExtractor_constructed arch fe ->
  FeatureExtractor_layers fe
  /\ exists y0 b0 t0,
       FeatureExtractor.conv fe
         (zeros [1; FeatureExtractor.sequence_num fe; FeatureExtractor.time_len fe])
       = Ok y0
       /\ shape y0 = [b0; FeatureExtractor.time_hid_dim fe; t0]
       /\ 1 <= t0 /\ 1 <= b0
       /\ FeatureExtractor.fc_dim fe = numel [b0; 512; t0].
Proof.
  intros (tl & sn & od & ct & tt & fl & cc & cuda & dr & w0 & fe0 & w1 & Hinit & Hre).
  destruct (FeatureExtractor_init_inv _ _ _ _ _ _ _ _ _ _ _ _ _ Hinit)
    as (_ & _ & Etl & Esn & _ & Hlay & y0 & b0 & t0 & Hy0 & Hsy0 & Ht0 & Hb0 & Hfc).
  destruct Hre
    as (R1 & R2 & R3 & R4 & (_ & _ & _ & _ & _ & R5) & R6 & R7 & R8 & R9 & R10).
  destruct Hlay as (L1 & L2 & L3 & L4 & W & b & L5).
  split.
  - unfold FeatureExtractor_layers. rewrite R3, R6, R8, R9.
    repeat (split; [assumption|]).
    rewrite L5 in R10.
    destruct (FeatureExtractor.conv1x1 fe) as [| | | | | |ms];
      simpl in R10; try contradiction.
    destruct ms as [|m1 [|m2 [|m3 ms]]];
      [contradiction | now destruct R10 as (_ & []) | | now destruct R10 as (_ & _ & [])].
    destruct R10 as (H1 & H2 & _).
    destruct m1; simpl in H1; try contradiction.
    destruct m2; simpl in H2; try contradiction.
    destruct H1 as (<- & <- & <-). subst negative_slope.
    now exists weight, bias.
  - exists y0, b0, t0. rewrite R1, R2, R5, R6, R7, Etl, Esn. auto.
Qed.

(** ** numpy: shuffling and bounded draws *)

Lemma random_interval_run (max : nat) (w : World) :
  exists r w',
    random_interval max w = (Ok r, w') /\ r <= max
    /\ torch_rng w' = torch_rng w /\ stdout w' = stdout w.
Proof.
  unfold random_interval. destruct max as [|m].
  - exists 0, w. auto.
  - eexists _, _. split; [reflexivity|]. cbn [torch_rng stdout].
    repeat split.
    pose proof (Nat.mod_upper_bound (np_tape (np_rng w) (np_pos (np_rng w)))
                  (S (S m)) ltac:(lia)). lia.
Qed.

Lemma length_set_nth {A} (l : list A) (i : nat) (a : A) :
  length (set_nth l i a) = length l.
Proof.
  revert i. induction l as [|b l IH]; intros [|i]; cbn; auto.
Qed.

Lemma length_swap (x : list nat) (i j : nat) : length (swap x i j) = length x.
Proof. unfold swap. now rewrite !length_set_nth. Qed.

Lemma set_nth_Permutation (l : list nat) (j a d : nat) :
  j < length l -> Permutation (nth j l d :: set_nth l j a) (a :: l).
Proof.
  revert j. induction l as [|b l IH]; intros [|j] Hj; cbn in *; try lia.
  - apply perm_swap.
  - rewrite perm_swap. rewrite (IH j ltac:(lia)). apply perm_swap.
Qed.

Lemma swap_Permutation (x : list nat) (i j : nat) :
  i < length x -> j < length x -> Permutation (swap x i j) x.
Proof.
  unfold swap. revert i j.
  induction x as [|a x IH]; intros [|i] [|j] Hi Hj; cbn in *; try lia.
  - reflexivity.
  - apply set_nth_Permutation. lia.
  - apply set_nth_Permutation. lia.
  - apply perm_skip. apply IH; lia.
Qed.

Lemma shuffle_from_run (i : nat) :
  forall x w,
    i < length x \/ i = 0 ->
    exists y w',
      shuffle_from i x w = (Ok y, w') /\ Permutation y x
      /\ torch_rng w' = torch_rng w /\ stdout w' = stdout w.
Proof.
  induction i as [|i IH]; intros x w Hi.
  - exists x, w. cbn. auto.
  - destruct Hi as [Hi|]; [|discriminate].
    destruct (random_interval_run (S i) w) as (j & w1 & Hj & Hle & T1 & O1).
    destruct (IH (swap x (S i) j) w1) as (y & w2 & Hy & Hp & T2 & O2).
    { left. rewrite length_swap. lia. }
    exists y, w2. cbn [shuffle_from]. rewrite (bind_ok _ Hj).
    split; [exact Hy|]. split.
    + rewrite Hp. apply swap_Permutation; lia.
    + split; congruence.
Qed.

Lemma np_random_shuffle_run (x : list nat) (w : World) :
  exists y w',
    np_random_shuffle x w = (Ok y, w') /\ Permutation y x
    /\ torch_rng w' = torch_rng w /\ stdout w' = stdout w.
Proof.
  unfold np_random_shuffle. apply shuffle_from_run.
  destruct x; cbn; [right; reflexivity | left; lia].
Qed.

Example shuffle_of_four :
  fst (np_random_shuffle (np_arange 4) world_counting) = Ok [0; 3; 2; 1].
Proof. reflexivity. Qed.

Example draw_of_four :
  fst (FeatureExtractor.draw_windows 4 world_counting) = Ok (1%Z, [0]).
Proof. reflexivity. Qed.

Example randint_rejects_empty_range :
  fst (np_random_randint 1 1 world_counting) = Err (ValueError "low >= high").
Proof. reflexivity. Qed.

Lemma np_random_randint_run (low high : Z) (w : World) :
  (low < high)%Z ->
  exists r w',
    np_random_randint low high w = (Ok r, w') /\ (low <= r < high)%Z
    /\ torch_rng w' = torch_rng w /\ stdout w' = stdout w.
Proof.
  intros H. unfold np_random_randint.
  destruct (Z.leb_spec high low) as [|_]; [lia|].
  destruct (random_interval_run (Z.to_nat (high - low - 1)) w)
    as (r & w' & Hr & Hle & T & O).
  exists (low + Z.of_nat r)%Z, w'. rewrite (bind_ok _ Hr).
  split; [reflexivity|]. split; [lia | auto].
Qed.

Lemma draw_windows_run (k : nat) (w : World) :
  1 <= k ->
  exists off idx w',
    FeatureExtractor.draw_windows k w = (Ok (off, idx), w')
    /\ (1 <= off <= Z.of_nat k)%Z
    /\ length idx = Z.to_nat off
    /\ NoDup idx
    /\ Forall (fun i => i < k) idx
    /\ torch_rng w' = torch_rng w /\ stdout w' = stdout w.
Proof.
  intros Hk. unfold FeatureExtractor.draw_windows, np_arange.
  destruct (np_random_shuffle_run (seq 0 k) w) as (p & w1 & Hp & Hperm & T1 & O1).
  assert (Hlen : length p = k).
  { rewrite (Permutation_length Hperm). apply length_seq. }
  destruct (np_random_randint_run 1 (Z.of_nat (length p) + 1) w1 ltac:(lia))
    as (off & w2 & Hoff & Hrange & T2 & O2).
  exists off, (firstn (Z.to_nat off) p), w2.
  rewrite (bind_ok _ Hp), (bind_ok _ Hoff).
  split; [reflexivity|]. split; [lia|]. split.
  { rewrite length_firstn. lia. }
  assert (Hnd : NoDup p).
  { apply (Permutation_NoDup (Permutation_sym Hperm)). apply seq_NoDup. }
  split.
  { rewrite <- (firstn_skipn (Z.to_nat off) p) in Hnd.
    apply NoDup_app_remove_r in Hnd. exact Hnd. }
  split.
  { apply Forall_forall. intros i Hi.
    assert (Hin : In i p).
    { rewrite <- (firstn_skipn (Z.to_nat off) p). apply in_or_app. now left. }
    apply (Permutation_in _ Hperm) in Hin. apply in_seq in Hin. lia. }
  split; congruence.
Qed.

Lemma forward_prologue (fe : FeatureExtractor.t) (dynamic : tensor)
      (lead : list nat) (k : nat) (batch : Z) (reset : bool) (w : World) :
  0 < FeatureExtractor.time_len fe ->
  shape dynamic = lead ++ [k * FeatureExtractor.time_len fe] ->
  FeatureExtractor.forward fe dynamic None batch reset w
  = bind (drawn <- FeatureExtractor.draw_windows k ;;
          for_each (snd drawn)
            (FeatureExtractor.window_feature fe dynamic batch reset))
      FeatureExtractor.average w.
Proof.
  intros Htl Hs. unfold FeatureExtractor.forward.
  assert (Hlast : shape_last dynamic w
                  = (Ok (k * FeatureExtractor.time_len fe), w)).
  { unfold shape_last. rewrite Hs, rev_app_distr. reflexivity. }
  unfold bind at 1. unfold bind at 1. rewrite Hlast.
  unfold FeatureExtractor.py_mod, FeatureExtractor.py_floordiv.
  destruct (Nat.eqb_spec (FeatureExtractor.time_len fe) 0) as [|_]; [lia|].
  rewrite Nat.Div0.mod_mul, Nat.div_mul by lia.
  unfold bind, ret, py_assert. cbn [Nat.eqb]. reflexivity.
Qed.

(** C4: on a series of [k >= 1] windows, [forward] draws a subset size
    [1 <= off <= k], visits [off] pairwise distinct window indices below
    [k], and its result is the average of [get_feature] over exactly those
    windows. *)
Theorem forward_samples_between_one_and_k_windows
        (fe : FeatureExtractor.t) (dynamic : tensor) (lead : list nat) (k : nat)
        (batch : Z) (reset : bool) (w : World) :
  0 < FeatureExtractor.time_len fe ->
  shape dynamic = lead ++ [k * FeatureExtractor.time_len fe] ->
  1 <= k ->
  exists off idx w1,
    FeatureExtractor.draw_windows k w = (Ok (off, idx), w1)
    /\ (1 <= off <= Z.of_nat k)%Z
    /\ length idx = Z.to_nat off
    /\ NoDup idx
    /\ Forall (fun i => i < k) idx
    /\ FeatureExtractor.forward fe dynamic None batch reset w
       = bind (for_each idx
                 (FeatureExtractor.window_feature fe dynamic batch reset))
           FeatureExtractor.average w1.
Proof.
  intros Htl Hs Hk.
  destruct (draw_windows_run k w Hk)
    as (off & idx & w1 & Hdraw & Hrange & Hlen & Hnd & Hlt & _).
  exists off, idx, w1. repeat (split; [assumption|]).
  rewrite (forward_prologue fe dynamic lead k batch reset w Htl Hs).
  unfold bind at 1. unfold bind at 1. rewrite Hdraw. reflexivity.
Qed.

(** ** The stand-in backbone *)

Lemma constant_backbone_run (c : nat) (x : tensor) (B C L : nat) :
  shape x = [B; C; L] -> constant_backbone c x = Ok (zeros [B; c; L]).
Proof. intros H. unfold constant_backbone. now rewrite H. Qed.

Lemma constant_backbone_contract (c channels : nat) :
  backbone_contract (constant_backbone c) channels.
Proof.
  intros x y B L _ Hs Hy.
  rewrite (constant_backbone_run c x B channels L Hs) in Hy. injection Hy as <-.
  split; [apply wf_zeros|]. exists c, L. split; [reflexivity|].
  intros x' B' _ Hs'. exists (zeros [B'; c; L]).
  split; [now apply constant_backbone_run with (C := channels)|].
  split; [apply wf_zeros | reflexivity].
Qed.

Lemma constant_arch_constructs (time_len sequence_num : nat) (cuda : bool)
      (w : World) :
  1 <= time_len ->
  exists net W b w',
    FeatureExtractor.__init__ constant_arch time_len sequence_num 1 "resnet"
      "lstm" 1 18 cuda false w
    = (Ok (FeatureExtractor.mk time_len sequence_num 1 "resnet" "lstm" 1
             cuda false 18 (constant_backbone 512) 512 net
             (Sequential [Conv1d 512 512 1 W b; LeakyReLU 0.01])
             (numel [1; 512; time_len]) true), w')
    /\ input_size net = 512 /\ hidden_size net = 512.
Proof.
  intros Htl. unfold FeatureExtractor.__init__.
  assert (Hsel : FeatureExtractor.select_backbone constant_arch sequence_num
                   "resnet" 18 w = (Ok (constant_backbone 512, 512), w))
    by reflexivity.
  rewrite (bind_ok _ Hsel). cbn [fst snd].
  destruct (string_dec "lstm" "lstm") as [_|N]; [|now elim N].
  destruct (nn_LSTM_run 512 512 w) as (net & w1 & Hnet & Hi & Hh).
  rewrite (bind_ok _ Hnet).
  destruct (nn_Conv1d_run 512 512 1 w1) as (W & b & w2 & Hc & _).
  rewrite (bind_ok _ Hc).
  match goal with
  | |- context [FeatureExtractor.get_feature ?probe _ _ _] => set (self := probe)
  end.
  assert (Hlayers : FeatureExtractor_layers self).
  { unfold FeatureExtractor_layers, self. cbn.
    repeat split; try assumption; try lia. now exists W, b. }
  destruct (get_feature_run self (zeros [1; sequence_num; time_len])
              (zeros [1; 512; time_len]) 1 time_len time_len 1 false w2
              Hlayers eq_refl eq_refl eq_refl Htl)
    as (out & w3 & Hout & Hso & _).
  rewrite (bind_ok _ Hout).
  assert (Hview : lift (view_1_m1 out) w3
                  = (Ok (mkTensor [1; numel [1; 512; time_len]] (data out)), w3)).
  { unfold lift, view_1_m1. rewrite Hso.
    destruct (Nat.eqb_spec (numel [1; 512; time_len]) 0) as [E|_];
      [|reflexivity].
    rewrite !numel_cons, numel_nil in E. lia. }
  rewrite (bind_ok _ Hview).
  rewrite (bind_ok (w' := w3) (a := numel [1; 512; time_len]) _ eq_refl).
  exists net, W, b, w3. split; [reflexivity|]. auto.
Qed.

Lemma sample_extractor_constructed (time_len sequence_num : nat) (cuda : bool) :
  1 <= time_len ->
  FeatureExtractor_constructed constant_arch
    (sample_extractor time_len sequence_num cuda).
Proof.
  intros Htl.
  destruct (constant_arch_constructs time_len sequence_num cuda world0 Htl)
    as (net & W & b & w' & Hinit & Hi & Hh).
  eexists time_len, sequence_num, 1, "resnet"%string, "lstm"%string, 1%Z, 18%Z,
    cuda, false, world0, _, w'.
  split; [exact Hinit|].
  unfold FeatureExtractor_retrained, sample_extractor. cbn.
  repeat split; try reflexivity; try congruence.
  try unfold numel. cbn [fold_right]. lia.
Qed.

(** ** FeatureExtractor.forward: the dimensions of the embedding *)

Lemma window_feature_run (fe : FeatureExtractor.t) (dynamic : tensor)
      (B k t H : nat) :
  FeatureExtractor_layers fe ->
  H = FeatureExtractor.time_hid_dim fe ->
  shape dynamic
  = [B; FeatureExtractor.sequence_num fe; k * FeatureExtractor.time_len fe] ->
  1 <= t ->
  (forall x, wf_tensor x ->
     shape x = [B; FeatureExtractor.sequence_num fe; FeatureExtractor.time_len fe] ->
     exists y, FeatureExtractor.conv fe x = Ok y /\ shape y = [B; H; t]) ->
  forall batch reset i w,
    i < k ->
    exists fea w',
      FeatureExtractor.window_feature fe dynamic batch reset i w = (Ok fea, w')
      /\ shape fea = [B; 1; 512; t].
Proof.
  intros Hlay -> Hs Ht Hconv batch reset i w Hi.
  destruct (slice_last_window dynamic B (FeatureExtractor.sequence_num fe)
              (k * FeatureExtractor.time_len fe) i (FeatureExtractor.time_len fe)
              Hs ltac:(nia))
    as (win & Hwin & Hsw & Hww).
  destruct (Hconv win Hww Hsw) as (y & Hy & Hsy).
  destruct (get_feature_run fe win y B (FeatureExtractor.time_len fe) t batch
              reset w Hlay Hsw Hy Hsy Ht)
    as (out & w' & Hout & Hso & _).
  destruct (unsqueeze1_rank3 out B 512 t Hso) as (fea & Hfea & Hsf & _).
  exists fea, w'. unfold FeatureExtractor.window_feature.
  unfold lift at 1. rewrite Hwin.
  rewrite (bind_ok (w' := w) (a := win) _ eq_refl).
  rewrite (bind_ok _ Hout). unfold lift. rewrite Hfea. auto.
Qed.

(** C1, amended: on a constructed feature extractor with a positive window
    length and a backbone under contract, [forward] maps every series of
    shape [[B, sequence_num, k * time_len]] with [k >= 1] to a matrix of
    shape [[B, fc_dim]]; [fc_dim] is the number of entries of [get_feature]
    on the all-zero window, as the constructor computed it. *)
Theorem forward_shape_is_batch_by_fc_dim
        (arch : arch_resnet) (fe : FeatureExtractor.t) (dynamic : tensor)
        (B k : nat) (batch : Z) (reset : bool) (w : World) :
  FeatureExtractor_constructed arch fe ->
  backbone_contract (FeatureExtractor.conv fe) (FeatureExtractor.sequence_num fe) ->
  0 < FeatureExtractor.time_len fe ->
  shape dynamic
  = [B; FeatureExtractor.sequence_num fe; k * FeatureExtractor.time_len fe] ->
  1 <= k ->
  (exists out w',
      FeatureExtractor.forward fe dynamic None batch reset w = (Ok out, w')
      /\ shape out = [B; FeatureExtractor.fc_dim fe] /\ wf_tensor out)
  /\ (exists probe,
        FeatureExtractor.get_feature fe
          (zeros [1; FeatureExtractor.sequence_num fe; FeatureExtractor.time_len fe])
          1 false w = (Ok probe, w)
        /\ FeatureExtractor.fc_dim fe = numel (shape probe)).
Proof.
  intros Hc Hbb Htl Hs Hk.
  destruct (FeatureExtractor_constructed_inv arch fe Hc)
    as (Hlay & y0 & b0 & t0 & Hy0 & Hsy0 & Ht0 & Hb0 & Hfc).
  destruct (Hbb _ y0 1 (FeatureExtractor.time_len fe) (wf_zeros _) eq_refl Hy0)
    as (Hwy0 & c & t & Hsy0' & Hall).
  rewrite Hsy0 in Hsy0'. injection Hsy0' as -> <- <-.
  split.
  - rewrite (forward_prologue fe dynamic
               [B; FeatureExtractor.sequence_num fe] k batch reset w Htl Hs).
    destruct (draw_windows_run k w Hk)
      as (off & idx & w1 & Hdraw & Hrange & Hlen & _ & Hlt & _).
    rewrite Forall_forall in Hlt.
    destruct (for_each_total
                (FeatureExtractor.window_feature fe dynamic batch reset)
                (fun _ fea => shape fea = [B; 1; 512; t0]) idx) with (w := w1)
      as (feas & w2 & Hfeas & HP).
    { intros i w' Hin.
      apply (window_feature_run fe dynamic B k t0
               (FeatureExtractor.time_hid_dim fe) Hlay eq_refl Hs Ht0).
      - intros x Hwx Hsx. destruct (Hall x B Hwx Hsx) as (y & Hy & _ & Hsy).
        now exists y.
      - now apply Hlt. }
    assert (Hne : feas <> []).
    { apply Forall2_length in HP. destruct feas; [|discriminate].
      cbn in HP. lia. }
    assert (Hshapes : Forall (fun x => shape x = [B; 1; 512; t0]) feas).
    { clear - HP. induction HP; constructor; auto. }
    destruct (average_run feas B 512 t0 w2 Hne Hshapes) as (out & Hout & Hso & Hwo).
    exists out, w2. split.
    + unfold bind at 1. unfold bind at 1. rewrite Hdraw. cbn [snd].
      rewrite Hfeas. exact Hout.
    + split; [|exact Hwo]. rewrite Hso, Hfc. rewrite !numel_cons. f_equal. f_equal. lia.
  - destruct (get_feature_run fe
                (zeros [1; FeatureExtractor.sequence_num fe;
                        FeatureExtractor.time_len fe])
                y0 1 (FeatureExtractor.time_len fe) t0 1 false
                w Hlay eq_refl Hy0 Hsy0 Ht0)
      as (probe & w' & Hp & Hsp & _ & _ & _ & Hw & _).
    rewrite (Hw eq_refl) in Hp. exists probe. split; [exact Hp|].
    now rewrite Hsp.
Qed.

Lemma forward_empty_series_raises (fe : FeatureExtractor.t) (dynamic : tensor)
      (lead : list nat) (batch : Z) (reset : bool) (w : World) :
  0 < FeatureExtractor.time_len fe ->
  shape dynamic = lead ++ [0] ->
  FeatureExtractor.forward fe dynamic None batch reset w
  = (Err (ValueError "low >= high"), w).
Proof.
  intros Htl Hs.
  rewrite (forward_prologue fe dynamic lead 0 batch reset w Htl)
    by (rewrite Hs, Nat.mul_0_l; reflexivity).
  reflexivity.
Qed.

(** C1 as stated fails on a series of length 0, which is a multiple of
    every window length: [np.random.randint(1, 1)] raises [ValueError]. *)
Lemma forward_rejects_series_of_length_zero :
  FeatureExtractor_constructed constant_arch (sample_extractor 32 3 true)
  /\ backbone_contract (FeatureExtractor.conv (sample_extractor 32 3 true))
       (FeatureExtractor.sequence_num (sample_extractor 32 3 true))
  /\ shape (zeros [2; 3; 0])
     = [2; FeatureExtractor.sequence_num (sample_extractor 32 3 true);
        0 * FeatureExtractor.time_len (sample_extractor 32 3 true)]
  /\ FeatureExtractor.forward (sample_extractor 32 3 true) (zeros [2; 3; 0])
       None 1 true world0
     = (Err (ValueError "low >= high"), world0)
  /\ ~ (exists out w',
          FeatureExtractor.forward (sample_extractor 32 3 true)
            (zeros [2; 3; 0]) None 1 true world0 = (Ok out, w')
          /\ shape out
             = [2; FeatureExtractor.fc_dim (sample_extractor 32 3 true)]).
Proof.
  assert (H : FeatureExtractor.forward (sample_extractor 32 3 true)
                (zeros [2; 3; 0]) None 1 true world0
              = (Err (ValueError "low >= high"), world0)).
  { apply forward_empty_series_raises with (lead := [2; 3]).
    - cbn. lia.
    - reflexivity. }
  split; [apply sample_extractor_constructed; lia|].
  split; [apply constant_backbone_contract|].
  split; [reflexivity|].
  split; [exact H|].
  intros (out & w' & Hok & _). rewrite H in Hok. discriminate.
Qed.

Lemma forward_shape_witness :
  exists out w',
    FeatureExtractor.forward (sample_extractor 32 3 true) (zeros [2; 3; 4 * 32])
      None 1 true world0 = (Ok out, w')
    /\ shape out = [2; 512 * 32].
Proof.
  destruct (forward_shape_is_batch_by_fc_dim constant_arch
              (sample_extractor 32 3 true) (zeros [2; 3; 4 * 32]) 2 4 1 true
              world0
              (sample_extractor_constructed 32 3 true ltac:(lia))
              (constant_backbone_contract 512 3)
              ltac:(cbn; lia) eq_refl ltac:(lia))
    as [(out & w' & H & Hs & _) _].
  exists out, w'. split; [exact H | exact Hs].
Defined.

(** ** Assertion failures and their messages *)

Lemma append_empty_r (s : string) : (s ++ "")%string = s.
Proof. induction s as [|a s IH]; cbn; [reflexivity | now rewrite IH]. Qed.

Lemma get_feature_rejects_channels (fe : FeatureExtractor.t) (dynamic : tensor)
      (B c d : nat) (rest : list nat) (batch : Z) (reset : bool) (w : World) :
  shape dynamic = B :: c :: d :: rest ->
  c <> FeatureExtractor.sequence_num fe ->
  FeatureExtractor.get_feature fe dynamic batch reset w
  = (Err (AssertionError
            ("Dynamic shape: " ++ str_of_Size (shape dynamic) ++ " seq num: "
             ++ str_of_nat (FeatureExtractor.sequence_num fe))), w).
Proof.
  intros Hs Hc. unfold FeatureExtractor.get_feature.
  rewrite (bind_ok _ (shape_at_run dynamic 0 B w ltac:(now rewrite Hs))).
  unfold rank. rewrite Hs at 1. cbn [length Nat.eqb].
  rewrite (bind_ok (w' := w) (a := dynamic) _ eq_refl).
  rewrite (bind_ok _ (shape_at_run dynamic 1 c w ltac:(now rewrite Hs))).
  destruct (Nat.eqb_spec c (FeatureExtractor.sequence_num fe)) as [|_];
    [contradiction|].
  reflexivity.
Qed.

Lemma get_feature_rejects_matrix (fe : FeatureExtractor.t) (dynamic : tensor)
      (B L : nat) (batch : Z) (reset : bool) (w : World) :
  shape dynamic = [B; L] ->
  FeatureExtractor.sequence_num fe <> 1 ->
  FeatureExtractor.get_feature fe dynamic batch reset w
  = (Err (AssertionError
            ("Dynamic shape: " ++ str_of_Size [B; 1; L] ++ " seq num: "
             ++ str_of_nat (FeatureExtractor.sequence_num fe))), w).
Proof.
  intros Hs Hc. unfold FeatureExtractor.get_feature.
  rewrite (bind_ok _ (shape_at_run dynamic 0 B w ltac:(now rewrite Hs))).
  unfold rank, unsqueeze, rank. rewrite Hs. cbn [length Nat.eqb Nat.leb firstn skipn app].
  rewrite (bind_ok (w' := w) (a := mkTensor [B; 1; L] (data dynamic)) _ eq_refl).
  rewrite (bind_ok (w' := w) (a := 1) _ eq_refl).
  destruct (Nat.eqb_spec 1 (FeatureExtractor.sequence_num fe)) as [E|_];
    [now elim Hc|].
  reflexivity.
Qed.

Lemma forward_rejects_length (fe : FeatureExtractor.t) (dynamic : tensor)
      (lead : list nat) (L : nat) (batch : Z) (reset : bool) (w : World) :
  0 < FeatureExtractor.time_len fe ->
  shape dynamic = lead ++ [L] ->
  L mod FeatureExtractor.time_len fe <> 0 ->
  FeatureExtractor.forward fe dynamic None batch reset w
  = (Err (AssertionError ("dynamic shape: " ++ str_of_Size (shape dynamic))), w).
Proof.
  intros Htl Hs Hmod. unfold FeatureExtractor.forward.
  assert (Hlast : shape_last dynamic w = (Ok L, w)).
  { unfold shape_last. rewrite Hs, rev_app_distr. reflexivity. }
  unfold bind at 1. unfold bind at 1. rewrite Hlast.
  unfold FeatureExtractor.py_mod.
  destruct (Nat.eqb_spec (FeatureExtractor.time_len fe) 0) as [|_]; [lia|].
  unfold bind, ret, py_assert.
  destruct (Nat.eqb_spec (L mod FeatureExtractor.time_len fe) 0) as [|_];
    [contradiction|].
  reflexivity.
Qed.

(** C6: [get_feature] on an input whose channel count differs from
    [sequence_num] (a matrix counts one channel), and [forward] on a series
    whose length the window length does not divide, raise [AssertionError];
    the message contains the printed shape of the tensor that was tested. *)
Theorem shape_mismatch_raises_assertion_with_shape
        (fe : FeatureExtractor.t) (dynamic : tensor) (batch : Z) (reset : bool)
        (w : World) :
  (forall B c d rest,
      shape dynamic = B :: c :: d :: rest ->
      c <> FeatureExtractor.sequence_num fe ->
      exists msg,
        FeatureExtractor.get_feature fe dynamic batch reset w
        = (Err (AssertionError msg), w)
        /\ contains (str_of_Size (shape dynamic)) msg)
  /\ (forall B L,
        shape dynamic = [B; L] ->
        FeatureExtractor.sequence_num fe <> 1 ->
        exists msg,
          FeatureExtractor.get_feature fe dynamic batch reset w
          = (Err (AssertionError msg), w)
          /\ contains (str_of_Size [B; 1; L]) msg)
  /\ (forall lead L,
        0 < FeatureExtractor.time_len fe ->
        shape dynamic = lead ++ [L] ->
        L mod FeatureExtractor.time_len fe <> 0 ->
        exists msg,
          FeatureExtractor.forward fe dynamic None batch reset w
          = (Err (AssertionError msg), w)
          /\ contains (str_of_Size (shape dynamic)) msg).
Proof.
  split; [|split].
  - intros B c d rest Hs Hc. eexists. split.
    + apply (get_feature_rejects_channels fe dynamic B c d rest batch reset w Hs Hc).
    + eexists _, _. reflexivity.
  - intros B L Hs Hc. eexists. split.
    + apply (get_feature_rejects_matrix fe dynamic B L batch reset w Hs Hc).
    + eexists _, _. reflexivity.
  - intros lead L Htl Hs Hmod. eexists. split.
    + apply (forward_rejects_length fe dynamic lead L batch reset w Htl Hs Hmod).
    + exists "dynamic shape: "%string, ""%string.
      now rewrite append_empty_r.
Qed.

Lemma shape_mismatch_witness :
  (exists msg,
      FeatureExtractor.get_feature (sample_extractor 32 3 true)
        (zeros [2; 4; 32]) 1 true world0 = (Err (AssertionError msg), world0)
      /\ contains "torch.Size([2, 4, 32])" msg)
  /\ (exists msg,
        FeatureExtractor.get_feature (sample_extractor 32 3 true)
          (zeros [2; 32]) 1 true world0 = (Err (AssertionError msg), world0)
        /\ contains "torch.Size([2, 1, 32])" msg)
  /\ (exists msg,
        FeatureExtractor.forward (sample_extractor 32 3 true)
          (zeros [2; 3; 100]) None 1 true world0
        = (Err (AssertionError msg), world0)
        /\ contains "torch.Size([2, 3, 100])" msg).
Proof.
  split; [|split].
  - apply (proj1 (shape_mismatch_raises_assertion_with_shape
                    (sample_extractor 32 3 true) (zeros [2; 4; 32]) 1 true world0)
             2 4 32 []).
    + reflexivity.
    + cbn. lia.
  - apply (proj1 (proj2 (shape_mismatch_raises_assertion_with_shape
                           (sample_extractor 32 3 true) (zeros [2; 32]) 1 true
                           world0)) 2 32).
    + reflexivity.
    + cbn. lia.
  - apply (proj2 (proj2 (shape_mismatch_raises_assertion_with_shape
                           (sample_extractor 32 3 true) (zeros [2; 3; 100]) 1
                           true world0)) [2; 3] 100).
    + cbn. lia.
    + reflexivity.
    + change (100 mod 32 <> 0). vm_compute. discriminate.
Defined.

Example get_feature_message :
  FeatureExtractor.get_feature (sample_extractor 32 3 true) (zeros [2; 4; 32])
    1 true world0
  = (Err (AssertionError "Dynamic shape: torch.Size([2, 4, 32]) seq num: 3"),
     world0).
Proof.
  rewrite (get_feature_rejects_channels (sample_extractor 32 3 true)
             (zeros [2; 4; 32]) 2 4 32 [] 1 true world0 eq_refl)
    by (cbn; lia).
  reflexivity.
Qed.

(** ** init_hidden *)

(** C7, amended: with [time_type = 'lstm'], [hidden_dim >= 1] and
    [layer + batch >= 1], [init_hidden] returns a pair whose first component
    holds a Xavier-uniform draw of shape [[layer, batch, hidden_dim]] that
    requires gradients.  When the cuda flag is set the first component is on
    the GPU and the second component is that same tensor: the second draw is
    consumed and dropped.  When the flag is not set both stay in host memory
    and the second component holds the second, independent draw. *)
Theorem init_hidden_cell_aliases_hidden_on_cuda
        (self : FeatureExtractor.t) (hidden_dim batch layer : nat) (w : World) :
  FeatureExtractor.time_type self = "lstm"%string ->
  0 < hidden_dim -> 0 < layer + batch ->
  exists t1 w1 t2 w2 h c,
    xavier_uniform_ [layer; batch; hidden_dim] w = (Ok t1, w1)
    /\ xavier_uniform_ [layer; batch; hidden_dim] w1 = (Ok t2, w2)
    /\ FeatureExtractor.init_hidden self hidden_dim batch layer w
       = (Ok (Some (h, c)), w2)
    /\ values h = t1 /\ shape t1 = [layer; batch; hidden_dim] /\ wf_tensor t1
    /\ requires_grad h = true
    /\ ((forall n, (0 <= g_tape (torch_rng w) n <= 1)%R) ->
        forall v, In v (data t1) ->
          (- xavier_bound layer batch hidden_dim <= v
           <= xavier_bound layer batch hidden_dim)%R)
    /\ (FeatureExtractor._cuda self = true -> device h = GPU /\ c = h)
    /\ (FeatureExtractor._cuda self = false ->
        device h = CPU /\ c = mkAutograd t2 true CPU).
Proof.
  intros Htt Hh Hlb.
  destruct (init_hidden_run self hidden_dim batch layer w Htt Hh Hlb)
    as (t1 & w1 & t2 & w2 & X1 & X2 & S1 & W1 & _ & _ & Hini).
  exists t1, w1, t2, w2.
  destruct (FeatureExtractor._cuda self) eqn:Hcuda.
  - exists (mkAutograd t1 true GPU), (mkAutograd t1 true GPU).
    repeat (split; [assumption || reflexivity|]).
    split; [intros Hu; now apply (xavier_uniform__bounded _ _ _ _ _ _ Hu X1)|].
    split; [auto | discriminate].
  - exists (mkAutograd t1 true CPU), (mkAutograd t2 true CPU).
    repeat (split; [assumption || reflexivity|]).
    split; [intros Hu; now apply (xavier_uniform__bounded _ _ _ _ _ _ Hu X1)|].
    split; [discriminate | auto].
Qed.

Lemma init_hidden_witness :
  exists h c w',
    FeatureExtractor.init_hidden (sample_extractor 32 3 true) 512 2 1 world0
    = (Ok (Some (h, c)), w')
    /\ shape (values h) = [1; 2; 512] /\ device h = GPU /\ c = h.
Proof.
  destruct (init_hidden_cell_aliases_hidden_on_cuda
              (sample_extractor 32 3 true) 512 2 1 world0
              eq_refl ltac:(lia) ltac:(lia))
    as (t1 & w1 & t2 & w2 & h & c & _ & _ & Hini & Hv & Hs & _ & _ & _ & Hcuda & _).
  exists h, c, w2. split; [exact Hini|].
  split; [now rewrite Hv|]. exact (Hcuda eq_refl).
Defined.

Lemma xavier_bound_pos (layer batch hidden : nat) :
  0 < hidden -> 0 < layer + batch -> (0 < xavier_bound layer batch hidden)%R.
Proof.
  intros Hh Hlb. unfold xavier_bound.
  assert (Hn : (0 < INR (batch * numel [hidden] + layer * numel [hidden]))%R).
  { apply lt_0_INR. rewrite numel_cons, numel_nil. nia. }
  apply Rmult_lt_0_compat; [apply sqrt_lt_R0; lra|].
  apply Rmult_lt_0_compat; [lra|]. apply sqrt_lt_R0.
  apply Rdiv_lt_0_compat; lra.
Qed.

(** C7 as stated fails when the cuda flag is not set: the hidden state stays
    in host memory and the cell state is the second, different draw. *)
Lemma init_hidden_cell_is_fresh_without_cuda :
  exists h c w',
    FeatureExtractor.time_type (sample_extractor 32 3 false) = "lstm"%string
    /\ FeatureExtractor.init_hidden (sample_extractor 32 3 false) 1 1 1
         world_stepping
       = (Ok (Some (h, c)), w')
    /\ device h = CPU /\ c <> h.
Proof.
  destruct (init_hidden_run (sample_extractor 32 3 false) 1 1 1 world_stepping
              eq_refl ltac:(lia) ltac:(lia))
    as (t1 & w1 & t2 & w2 & X1 & X2 & _ & _ & _ & _ & Hini).
  cbn [FeatureExtractor._cuda sample_extractor] in Hini.
  exists (mkAutograd t1 true CPU), (mkAutograd t2 true CPU), w2.
  split; [reflexivity|]. split; [exact Hini|]. split; [reflexivity|].
  destruct (xavier_uniform__values _ _ _ _ _ _ X1) as (E1 & G1 & _).
  destruct (xavier_uniform__values _ _ _ _ _ _ X2) as (E2 & _ & _).
  intros Heq. injection Heq as Heq. rewrite E1, E2 in Heq.
  injection Heq as Heq.
  rewrite G1 in Heq. cbn [torch_rng g_tape g_pos world_stepping] in Heq.
  destruct (Nat.eqb_spec (0 + numel [1; 1; 1] + 0) 0) as [E|_];
    [rewrite !numel_cons, numel_nil in E; lia|].
  pose proof (xavier_bound_pos 1 1 1 ltac:(lia) ltac:(lia)). lra.
Qed.

(** ** get_feature: the batch argument and matrix inputs *)

(** C9: [get_feature] does not depend on its [batch] argument; with
    [reset], the recurrent state it draws has [dynamic.shape[0]] rows: the
    generator advances by the two draws of [[1, dynamic.shape[0],
    time_hid_dim]] entries each. *)
Theorem get_feature_ignores_batch_argument
        (fe : FeatureExtractor.t) (dynamic : tensor) (batch batch' : Z)
        (reset : bool) (w : World) :
  FeatureExtractor.get_feature fe dynamic batch reset w
  = FeatureExtractor.get_feature fe dynamic batch' reset w
  /\ (forall B L y t,
        FeatureExtractor_layers fe ->
        shape dynamic = [B; FeatureExtractor.sequence_num fe; L] ->
        FeatureExtractor.conv fe dynamic = Ok y ->
        shape y = [B; FeatureExtractor.time_hid_dim fe; t] -> 1 <= t ->
        exists out w',
          FeatureExtractor.get_feature fe dynamic batch true w = (Ok out, w')
          /\ shape out = [B; 512; t]
          /\ g_pos (torch_rng w')
             = g_pos (torch_rng w)
               + 2 * numel [1; B; FeatureExtractor.time_hid_dim fe]).
Proof.
  split; [reflexivity|].
  intros B L y t Hlay Hs Hy Hsy Ht.
  destruct (get_feature_run fe dynamic y B L t batch true w Hlay Hs Hy Hsy Ht)
    as (out & w' & Hout & Hso & _ & _ & _ & _ & Hg).
  exists out, w'. split; [exact Hout|]. split; [exact Hso|].
  now rewrite (Hg eq_refl).
Qed.

Lemma sample_extractor_layers (time_len sequence_num : nat) (cuda : bool) :
  FeatureExtractor_layers (sample_extractor time_len sequence_num cuda).
Proof.
  unfold FeatureExtractor_layers, sample_extractor. cbn.
  repeat split; try lia. eexists _, _. reflexivity.
Qed.

Lemma get_feature_batch_witness :
  exists out w',
    FeatureExtractor.get_feature (sample_extractor 32 3 true) (zeros [2; 3; 32])
      7 true world0 = (Ok out, w')
    /\ shape out = [2; 512; 32]
    /\ g_pos (torch_rng w') = g_pos (torch_rng world0) + 2 * numel [1; 2; 512].
Proof.
  apply (proj2 (get_feature_ignores_batch_argument (sample_extractor 32 3 true)
                  (zeros [2; 3; 32]) 7 1 true world0)
           2 32 (zeros [2; 512; 32]) 32).
  - apply sample_extractor_layers.
  - reflexivity.
  - reflexivity.
  - reflexivity.
  - lia.
Defined.

Lemma get_feature_unsqueezes_matrix (fe : FeatureExtractor.t) (x : tensor)
      (B L : nat) (batch : Z) (reset : bool) (w : World) :
  shape x = [B; L] ->
  FeatureExtractor.get_feature fe x batch reset w
  = FeatureExtractor.get_feature fe (mkTensor [B; 1; L] (data x)) batch reset w.
Proof.
  intros Hs. unfold FeatureExtractor.get_feature.
  rewrite (bind_ok _ (shape_at_run x 0 B w ltac:(now rewrite Hs))).
  rewrite (bind_ok _ (shape_at_run (mkTensor [B; 1; L] (data x)) 0 B w eq_refl)).
  unfold rank, unsqueeze, rank. rewrite Hs.
  cbn [shape length Nat.eqb Nat.leb firstn skipn app].
  rewrite (bind_ok (w' := w) (a := mkTensor [B; 1; L] (data x)) _ eq_refl).
  rewrite (bind_ok (w' := w) (a := mkTensor [B; 1; L] (data x))
             (m := ret (mkTensor [B; 1; L] (data x))) _ eq_refl).
  reflexivity.
Qed.

(** C10: on a matrix [[batch, time_len]], [get_feature] inserts a channel
    axis of size 1 and continues as on that rank-3 tensor; on a constructed
    feature extractor with a backbone under contract it succeeds exactly
    when [sequence_num] is 1. *)
Theorem get_feature_accepts_matrix_iff_one_channel
        (arch : arch_resnet) (fe : FeatureExtractor.t) (x : tensor) (B : nat)
        (batch : Z) (reset : bool) (w : World) :
  FeatureExtractor_constructed arch fe ->
  backbone_contract (FeatureExtractor.conv fe) (FeatureExtractor.sequence_num fe) ->
  wf_tensor x -> shape x = [B; FeatureExtractor.time_len fe] ->
  unsqueeze x 1 = Ok (mkTensor [B; 1; FeatureExtractor.time_len fe] (data x))
  /\ FeatureExtractor.get_feature fe x batch reset w
     = FeatureExtractor.get_feature fe
         (mkTensor [B; 1; FeatureExtractor.time_len fe] (data x)) batch reset w
  /\ ((exists out w',
          FeatureExtractor.get_feature fe x batch reset w = (Ok out, w'))
      <-> FeatureExtractor.sequence_num fe = 1).
Proof.
  intros Hc Hbb Hwf Hs.
  split.
  { unfold unsqueeze, rank. rewrite Hs. reflexivity. }
  split.
  { apply get_feature_unsqueezes_matrix. exact Hs. }
  split.
  - intros (out & w' & Hok).
    destruct (Nat.eq_dec (FeatureExtractor.sequence_num fe) 1) as [E|N];
      [exact E|].
    rewrite (get_feature_rejects_matrix fe x B _ batch reset w Hs N) in Hok.
    discriminate.
  - intros Hone.
    destruct (FeatureExtractor_constructed_inv arch fe Hc)
      as (Hlay & y0 & b0 & t0 & Hy0 & Hsy0 & Ht0 & Hb0 & Hfc).
    destruct (Hbb _ y0 1 (FeatureExtractor.time_len fe) (wf_zeros _) eq_refl Hy0)
      as (_ & c & t & Hsy0' & Hall).
    rewrite Hsy0 in Hsy0'. injection Hsy0' as _ <- <-.
    set (x3 := mkTensor [B; 1; FeatureExtractor.time_len fe] (data x)).
    assert (Hs3 : shape x3
                  = [B; FeatureExtractor.sequence_num fe;
                     FeatureExtractor.time_len fe])
      by (now rewrite Hone).
    assert (Hw3 : wf_tensor x3).
    { unfold wf_tensor, x3 in *. cbn [shape data]. rewrite Hwf, Hs.
      rewrite !numel_cons. lia. }
    destruct (Hall x3 B Hw3 Hs3) as (y & Hy & _ & Hsy).
    destruct (get_feature_run fe x3 y B _ t0 batch reset w Hlay Hs3 Hy Hsy Ht0)
      as (out & w' & Hout & _).
    exists out, w'.
    rewrite (get_feature_unsqueezes_matrix fe x B _ batch reset w Hs).
    exact Hout.
Qed.

Lemma get_feature_matrix_witness :
  exists out w',
    FeatureExtractor.get_feature (sample_extractor 32 1 true) (zeros [2; 32])
      1 true world0 = (Ok out, w').
Proof.
  apply (proj2 (proj2 (proj2 (get_feature_accepts_matrix_iff_one_channel
                                constant_arch (sample_extractor 32 1 true)
                                (zeros [2; 32]) 2 1 true world0
                                (sample_extractor_constructed 32 1 true ltac:(lia))
                                (constant_backbone_contract 512 1)
                                (wf_zeros [2; 32]) eq_refl)))).
  reflexivity.
Defined.

(** ** Worked instances of the head and constructor properties *)

Lemma Regressioner_constructed_by_init in_dim output_dim fc_layers cuda dropout
      w r w' :
  Regressioner.__init__ in_dim output_dim fc_layers cuda dropout w = (Ok r, w') ->
  Regressioner_constructed r.
Proof.
  intros H. exists in_dim, output_dim, fc_layers, cuda, dropout, w, r, w'.
  split; [exact H|]. unfold Regressioner_retrained.
  repeat (split; [reflexivity|]). apply similar_refl.
Qed.

Lemma Classifier_constructed_by_init in_dim fc_layers cuda dropout w c w' :
  Classifier.__init__ in_dim fc_layers cuda dropout w = (Ok c, w') ->
  Classifier_constructed c.
Proof.
  intros H. exists in_dim, fc_layers, cuda, dropout, w, c, w'.
  split; [exact H|]. unfold Classifier_retrained.
  repeat (split; [reflexivity|]). apply similar_refl.
Qed.

Lemma Regressioner_forward_witness :
  exists r out fc_feature w',
    Regressioner_constructed r
    /\ Regressioner.forward r (zeros [3; 4]) (Some 2%Z) world0
       = (Ok (out, fc_feature), w')
    /\ in_unit_interval out.
Proof.
  destruct (Regressioner_init_run 4 1 2 true true world0 ltac:(lia))
    as (r & w1 & Hinit & Hin & _ & _ & _ & Hlen & _).
  pose proof (Regressioner_constructed_by_init _ _ _ _ _ _ _ _ Hinit) as Hc.
  destruct (Regressioner_forward_unit_interval r (zeros [3; 4]) (Some 2%Z) world0)
    as [Hbound Hruns].
  destruct (Hruns Hc 3) as (out & feats & w' & Hrun).
  - rewrite Hin. reflexivity.
  - cbn [valid_end]. rewrite Hlen. lia.
  - exists r, out, feats, w'. split; [exact Hc|]. split; [exact Hrun|].
    exact (proj1 (Hbound out feats w' Hrun)).
Defined.

Lemma Classifier_forward_witness :
  exists c out w',
    Classifier_constructed c
    /\ Classifier.forward c (zeros [3; 4]) (1 / 2) world0 = (Ok out, w')
    /\ shape out = [3; 2]
    /\ Rsum (map exp (row out 0)) = 1%R.
Proof.
  destruct (Classifier_init_run 4 3 true true world0 ltac:(lia))
    as (c & w1 & Hinit & Hin & _).
  pose proof (Classifier_constructed_by_init _ _ _ _ _ _ _ Hinit) as Hc.
  destruct (Classifier_forward_log_probabilities c (zeros [3; 4]) (1 / 2) 3
              world0 Hc ltac:(now rewrite Hin))
    as (out & w' & Hrun & Hs & Hrows).
  exists c, out, w'. split; [exact Hc|]. split; [exact Hrun|].
  split; [exact Hs|]. exact (proj2 (Hrows 0 ltac:(lia))).
Defined.

Lemma forward_samples_witness :
  exists off idx w1,
    FeatureExtractor.draw_windows 4 world0 = (Ok (off, idx), w1)
    /\ (1 <= off <= 4)%Z /\ length idx = Z.to_nat off /\ NoDup idx.
Proof.
  destruct (forward_samples_between_one_and_k_windows
              (sample_extractor 32 3 true) (zeros [2; 3; 4 * 32]) [2; 3] 4 1 true
              world0 ltac:(cbn; lia) eq_refl ltac:(lia))
    as (off & idx & w1 & Hdraw & Hrange & Hlen & Hnd & _).
  exists off, idx, w1. split; [exact Hdraw|].
  split; [lia|]. split; [exact Hlen | exact Hnd].
Defined.

Lemma constructors_reject_witness :
  Regressioner.__init__ 4 1 6 true false world0
  = (Err (AssertionError ""), world0)
  /\ (exists r w', Regressioner.__init__ 4 1 5 true false world0 = (Ok r, w'))
  /\ Classifier.__init__ 4 0 true false world0
     = (Err (AssertionError ""), world0)
  /\ (exists c w', Classifier.__init__ 4 1 true false world0 = (Ok c, w'))
  /\ fst (FeatureExtractor.__init__ constant_arch 32 3 1 "resnet" "lstm" 1 19
            true false world0) = Err (SystemExit (-1))
  /\ FeatureExtractor.__init__ constant_arch 32 3 1 "vgg" "lstm" 1 16
       true false world0 = (Err NotImplementedError, world0).
Proof.
  destruct constructors_reject_invalid_configuration as (HR & HC & HF).
  split; [apply (proj1 (HR 4 1 6%Z true false world0)); lia|].
  split; [apply (proj2 (HR 4 1 5%Z true false world0)); lia|].
  split; [apply (proj1 (HC 4 0%Z true false world0)); lia|].
  split; [apply (proj2 (HC 4 1%Z true false world0)); lia|].
  split.
  - rewrite (proj1 (HF constant_arch 32 3 1 "resnet"%string "lstm"%string 1%Z
                      19%Z true false world0) eq_refl).
    + reflexivity.
    + unfold supported_depth. cbn [In]. lia.
  - apply (proj2 (HF constant_arch 32 3 1 "vgg"%string "lstm"%string 1%Z 16%Z
                    true false world0)).
    discriminate.
Defined.

(** ** Determinism under seeding *)

Section Respects.
Variable Rel : World -> World -> Prop.

Lemma respects_ret {A} (a : A) : respects Rel (ret a).
Proof. intros w1 w2 H. split; [reflexivity | exact H]. Qed.

Lemma respects_raise {A} (e : exn) : respects Rel (@raise A e).
Proof. intros w1 w2 H. split; [reflexivity | exact H]. Qed.

Lemma respects_lift {A} (r : result A) : respects Rel (lift r).
Proof. intros w1 w2 H. split; [reflexivity | exact H]. Qed.

Lemma respects_bind {A B} (m : M A) (k : A -> M B) :
  respects Rel m -> (forall a, respects Rel (k a)) -> respects Rel (bind m k).
Proof.
  intros Hm Hk w1 w2 H. unfold bind.
  destruct (Hm w1 w2 H) as [E HR].
  destruct (m w1) as [r1 u1], (m w2) as [r2 u2]. cbn [fst snd] in *. subst r2.
  destruct r1 as [a|e]; [apply Hk; exact HR | split; [reflexivity | exact HR]].
Qed.

Lemma respects_for_each {A B} (body : A -> M B) (l : list A) :
  (forall a, respects Rel (body a)) -> respects Rel (for_each l body).
Proof.
  intros Hb. induction l as [|a l IH]; cbn [for_each].
  - apply respects_ret.
  - apply respects_bind; [apply Hb|]. intros b.
    apply respects_bind; [exact IH|]. intros bs. apply respects_ret.
Qed.

Lemma respects_shape_at (t : tensor) (i : nat) : respects Rel (shape_at t i).
Proof.
  unfold shape_at. destruct (nth_error (shape t) i);
    [apply respects_ret | apply respects_raise].
Qed.

Lemma respects_shape_last (t : tensor) : respects Rel (shape_last t).
Proof.
  unfold shape_last. destruct (rev (shape t));
    [apply respects_raise | apply respects_ret].
Qed.

Lemma respects_py_assert (c : bool) (msg : string) : respects Rel (py_assert c msg).
Proof. unfold py_assert. destruct c; [apply respects_ret | apply respects_raise]. Qed.

Lemma respects_conv1x1 (training : bool) (H : nat) (W b : tensor) (s : R)
      (x : tensor) :
  respects Rel (call training (Sequential [Conv1d H 512 1 W b; LeakyReLU s]) x).
Proof.
  cbn [call]. apply respects_bind; [apply respects_lift|].
  intros y. apply respects_bind; [apply respects_ret|].
  intros z. apply respects_ret.
Qed.

Lemma respects_average (feature : list tensor) :
  respects Rel (FeatureExtractor.average feature).
Proof.
  unfold FeatureExtractor.average.
  apply respects_bind; [apply respects_lift|]. intros c.
  apply respects_bind; [apply respects_lift|]. intros m.
  apply respects_lift.
Qed.

End Respects.

Lemma respects_random_interval (reset : bool) (max : nat) :
  respects (same_seed reset) (random_interval max).
Proof.
  intros w1 w2 [Hnp Ht]. unfold random_interval. destruct max as [|m].
  - split; [reflexivity | split; assumption].
  - cbn [fst snd]. rewrite Hnp. split; [reflexivity|].
    split; cbn [np_rng torch_rng]; [reflexivity | exact Ht].
Qed.

Lemma respects_shuffle_from (reset : bool) (i : nat) :
  forall x, respects (same_seed reset) (shuffle_from i x).
Proof.
  induction i as [|i IH]; intros x; cbn [shuffle_from].
  - apply respects_ret.
  - apply respects_bind; [apply respects_random_interval|]. intros j. apply IH.
Qed.

Lemma respects_randint (reset : bool) (low high : Z) :
  respects (same_seed reset) (np_random_randint low high).
Proof.
  unfold np_random_randint. destruct (high <=? low)%Z; [apply respects_raise|].
  apply respects_bind; [apply respects_random_interval|].
  intros r. apply respects_ret.
Qed.

Lemma respects_draw_windows (reset : bool) (k : nat) :
  respects (same_seed reset) (FeatureExtractor.draw_windows k).
Proof.
  unfold FeatureExtractor.draw_windows, np_random_shuffle.
  apply respects_bind; [apply respects_shuffle_from|]. intros idx.
  apply respects_bind; [apply respects_randint|]. intros off.
  apply respects_ret.
Qed.

Lemma respects_uniform_ (s : list nat) (lo hi : R) :
  respects (same_seed true) (uniform_ s lo hi).
Proof.
  intros w1 w2 [Hnp Ht]. specialize (Ht eq_refl). unfold uniform_.
  cbn [fst snd]. rewrite Ht, Hnp. split; [reflexivity|].
  split; cbn [np_rng torch_rng]; reflexivity.
Qed.

Lemma respects_xavier_uniform_ (s : list nat) :
  respects (same_seed true) (xavier_uniform_ s).
Proof.
  unfold xavier_uniform_. destruct s as [|n0 [|n1 rest]];
    try apply respects_raise.
  destruct (_ =? 0); [apply respects_raise | apply respects_uniform_].
Qed.

Lemma respects_init_hidden (self : FeatureExtractor.t)
      (hidden_dim batch layer : nat) :
  respects (same_seed true)
    (FeatureExtractor.init_hidden self hidden_dim batch layer).
Proof.
  unfold FeatureExtractor.init_hidden.
  apply respects_bind; [apply respects_xavier_uniform_|]. intros h.
  destruct (string_dec _ _); [|apply respects_ret].
  apply respects_bind; [apply respects_xavier_uniform_|]. intros c.
  apply respects_ret.
Qed.

Lemma respects_get_feature (fe : FeatureExtractor.t) (dynamic : tensor)
      (batch : Z) (reset : bool) :
  FeatureExtractor_layers fe ->
  respects (same_seed reset) (FeatureExtractor.get_feature fe dynamic batch reset).
Proof.
  intros (_ & _ & _ & _ & W & b & Hc11). unfold FeatureExtractor.get_feature.
  apply respects_bind; [apply respects_shape_at|]. intros B.
  apply respects_bind;
    [destruct (_ =? 2); [apply respects_lift | apply respects_ret]|].
  intros x.
  apply respects_bind; [apply respects_shape_at|]. intros c.
  apply respects_bind; [apply respects_py_assert|]. intros _.
  apply respects_bind; [apply respects_lift|]. intros y.
  apply respects_bind; [apply respects_lift|]. intros p.
  apply respects_bind.
  - destruct reset; cbn [andb].
    + destruct (in_dec _ _ _); [|apply respects_lift].
      apply respects_bind; [apply respects_init_hidden|].
      intros hx. apply respects_lift.
    + apply respects_lift.
  - intros out.
    apply respects_bind; [apply respects_lift|]. intros q.
    rewrite Hc11. apply respects_conv1x1.
Qed.

Lemma respects_forward (fe : FeatureExtractor.t) (dynamic : tensor)
      (feature : option (list tensor)) (batch : Z) (reset : bool) :
  FeatureExtractor_layers fe ->
  respects (same_seed reset)
    (FeatureExtractor.forward fe dynamic feature batch reset).
Proof.
  intros Hlay. unfold FeatureExtractor.forward.
  apply respects_bind; [|intros f; apply respects_average].
  destruct feature as [given|]; [apply respects_ret|].
  apply respects_bind; [apply respects_shape_last|]. intros L.
  apply respects_bind.
  { unfold FeatureExtractor.py_mod.
    destruct (_ =? 0); [apply respects_raise | apply respects_ret]. }
  intros r.
  apply respects_bind; [apply respects_py_assert|]. intros _.
  apply respects_bind.
  { unfold FeatureExtractor.py_floordiv.
    destruct (_ =? 0); [apply respects_raise | apply respects_ret]. }
  intros k.
  apply respects_bind; [apply respects_draw_windows|]. intros drawn.
  apply respects_for_each. intros i.
  unfold FeatureExtractor.window_feature.
  apply respects_bind; [apply respects_lift|]. intros win.
  apply respects_bind; [now apply respects_get_feature|]. intros fea.
  apply respects_lift.
Qed.

(** C8, amended: two calls to [forward] with the same arguments on the same
    feature extractor return the same result (the same tensor, or the same
    exception) when numpy's random state is the same and, if [reset] is
    set, torch's generator is in the same state too; without [reset] the
    state of torch's generator does not matter. *)
Theorem forward_deterministic_under_both_seeds
        (arch : arch_resnet) (fe : FeatureExtractor.t) (dynamic : tensor)
        (feature : option (list tensor)) (batch : Z) (reset : bool)
        (w1 w2 : World) :
  FeatureExtractor_constructed arch fe ->
  np_rng w1 = np_rng w2 ->
  (reset = true -> torch_rng w1 = torch_rng w2) ->
  fst (FeatureExtractor.forward fe dynamic feature batch reset w1)
  = fst (FeatureExtractor.forward fe dynamic feature batch reset w2).
Proof.
  intros Hc Hnp Ht.
  destruct (FeatureExtractor_constructed_inv arch fe Hc) as (Hlay & _).
  apply (respects_forward fe dynamic feature batch reset Hlay w1 w2).
  split; assumption.
Qed.

Lemma forward_deterministic_witness :
  fst (FeatureExtractor.forward (sample_extractor 32 3 true)
         (zeros [2; 3; 4 * 32]) None 1 false (world_with_tape (1 / 2)))
  = fst (FeatureExtractor.forward (sample_extractor 32 3 true)
           (zeros [2; 3; 4 * 32]) None 1 false (world_with_tape (3 / 4))).
Proof.
  apply (forward_deterministic_under_both_seeds constant_arch
           (sample_extractor 32 3 true) (zeros [2; 3; 4 * 32]) None 1 false
           (world_with_tape (1 / 2)) (world_with_tape (3 / 4))
           (sample_extractor_constructed 32 3 true ltac:(lia))).
  - reflexivity.
  - discriminate.
Defined.

(** ** Entries: what the operations compute *)

Lemma tanh_0 : tanh 0 = 0%R.
Proof. unfold tanh. rewrite sinh_0, cosh_0. lra. Qed.

Lemma tanh_pos (x : R) : (0 < x)%R -> (0 < tanh x)%R.
Proof.
  intros Hx. unfold tanh, sinh, cosh.
  assert (H1 : (exp (- x) < exp x)%R) by (apply exp_increasing; lra).
  pose proof (exp_pos (- x)) as H2.
  apply Rdiv_lt_0_compat; lra.
Qed.

Lemma Rleaky_relu_0 (s : R) : Rleaky_relu s 0 = 0%R.
Proof. unfold Rleaky_relu. destruct (Rle_dec 0 0); lra. Qed.

Lemma Rleaky_relu_nonneg (s x : R) : (0 <= x)%R -> Rleaky_relu s x = x.
Proof. intros H. unfold Rleaky_relu. destruct (Rle_dec 0 x); [reflexivity | lra]. Qed.

Lemma get_zeros (s : list nat) (i : nat) : get (zeros s) i = 0%R.
Proof.
  unfold get, zeros. cbn [data]. generalize (numel s) as n. intros n.
  revert i. induction n as [|n IH]; intros [|i]; cbn; auto.
Qed.

Lemma get_ones (s : list nat) (i : nat) : i < numel s -> get (ones s) i = 1%R.
Proof.
  unfold get, ones. cbn [data]. intros H. apply nth_repeat_lt. exact H.
Qed.

Lemma Rsum_all_zero (l : list R) : (forall v, In v l -> v = 0%R) -> Rsum l = 0%R.
Proof.
  induction l as [|a l IH]; intros H; [reflexivity|].
  change (Rsum (a :: l)) with (a + Rsum l)%R.
  rewrite (H a (or_introl eq_refl)), IH; [lra|]. intros v Hv. apply H. now right.
Qed.

Lemma Rsum_all_equal (l : list R) (v : R) :
  (forall x, In x l -> x = v) -> Rsum l = (INR (length l) * v)%R.
Proof.
  induction l as [|a l IH]; intros H.
  - cbn. lra.
  - change (Rsum (a :: l)) with (a + Rsum l)%R.
    change (length (a :: l)) with (S (length l)).
    rewrite (H a (or_introl eq_refl)), IH by (intros x Hx; apply H; now right).
    rewrite S_INR. lra.
Qed.

Lemma In_tab {A} (n : nat) (f : nat -> A) (x : A) :
  In x (tab n f) -> exists i, i < n /\ x = f i.
Proof.
  unfold tab. rewrite in_map_iff. intros (i & <- & Hi).
  apply in_seq in Hi. exists i. split; [lia | reflexivity].
Qed.

Lemma In_tab2 {A} (n m : nat) (f : nat -> nat -> A) (x : A) :
  In x (tab2 n m f) -> exists i j, i < n /\ j < m /\ x = f i j.
Proof.
  unfold tab2. rewrite in_flat_map. intros (i & Hi & Hx).
  apply in_seq in Hi. apply In_tab in Hx. destruct Hx as (j & Hj & ->).
  exists i, j. repeat split; [lia | exact Hj].
Qed.

Lemma nth_map_default {A} (f : A -> A) (l : list A) (d : A) (i : nat) :
  f d = d -> nth i (map f l) d = f (nth i l d).
Proof. intros H. rewrite <- H at 1. apply map_nth. Qed.

Lemma permute3_120_get (x y : tensor) (n0 n1 n2 i0 i1 i2 : nat) :
  permute3 x 1 2 0 = Ok y -> shape x = [n0; n1; n2] ->
  i0 < n1 -> i1 < n2 -> i2 < n0 ->
  get y (i0 * (n2 * n0) + (i1 * n0 + i2)) = get x ((i2 * n1 + i0) * n2 + i1).
Proof.
  intros Hy Hs H0 H1 H2. unfold permute3 in Hy. rewrite Hs in Hy.
  cbn [existsb Nat.eqb orb andb nth] in Hy. injection Hy as <-.
  unfold get at 1. cbn [data]. rewrite nth_tab3 by assumption. reflexivity.
Qed.

Lemma conv1x1_get (training : bool) (H : nat) (W b : tensor) (s : R)
      (x y : tensor) (w w' : World) (B t bi o tt : nat) :
  call training (Sequential [Conv1d H 512 1 W b; LeakyReLU s]) x w = (Ok y, w') ->
  shape x = [B; H; t] -> bi < B -> o < 512 -> tt < t ->
  get y (bi * (512 * t) + (o * t + tt))
  = Rleaky_relu s
      (get b o
       + Rsum (tab2 H 1
                 (fun ci kk =>
                    get W ((o * H + ci) * 1 + kk)
                    * get x ((bi * H + ci) * t + tt + kk))))%R.
Proof.
  intros Hy Hs Hb Ho Ht. cbn [call] in Hy. unfold lift at 1, conv1d in Hy.
  rewrite Hs, Nat.eqb_refl in Hy. cbn [negb] in Hy.
  destruct (Nat.ltb_spec t 1) as [|_]; [lia|].
  unfold bind, ret in Hy. injection Hy as <- _.
  unfold get at 1, map_tensor. cbn [data].
  rewrite nth_map_default by apply Rleaky_relu_0.
  replace (t - 1 + 1) with t by lia.
  rewrite nth_tab3 by assumption. reflexivity.
Qed.

Lemma lstm_forward_first_step (net : LSTM) (x h0 c0 out : tensor)
      (hn : tensor * tensor) (T B j : nat) :
  lstm_forward net x (Some (h0, c0)) = Ok (out, hn) ->
  shape x = [T; B; input_size net] -> 1 <= T -> j < B * hidden_size net ->
  get out j
  = nth j (fst (lstm_cell net B
                  (tab (B * input_size net)
                     (fun i => get x (0 * (B * input_size net) + i)))
                  (data h0, data c0))) 0%R.
Proof.
  intros Hf Hs HT Hj. unfold lstm_forward in Hf. rewrite Hs, Nat.eqb_refl in Hf.
  cbn [negb] in Hf.
  destruct (list_eq_dec Nat.eq_dec (shape h0) [1; B; hidden_size net]);
    [|discriminate].
  destruct (list_eq_dec Nat.eq_dec (shape c0) [1; B; hidden_size net]);
    [|discriminate].
  destruct T as [|T]; [lia|].
  unfold tab at 1 in Hf. cbn [seq map] in Hf. cbn [lstm_steps] in Hf.
  match type of Hf with
  | context [lstm_steps net B ?xs ?hc] =>
      destruct (lstm_steps net B xs hc) as [rest [hn' cn']]
  end.
  injection Hf as <- _. unfold get. cbn [data].
  rewrite app_nth1; [reflexivity|].
  destruct (data h0, data c0) as [h c] eqn:E. unfold lstm_cell. cbn [fst].
  rewrite length_tab2. exact Hj.
Qed.

Lemma lstm_gate_zero_weights (isz hsz : nat) (s1 s2 s3 s4 : list nat)
      (k : nat) (xt h : list R) (b j : nat) :
  lstm_gate (mkLSTM isz hsz (zeros s1) (zeros s2) (zeros s3) (zeros s4))
    k xt h b j = 0%R.
Proof.
  unfold lstm_gate. cbn [input_size hidden_size weight_ih_l0 weight_hh_l0
                           bias_ih_l0 bias_hh_l0].
  rewrite !get_zeros.
  rewrite (Rsum_all_zero (tab isz _)), (Rsum_all_zero (tab hsz _)); [lra| |].
  - intros v Hv. apply In_tab in Hv. destruct Hv as (i & _ & ->).
    rewrite get_zeros. lra.
  - intros v Hv. apply In_tab in Hv. destruct Hv as (i & _ & ->).
    rewrite get_zeros. lra.
Qed.

Lemma lstm_cell_zero_weights (isz hsz : nat) (s1 s2 s3 s4 : list nat)
      (B : nat) (xt h c : list R) (b j : nat) :
  b < B -> j < hsz ->
  nth (b * hsz + j)
    (fst (lstm_cell (mkLSTM isz hsz (zeros s1) (zeros s2) (zeros s3) (zeros s4))
            B xt (h, c))) 0%R
  = (Rsigmoid 0 * tanh (Rsigmoid 0 * nth (b * hsz + j) c 0 + Rsigmoid 0 * tanh 0))%R.
Proof.
  intros Hb Hj. unfold lstm_cell. cbn [fst hidden_size].
  rewrite nth_tab2 by assumption. rewrite nth_tab2 by assumption.
  rewrite !lstm_gate_zero_weights. reflexivity.
Qed.

Lemma get_feature_trace (fe : FeatureExtractor.t) (x z : tensor) (B L : nat)
      (batch : Z) (w w' : World) :
  FeatureExtractor_layers fe ->
  shape x = [B; FeatureExtractor.sequence_num fe; L] ->
  FeatureExtractor.get_feature fe x batch true w = (Ok z, w') ->
  exists y p t1 w1 t2 w2 out hn q,
    FeatureExtractor.conv fe x = Ok y
    /\ permute3 y 2 0 1 = Ok p
    /\ xavier_uniform_ [1; B; FeatureExtractor.time_hid_dim fe] w = (Ok t1, w1)
    /\ xavier_uniform_ [1; B; FeatureExtractor.time_hid_dim fe] w1 = (Ok t2, w2)
    /\ lstm_forward (FeatureExtractor.time_net fe) p
         (Some (if FeatureExtractor._cuda fe then (t1, t1) else (t1, t2)))
       = Ok (out, hn)
    /\ permute3 out 1 2 0 = Ok q
    /\ call (FeatureExtractor.training fe) (FeatureExtractor.conv1x1 fe) q w2
       = (Ok z, w').
Proof.
  intros (Htt & Hpos & Hin & Hhid & W & bb & Hc11) Hx H.
  unfold FeatureExtractor.get_feature in H.
  rewrite (bind_ok _ (shape_at_run x 0 B w ltac:(now rewrite Hx))) in H.
  unfold rank in H. rewrite Hx in H. cbn [length Nat.eqb] in H.
  rewrite (bind_ok (w' := w) (a := x) _ eq_refl) in H.
  rewrite (bind_ok _ (shape_at_run x 1 _ w ltac:(now rewrite Hx))) in H.
  rewrite Nat.eqb_refl in H. unfold py_assert in H.
  rewrite (bind_ok (w' := w) (a := tt) _ eq_refl) in H.
  inv_run H.
  apply lift_ok_inv in Hrun. destruct Hrun as [Hy ->].
  apply lift_ok_inv in Hrun0. destruct Hrun0 as [Hp ->].
  cbn [andb] in Hrun1.
  destruct (in_dec string_dec (FeatureExtractor.time_type fe) ["lstm"%string])
    as [_|N]; [|exfalso; apply N; left; now rewrite Htt].
  destruct (init_hidden_run fe (FeatureExtractor.time_hid_dim fe) B 1 w
              Htt Hpos ltac:(lia))
    as (t1 & v1 & t2 & v2 & X1 & X2 & _ & _ & _ & _ & Hini).
  rewrite (bind_ok _ Hini) in Hrun1.
  apply lift_ok_inv in Hrun1. destruct Hrun1 as [Hl ->].
  apply lift_ok_inv in Hrun2. destruct Hrun2 as [Hq ->].
  destruct a1 as [out hn]. cbn [fst] in *.
  exists a, a0, t1, v1, t2, v2, out, hn, a2.
  repeat (split; [assumption|]).
  split; [|split; assumption].
  rewrite <- Hl. f_equal. destruct (FeatureExtractor._cuda fe); reflexivity.
Qed.

Lemma average_single_get (fea out : tensor) (C t : nat) (w w' : World) :
  shape fea = [1; 1; C; t] -> 0 < C * t ->
  FeatureExtractor.average [fea] w = (Ok out, w') ->
  get out 0 = ((get fea 0 + 0) / INR 1)%R.
Proof.
  intros Hs Hpos H. unfold FeatureExtractor.average, bind, lift in H.
  unfold cat1 in H. rewrite Hs in H. cbn [forallb fold_right flat_map seq] in H.
  unfold cat_compatible in H. rewrite !Hs in H. rewrite Nat.eqb_refl in H.
  destruct (list_eq_dec Nat.eq_dec [C; t] [C; t]) as [_|N]; [|congruence].
  cbn [andb nth] in H.
  unfold mean1 in H. cbn [shape] in H.
  unfold flatten1 in H. cbn [shape data] in H.
  injection H as <- _. unfold get at 1. cbn [data].
  assert (Hn : 0 < numel [C; t]) by (rewrite !numel_cons, numel_nil; lia).
  replace 0 with (0 * numel [C; t] + 0) at 1 by lia.
  rewrite nth_tab2 by lia.
  unfold tab at 1. cbn [seq map Rsum fold_right].
  do 2 f_equal.
  replace ((0 * (1 + 0) + 0) * numel [C; t] + 0) with 0 by lia.
  unfold get at 1. cbn [data].
  rewrite !app_nil_r.
  match goal with
  | |- nth ?i (map ?f (seq 0 ?n)) _ = _ =>
      replace i with 0 by lia; change (map f (seq 0 n)) with (tab n f)
  end.
  rewrite nth_tab by lia. reflexivity.
Qed.

(** ** The sample extractor on a one-sample series *)

Lemma sample_forward_first_entry (u : R) :
  exists out w',
    FeatureExtractor.forward (sample_extractor 1 1 true) (zeros [1; 1; 1])
      None 1 true (world_with_tape u) = (Ok out, w')
    /\ get out 0
       = ((Rleaky_relu 0.01
             (0 + INR (512 * 1) * (1 * zero_weight_unit (xavier_sample u)))
           + 0) / INR 1)%R.
Proof.
  set (fe := sample_extractor 1 1 true).
  set (x := zeros [1; 1; 1]).
  set (w := world_with_tape u).
  assert (Hlay : FeatureExtractor_layers fe) by apply sample_extractor_layers.
  rewrite (forward_prologue fe x [1; 1] 1 1 true w ltac:(cbn; lia) eq_refl).
  assert (Hdraw : FeatureExtractor.draw_windows 1 w = (Ok (1%Z, [0]), w))
    by reflexivity.
  destruct (slice_last_window x 1 1 1 0 1 eq_refl ltac:(lia))
    as (win & Hwin & Hsw & Hww).
  assert (Hconv : FeatureExtractor.conv fe win = Ok (zeros [1; 512; 1])).
  { apply constant_backbone_run with (C := 1). exact Hsw. }
  destruct (get_feature_run fe win (zeros [1; 512; 1]) 1 1 1 1 true w
              Hlay Hsw Hconv eq_refl ltac:(lia))
    as (z & w' & Hz & Hsz & _).
  destruct (unsqueeze1_rank3 z 1 512 1 Hsz) as (fea & Hfea & Hsf & Hdf).
  destruct (average_run [fea] 1 512 1 w' ltac:(discriminate)
              ltac:(constructor; [exact Hsf | constructor]))
    as (out & Hout & _).
  exists out, w'. split.
  { unfold bind at 1. unfold bind at 1. rewrite Hdraw. cbn [snd for_each].
    unfold FeatureExtractor.window_feature.
    change (0 * FeatureExtractor.time_len fe) with (0 * 1).
    change ((0 + 1) * FeatureExtractor.time_len fe) with ((0 + 1) * 1).
    unfold bind, lift, ret. rewrite Hwin, Hz, Hfea. exact Hout. }
  rewrite (average_single_get fea out 512 1 w' w' Hsf ltac:(lia) Hout).
  do 2 f_equal.
  assert (Egf : get fea 0 = get z 0) by (unfold get; now rewrite Hdf).
  rewrite Egf. clear Egf Hout out Hfea Hsf Hdf fea.
  destruct (get_feature_trace fe win z 1 1 1 w w' Hlay Hsw Hz)
    as (y & p & t1 & w1 & t2 & w2 & out & hn & q & Hy & Hp & X1 & X2 & Hl & Hq & Hc).
  rewrite Hconv in Hy. injection Hy as <-.
  destruct (permute3_201 (zeros [1; 512; 1]) 1 512 1 eq_refl)
    as (p' & Hp' & Hsp & _).
  rewrite Hp in Hp'. injection Hp' as <-.
  destruct (xavier_uniform__values _ _ _ _ _ _ X1) as (Et1 & _ & _).
  cbn [FeatureExtractor.time_hid_dim FeatureExtractor._cuda
       FeatureExtractor.time_net FeatureExtractor.conv1x1
       FeatureExtractor.training fe sample_extractor] in *.
  assert (Hout : forall j, j < 512 -> get out j = zero_weight_unit (xavier_sample u)).
  { intros j Hj.
    rewrite (lstm_forward_first_step _ p t1 t1 out hn 1 1 j Hl Hsp
               ltac:(lia) ltac:(cbn [hidden_size]; lia)).
    cbn [input_size].
    replace j with (0 * 512 + j) at 1 by lia.
    rewrite lstm_cell_zero_weights by lia.
    unfold zero_weight_unit, xavier_sample. do 3 f_equal.
    rewrite Et1. cbn [data torch_rng g_tape w world_with_tape].
    rewrite nth_tab; [reflexivity|]. rewrite !numel_cons, numel_nil. lia. }
  destruct (lstm_forward_inv _ _ _ _ Hl) as (T & B' & Hsp' & Hso).
  rewrite Hsp in Hsp'. injection Hsp' as <- <-. cbn [fst hidden_size] in Hso.
  destruct (permute3_120 out 1 1 512 Hso) as (q' & Hq' & Hsq & _).
  rewrite Hq in Hq'. injection Hq' as <-.
  replace 0 with (0 * (512 * 1) + (0 * 1 + 0)) at 1 by lia.
  rewrite (conv1x1_get _ _ _ _ _ _ _ _ _ 1 1 0 0 0 Hc Hsq) by lia.
  rewrite get_zeros. f_equal. f_equal.
  rewrite (Rsum_all_equal _ (1 * zero_weight_unit (xavier_sample u))).
  { rewrite length_tab2. reflexivity. }
  intros v Hv. apply In_tab2 in Hv. destruct Hv as (ci & kk & Hci & Hkk & ->).
  assert (kk = 0) by lia. subst kk.
  rewrite get_ones by (rewrite !numel_cons, numel_nil; lia).
  f_equal.
  replace ((0 * 512 + ci) * 1 + 0 + 0) with (0 * (512 * 1) + (ci * 1 + 0)) by lia.
  rewrite (permute3_120_get out q 1 1 512 0 ci 0 Hq Hso) by lia.
  apply Hout. lia.
Qed.

(** C8 as stated fails with [reset] set: with numpy's random state the same,
    two states of torch's generator give two different embeddings, because
    [init_hidden] draws the recurrent state from torch's generator. *)
Lemma forward_depends_on_torch_generator :
  FeatureExtractor_constructed constant_arch (sample_extractor 1 1 true)
  /\ np_rng (world_with_tape (1 / 2)) = np_rng (world_with_tape (3 / 4))
  /\ fst (FeatureExtractor.forward (sample_extractor 1 1 true) (zeros [1; 1; 1])
            None 1 true (world_with_tape (1 / 2)))
     <> fst (FeatureExtractor.forward (sample_extractor 1 1 true)
               (zeros [1; 1; 1]) None 1 true (world_with_tape (3 / 4))).
Proof.
  split; [apply sample_extractor_constructed; lia|].
  split; [reflexivity|].
  destruct (sample_forward_first_entry (1 / 2)) as (outA & wA & HA & EA).
  destruct (sample_forward_first_entry (3 / 4)) as (outB & wB & HB & EB).
  rewrite HA, HB. cbn [fst]. intros Heq. injection Heq as Heq.
  rewrite Heq in EA. rewrite EB in EA. clear Heq HA HB EB.
  pose proof (xavier_bound_pos 1 1 512 ltac:(lia) ltac:(lia)) as Ha.
  pose proof (Rsigmoid_bounds 0) as [Hs _].
  assert (HzA : zero_weight_unit (xavier_sample (1 / 2)) = 0%R).
  { unfold zero_weight_unit, xavier_sample.
    replace (- xavier_bound 1 1 512
             + (xavier_bound 1 1 512 - - xavier_bound 1 1 512) * (1 / 2))%R
      with 0%R by lra.
    rewrite tanh_0.
    replace (Rsigmoid 0 * 0 + Rsigmoid 0 * 0)%R with 0%R by lra.
    rewrite tanh_0. lra. }
  assert (HzB : (0 < zero_weight_unit (xavier_sample (3 / 4)))%R).
  { unfold zero_weight_unit, xavier_sample. rewrite tanh_0.
    apply Rmult_lt_0_compat; [exact Hs|]. apply tanh_pos. nra. }
  assert (Hn : (0 < INR (512 * 1))%R) by (apply lt_0_INR; lia).
  rewrite HzA in EA.
  replace (0 + INR (512 * 1) * (1 * 0))%R with 0%R in EA by lra.
  rewrite Rleaky_relu_0 in EA.
  rewrite Rleaky_relu_nonneg in EA by nra.
  change (INR 1) with 1%R in EA. nra.
Qed.

(* ================================================================== *)
(** * Further properties of the code *)
(** ** The layers of the two heads *)

Lemma similar_trans (m1 : nn_Module) :
  forall m2 m3, similar m1 m2 -> similar m2 m3 -> similar m1 m3.
Proof.
  induction m1 as [i o W b|p| |s|dim|i o k W b|ms IHms] using nn_Module_induction;
    intros m2 m3 H12 H23; destruct m2; simpl in H12; try contradiction;
    destruct m3; simpl in H23; try contradiction.
  - simpl. destruct H12, H23. split; congruence.
  - simpl. congruence.
  - exact H23.
  - simpl. congruence.
  - simpl. congruence.
  - simpl. destruct H12 as (? & ? & ?), H23 as (? & ? & ?).
    repeat split; congruence.
  - change (similar (Sequential ms) (Sequential layers)) in H12.
    change (similar (Sequential layers) (Sequential layers0)) in H23.
    apply similar_Sequential in H12. apply similar_Sequential in H23.
    apply similar_Sequential.
    revert layers0 H23.
    induction H12 as [|a a' l l' Ha Hl IHl]; intros l3 H23;
      inversion H23; subst; [constructor|].
    inversion IHms as [|? ? Hhd Htl]; subst.
    constructor; [eapply Hhd; eassumption | apply IHl; assumption].
Qed.

Lemma Forall2_similar_trans (l1 l2 l3 : list nn_Module) :
  Forall2 similar l1 l2 -> Forall2 similar l2 l3 -> Forall2 similar l1 l3.
Proof.
  intros H12 H23. apply similar_Sequential.
  apply similar_trans with (m2 := Sequential l2); apply similar_Sequential;
    assumption.
Qed.

Lemma Forall2_map_left {A B C} (R : B -> C -> Prop) (g : A -> B) (l : list A)
      (l' : list C) :
  Forall2 (fun a c => R (g a) c) l l' -> Forall2 R (map g l) l'.
Proof. induction 1; simpl; constructor; auto. Qed.

Lemma Regressioner_init_layout in_dim output_dim fc_layers cuda dropout w :
  (1 <= fc_layers <= 5)%Z ->
  exists r w',
    Regressioner.__init__ in_dim output_dim fc_layers cuda dropout w = (Ok r, w')
    /\ Forall2 similar
         (Regressioner_layout in_dim output_dim (Z.to_nat fc_layers) dropout)
         (Regressioner.fc r).
Proof.
  intros H. unfold Regressioner.__init__.
  apply fc_layers_check in H. rewrite H.
  set (f := fun i => nth i (fc_dim_list in_dim) 0).
  match goal with |- context [for_each ?l ?body] =>
    destruct (@for_each_total _ _ body
                (fun i m =>
                   similar
                     (Sequential
                        [Linear (f i) (f (i + 1)) (zeros []) (zeros []);
                         if dropout then Dropout 0.1 else Identity;
                         LeakyReLU 0.01]) m) l)
      with (w := w) as (ms & w1 & Hms & HP)
  end.
  { intros i w0 _.
    destruct (nn_Linear_run (f i) (f (i + 1)) w0) as (W & b & w0' & Hl & _).
    eexists _, w0'. unfold f in Hl. rewrite (bind_ok _ Hl).
    split; [reflexivity|]. simpl. destruct dropout; simpl; auto. }
  destruct (nn_Linear_run (f (Z.to_nat fc_layers)) output_dim w1)
    as (W & b & w2 & Hl & _).
  eexists _, w2.
  unfold py_assert. rewrite (bind_ok (w' := w) (a := tt) _ eq_refl).
  unfold f in Hl. rewrite (bind_ok _ Hms), (bind_ok _ Hl).
  split; [reflexivity|]. cbn [Regressioner.fc].
  unfold Regressioner_layout. apply Forall2_app.
  - apply Forall2_map_left. exact HP.
  - constructor; [|constructor]. simpl. auto.
Qed.

Lemma Regressioner_constructed_layout (r : Regressioner.t) :
  Regressioner_constructed r ->
  (1 <= Regressioner.fc_layers r <= 5)%Z
  /\ Forall2 similar
       (Regressioner_layout (Regressioner.in_dim r) (Regressioner.output_dim r)
          (Z.to_nat (Regressioner.fc_layers r)) (Regressioner.dropout r))
       (Regressioner.fc r).
Proof.
  intros Hc.
  destruct (Regressioner_constructed_widths r Hc) as (Hfl0 & _).
  split; [exact Hfl0|]. clear Hfl0.
  destruct Hc as (in_dim & output_dim & fl & cuda & dr & w0 & r0 & w1 & Hinit & Hre).
  destruct Hre as (Hi & Ho & Hf & Hd & Hs).
  assert (Hfl : (1 <= fl <= 5)%Z).
  { destruct (Z_le_gt_dec 1 fl) as [L|G]; [destruct (Z_le_gt_dec fl 5)|];
      try lia.
    - rewrite Regressioner_init_rejects in Hinit by lia. discriminate.
    - rewrite Regressioner_init_rejects in Hinit by lia. discriminate. }
  destruct (Regressioner_init_layout in_dim output_dim fl cuda dr w0 Hfl)
    as (r1 & w1' & Hrun & HL).
  destruct (Regressioner_init_run in_dim output_dim fl cuda dr w0 Hfl)
    as (r2 & w2' & Hrun2 & F1 & F2 & F3 & F4 & _).
  rewrite Hrun in Hrun2. injection Hrun2 as <- <-.
  rewrite Hrun in Hinit. injection Hinit as -> _.
  rewrite Hi, Ho, Hf, Hd, F1, F2, F3, F4.
  apply Forall2_similar_trans with (l2 := Regressioner.fc r0); [exact HL|].
  apply similar_Sequential. exact Hs.
Qed.

Lemma stage_widths_similar (ms ms' : list nn_Module) :
  Forall2 similar ms ms' ->
  forall d, stage_widths ms' d = stage_widths ms d.
Proof.
  induction 1 as [|m m' l l' Hm _ IH]; intros d; [reflexivity|].
  simpl. rewrite (similar_width m m' d Hm).
  destruct (width_after m d); [|reflexivity]. now rewrite IH.
Qed.

Lemma Regressioner_layout_widths (in_dim output_dim n : nat) (dropout : bool) :
  1 <= n <= 5 ->
  stage_widths (Regressioner_layout in_dim output_dim n dropout) in_dim
  = Some (firstn n [512; 256; 256; 128; 128] ++ [output_dim]).
Proof.
  intros Hn.
  assert (E : n = 1 \/ n = 2 \/ n = 3 \/ n = 4 \/ n = 5) by lia.
  destruct E as [->|[->|[->|[->| ->]]]]; destruct dropout;
    cbn; rewrite ?Nat.eqb_refl; reflexivity.
Qed.

Lemma stage_widths_length (ms : list nn_Module) :
  forall d ds, stage_widths ms d = Some ds -> length ds = length ms.
Proof.
  induction ms as [|m ms IH]; intros d ds H; simpl in H.
  - now injection H as <-.
  - destruct (width_after m d) as [d1|]; [|discriminate].
    destruct (stage_widths ms d1) as [ds1|] eqn:E; [|discriminate].
    injection H as <-. simpl. f_equal. eapply IH; eassumption.
Qed.

(** ** Regressioner.forward: the activations *)

Lemma stages_shapes (self : Regressioner.t) (ms : list nn_Module) :
  forall pre post x B d ds acc w,
    Regressioner.fc self = pre ++ ms ++ post ->
    shape x = [B; d] -> stage_widths ms d = Some ds ->
    exists y feats w',
      Regressioner.stages self (seq (length pre) (length ms)) x acc w
      = (Ok (y, acc ++ feats), w')
      /\ Forall2 (fun f c => shape f = [B; c]) feats ds.
Proof.
  induction ms as [|m ms IH]; intros pre post x B d ds acc w Hfc Hx Hw.
  - injection Hw as <-. exists x, [], w. rewrite app_nil_r.
    split; [reflexivity | constructor].
  - simpl in Hw. destruct (width_after m d) as [d1|] eqn:E; [|discriminate].
    destruct (stage_widths ms d1) as [ds1|] eqn:E1; [|discriminate].
    injection Hw as <-.
    destruct (call_width (Regressioner.training self) m x B d d1 w Hx E)
      as (y & w1 & Hy & Hsy).
    destruct (IH (pre ++ [m]) post y B d1 ds1 (acc ++ [y]) w1)
      as (z & fs & w2 & Hz & Hfs).
    { rewrite Hfc, <- app_assoc. reflexivity. }
    { exact Hsy. }
    { exact E1. }
    exists z, (y :: fs), w2. split; [|constructor; assumption].
    rewrite length_app, Nat.add_1_r in Hz. simpl.
    assert (Hget : module_list_get (Regressioner.fc self) (length pre) w
                   = (Ok m, w)).
    { unfold module_list_get. rewrite Hfc, nth_error_app2 by lia.
      now rewrite Nat.sub_diag. }
    rewrite (bind_ok _ Hget), (bind_ok _ Hy).
    rewrite <- app_assoc in Hz. exact Hz.
Qed.

Lemma stages_app (self : Regressioner.t) (l1 l2 : list nat) :
  forall x acc w,
    Regressioner.stages self (l1 ++ l2) x acc w
    = bind (Regressioner.stages self l1 x acc)
        (fun r => Regressioner.stages self l2 (fst r) (snd r)) w.
Proof.
  induction l1 as [|i l1 IH]; intros x acc w.
  - reflexivity.
  - simpl. unfold bind.
    destruct (module_list_get (Regressioner.fc self) i w) as [[m|e] w1];
      [|reflexivity].
    destruct (call (Regressioner.training self) m x w1) as [[y|e] w2];
      [|reflexivity].
    rewrite IH. reflexivity.
Qed.

Lemma Regressioner_forward_runs (r : Regressioner.t) (x : tensor) (B : nat)
      (w : World) :
  Regressioner_constructed r ->
  shape x = [B; Regressioner.in_dim r] ->
  exists out fc_feature w',
    Regressioner.forward r x None w = (Ok (out, fc_feature), w').
Proof.
  intros Hc Hx.
  destruct (Regressioner_constructed_widths r Hc) as (_ & _ & Hwd).
  destruct (stages_total r (Regressioner.fc r) [] [] x B _ _ [] w
              ltac:(now rewrite app_nil_r) Hx Hwd)
    as (y & fs & w' & Hrun & _).
  cbn [length] in Hrun.
  exists (sigmoid y), fs, w'. unfold Regressioner.forward.
  rewrite Nat2Z.id, (bind_ok _ Hrun). reflexivity.
Qed.

(** X1: on a constructed regression head and an input of shape
    [[batch, in_dim]], a full [forward] returns an output of shape
    [[batch, output_dim]] together with [fc_layers + 1] activations; the
    hidden ones have the widths 512, 256, 256, 128, 128 (as many as there
    are hidden stages) and the last one has width [output_dim]. *)
Theorem Regressioner_forward_activation_shapes (r : Regressioner.t)
        (x : tensor) (B : nat) (w : World) :
  Regressioner_constructed r ->
  shape x = [B; Regressioner.in_dim r] ->
  exists out fc_feature w',
    Regressioner.forward r x None w = (Ok (out, fc_feature), w')
    /\ shape out = [B; Regressioner.output_dim r]
    /\ length fc_feature = Z.to_nat (Regressioner.fc_layers r) + 1
    /\ Forall2 (fun f c => shape f = [B; c]) fc_feature
         (firstn (Z.to_nat (Regressioner.fc_layers r)) [512; 256; 256; 128; 128]
          ++ [Regressioner.output_dim r]).
Proof.
  intros Hc Hx.
  destruct (Regressioner_constructed_layout r Hc) as (Hfl & HL).
  destruct (Regressioner_constructed_widths r Hc) as (_ & Hlen & Hwd).
  pose proof (Regressioner_layout_widths (Regressioner.in_dim r)
                (Regressioner.output_dim r)
                (Z.to_nat (Regressioner.fc_layers r)) (Regressioner.dropout r)
                ltac:(lia)) as HW.
  rewrite <- (stage_widths_similar _ _ HL) in HW.
  destruct (stages_shapes r (Regressioner.fc r) [] [] x B _ _ [] w
              ltac:(now rewrite app_nil_r) Hx HW)
    as (y & feats & w' & Hrun & Hshapes).
  destruct (stages_total r (Regressioner.fc r) [] [] x B _ _ [] w
              ltac:(now rewrite app_nil_r) Hx Hwd)
    as (y2 & fs2 & w2 & Hrun2 & Hsy).
  rewrite Hrun in Hrun2. injection Hrun2 as <- _ _.
  cbn [length app] in Hrun.
  exists (sigmoid y), feats, w'. split.
  { unfold Regressioner.forward. rewrite Nat2Z.id. rewrite (bind_ok _ Hrun).
    reflexivity. }
  split; [exact Hsy|]. split; [|exact Hshapes].
  rewrite (Forall2_length Hshapes), length_app, length_firstn.
  cbn [length]. lia.
Qed.

Lemma Regressioner_forward_activation_shapes_witness :
  exists r out fc_feature w',
    Regressioner_constructed r
    /\ Regressioner.forward r (zeros [3; 4]) None world0
       = (Ok (out, fc_feature), w')
    /\ shape out = [3; 1] /\ length fc_feature = 3.
Proof.
  destruct (Regressioner_init_run 4 1 2 true true world0 ltac:(lia))
    as (r & w1 & Hinit & Hin & Hout & Hfl & _).
  pose proof (Regressioner_constructed_by_init _ _ _ _ _ _ _ _ Hinit) as Hc.
  destruct (Regressioner_forward_activation_shapes r (zeros [3; 4]) 3 world0 Hc
              ltac:(now rewrite Hin))
    as (out & feats & w' & Hrun & Hs & Hlen & _).
  exists r, out, feats, w'. split; [exact Hc|]. split; [exact Hrun|].
  rewrite Hout in Hs. rewrite Hfl in Hlen. split; [exact Hs | exact Hlen].
Defined.

(** X2: asking a constructed regression head for more stages than it has
    raises [IndexError] at the first index past the module list, after all
    its stages have run. *)
Theorem Regressioner_forward_rejects_end_past_stages (r : Regressioner.t)
        (x : tensor) (B : nat) (e : Z) (w : World) :
  Regressioner_constructed r ->
  shape x = [B; Regressioner.in_dim r] ->
  (Z.of_nat (length (Regressioner.fc r)) < e)%Z ->
  exists w',
    Regressioner.forward r x (Some e) w
    = (Err (IndexError
              ("index " ++ str_of_nat (length (Regressioner.fc r))
               ++ " is out of range")), w').
Proof.
  intros Hc Hx He.
  destruct (Regressioner_constructed_widths r Hc) as (_ & _ & Hwd).
  destruct (stages_total r (Regressioner.fc r) [] [] x B _ _ [] w
              ltac:(now rewrite app_nil_r) Hx Hwd)
    as (y & fs & w' & Hrun & _).
  cbn [length] in Hrun.
  set (n := length (Regressioner.fc r)) in *.
  exists w'. unfold Regressioner.forward.
  replace (Z.to_nat e) with (n + S (Z.to_nat e - n - 1)) by lia.
  rewrite seq_app. cbn [Nat.add seq].
  unfold bind at 1. rewrite stages_app. rewrite (bind_ok _ Hrun).
  cbn [fst snd Regressioner.stages].
  assert (Hget : module_list_get (Regressioner.fc r) n w'
                 = (Err (IndexError ("index " ++ str_of_nat n
                                     ++ " is out of range")), w')).
  { unfold module_list_get.
    assert (E : nth_error (Regressioner.fc r) n = None)
      by (apply nth_error_None; apply Nat.le_refl).
    now rewrite E. }
  rewrite (bind_err _ Hget). reflexivity.
Qed.

Lemma Regressioner_forward_rejects_end_witness :
  exists r e w',
    Regressioner_constructed r
    /\ Regressioner.forward r (zeros [3; 4]) (Some 4%Z) world0
       = (Err (IndexError e), w').
Proof.
  destruct (Regressioner_init_run 4 1 2 true true world0 ltac:(lia))
    as (r & w1 & Hinit & Hin & _ & _ & _ & Hlen & _).
  pose proof (Regressioner_constructed_by_init _ _ _ _ _ _ _ _ Hinit) as Hc.
  destruct (Regressioner_forward_rejects_end_past_stages r (zeros [3; 4]) 3 4
              world0 Hc ltac:(now rewrite Hin) ltac:(rewrite Hlen; lia))
    as (w' & Hrun).
  eexists r, _, w'. split; [exact Hc | exact Hrun].
Defined.

(** X3: the run of a prefix is a prefix of the run.  When a full [forward]
    returns the activations [fc_feature] from a given state of the random
    sources, then from that state [forward] with [_end = e] (at most the
    number of stages; anything below 1 runs no stage) returns the first [e]
    of them and the sigmoid of the last of those, or of the input when
    there is none. *)
Theorem Regressioner_forward_prefix (r : Regressioner.t) (x : tensor) (e : Z)
        (w : World) (out : tensor) (fc_feature : list tensor) (w' : World) :
  Regressioner.forward r x None w = (Ok (out, fc_feature), w') ->
  (e <= Z.of_nat (length (Regressioner.fc r)))%Z ->
  exists w1,
    Regressioner.forward r x (Some e) w
    = (Ok (sigmoid (last (firstn (Z.to_nat e) fc_feature) x),
           firstn (Z.to_nat e) fc_feature), w1).
Proof.
  intros H He. unfold Regressioner.forward in *.
  rewrite Nat2Z.id in H.
  set (n := length (Regressioner.fc r)) in *.
  set (k := Z.to_nat e).
  assert (Hk : k <= n) by (unfold k; lia).
  replace n with (k + (n - k)) in H by lia.
  rewrite seq_app in H. inv_run H.
  rewrite stages_app in Hrun. inv_run Hrun.
  apply ret_ok_inv in H. destruct H as [E _]. injection E as _ <-.
  destruct a0 as [y1 f1]. destruct a as [y feats]. cbn [fst snd] in *.
  exists w1. rewrite (bind_ok _ Hrun0). cbn [fst snd].
  apply stages_spec in Hrun0. destruct Hrun0 as (new1 & E1 & Ey1 & L1).
  rewrite length_seq in L1. cbn [app] in E1. subst f1.
  apply stages_spec in Hrun. destruct Hrun as (new2 & E2 & _ & _).
  subst feats.
  assert (F : firstn k new1 = new1) by (rewrite <- L1; apply firstn_all).
  rewrite firstn_app, L1, Nat.sub_diag, firstn_O, app_nil_r, F.
  rewrite Ey1. reflexivity.
Qed.

Lemma Regressioner_forward_prefix_witness :
  exists r out fc_feature w' w1,
    Regressioner.forward r (zeros [3; 4]) None world0
    = (Ok (out, fc_feature), w')
    /\ Regressioner.forward r (zeros [3; 4]) (Some 2%Z) world0
       = (Ok (sigmoid (last (firstn 2 fc_feature) (zeros [3; 4])),
              firstn 2 fc_feature), w1).
Proof.
  destruct (Regressioner_init_run 4 1 2 true true world0 ltac:(lia))
    as (r & w0 & Hinit & Hin & _ & _ & _ & Hlen & _).
  pose proof (Regressioner_constructed_by_init _ _ _ _ _ _ _ _ Hinit) as Hc.
  destruct (Regressioner_forward_runs r (zeros [3; 4]) 3 world0 Hc
              ltac:(now rewrite Hin))
    as (out & feats & w' & Hrun).
  destruct (Regressioner_forward_prefix r (zeros [3; 4]) 2 world0 out feats w'
              Hrun ltac:(rewrite Hlen; lia))
    as (w1 & Hpre).
  exists r, out, feats, w', w1. split; [exact Hrun | exact Hpre].
Defined.

(** ** What the computations leave alone *)

Section Keeps.
Variable Q : World -> World -> Prop.
Hypothesis Q_refl : forall w, Q w w.
Hypothesis Q_trans : forall w1 w2 w3, Q w1 w2 -> Q w2 w3 -> Q w1 w3.

Lemma keeps_ret {A} (a : A) : keeps Q (ret a).
Proof. intros w. apply Q_refl. Qed.

Lemma keeps_raise {A} (e : exn) : keeps Q (@raise A e).
Proof. intros w. apply Q_refl. Qed.

Lemma keeps_lift {A} (r : result A) : keeps Q (lift r).
Proof. intros w. apply Q_refl. Qed.

Lemma keeps_bind {A B} (m : M A) (k : A -> M B) :
  keeps Q m -> (forall a, keeps Q (k a)) -> keeps Q (bind m k).
Proof.
  intros Hm Hk w. unfold bind. specialize (Hm w).
  destruct (m w) as [[a|e] w1]; cbn [snd] in *.
  - eapply Q_trans; [exact Hm | apply Hk].
  - exact Hm.
Qed.

Lemma keeps_for_each {A B} (body : A -> M B) (l : list A) :
  (forall a, keeps Q (body a)) -> keeps Q (for_each l body).
Proof.
  intros Hb. induction l as [|a l IH]; cbn [for_each].
  - apply keeps_ret.
  - apply keeps_bind; [apply Hb|]. intros b.
    apply keeps_bind; [exact IH|]. intros bs. apply keeps_ret.
Qed.

Lemma keeps_shape_at (t : tensor) (i : nat) : keeps Q (shape_at t i).
Proof.
  unfold shape_at. destruct (nth_error (shape t) i);
    [apply keeps_ret | apply keeps_raise].
Qed.

Lemma keeps_shape_last (t : tensor) : keeps Q (shape_last t).
Proof.
  unfold shape_last. destruct (rev (shape t));
    [apply keeps_raise | apply keeps_ret].
Qed.

Lemma keeps_py_assert (c : bool) (msg : string) : keeps Q (py_assert c msg).
Proof. unfold py_assert. destruct c; [apply keeps_ret | apply keeps_raise]. Qed.

Lemma keeps_average (feature : list tensor) :
  keeps Q (FeatureExtractor.average feature).
Proof.
  unfold FeatureExtractor.average.
  apply keeps_bind; [apply keeps_lift|]. intros c.
  apply keeps_bind; [apply keeps_lift|]. intros m.
  apply keeps_lift.
Qed.

End Keeps.

Lemma keeps_weaken {A} (Q Q' : World -> World -> Prop) (m : M A) :
  (forall w w', Q w w' -> Q' w w') -> keeps Q m -> keeps Q' m.
Proof. intros H Hm w. apply H, Hm. Qed.

Lemma untouched_refl (w : World) : untouched w w.
Proof. reflexivity. Qed.

Lemma untouched_trans (w1 w2 w3 : World) :
  untouched w1 w2 -> untouched w2 w3 -> untouched w1 w3.
Proof. unfold untouched. congruence. Qed.

Lemma torch_only_refl (w : World) : torch_only w w.
Proof. split; reflexivity. Qed.

Lemma torch_only_trans (w1 w2 w3 : World) :
  torch_only w1 w2 -> torch_only w2 w3 -> torch_only w1 w3.
Proof. unfold torch_only. intros [] []. split; congruence. Qed.

Lemma numpy_only_refl (w : World) : numpy_only w w.
Proof. split; reflexivity. Qed.

Lemma numpy_only_trans (w1 w2 w3 : World) :
  numpy_only w1 w2 -> numpy_only w2 w3 -> numpy_only w1 w3.
Proof. unfold numpy_only. intros [] []. split; congruence. Qed.

Lemma silent_refl (w : World) : silent w w.
Proof. reflexivity. Qed.

Lemma silent_trans (w1 w2 w3 : World) :
  silent w1 w2 -> silent w2 w3 -> silent w1 w3.
Proof. unfold silent. congruence. Qed.

(** ** Dropout is the only layer that draws *)

Lemma has_dropout_Sequential (ms : list nn_Module) :
  has_dropout (Sequential ms) = existsb has_dropout ms.
Proof.
  induction ms as [|m ms IH]; [reflexivity|].
  simpl. simpl in IH. now rewrite IH.
Qed.

Lemma has_dropout_Sequential_false (ms : list nn_Module) :
  has_dropout (Sequential ms) = false
  <-> Forall (fun m => has_dropout m = false) ms.
Proof.
  rewrite has_dropout_Sequential. induction ms as [|m ms IH]; simpl.
  - split; [constructor | reflexivity].
  - rewrite orb_false_iff, IH. split.
    + intros [H1 H2]. now constructor.
    + intros H. inversion H; subst. now split.
Qed.

Lemma similar_has_dropout (m : nn_Module) :
  forall m', similar m m' -> has_dropout m' = has_dropout m.
Proof.
  induction m as [i o W b|p| |s|dim|i o k W b|ms IHms] using nn_Module_induction;
    intros m' Hs; destruct m'; simpl in Hs; try contradiction;
    try reflexivity.
  change (similar (Sequential ms) (Sequential layers)) in Hs.
  apply similar_Sequential in Hs.
  rewrite !has_dropout_Sequential.
  induction Hs as [|a a' l l' Ha Hl IHl]; [reflexivity|].
  inversion IHms as [|? ? Hhd Htl]; subst.
  simpl. rewrite (Hhd _ Ha), (IHl Htl). reflexivity.
Qed.

Lemma call_untouched (training : bool) (m : nn_Module) :
  has_dropout m = false \/ training = false ->
  forall x, keeps untouched (call training m x).
Proof.
  induction m as [i o W b|p| |s|dim|i o k W b|ms IHms] using nn_Module_induction;
    intros Hp x.
  - apply keeps_lift. exact untouched_refl.
  - destruct Hp as [Hp | ->]; [discriminate|].
    apply keeps_ret. exact untouched_refl.
  - apply keeps_ret. exact untouched_refl.
  - apply keeps_ret. exact untouched_refl.
  - apply keeps_lift. exact untouched_refl.
  - apply keeps_lift. exact untouched_refl.
  - assert (Hall : Forall (fun m => forall x, keeps untouched (call training m x))
                     ms).
    { rewrite Forall_forall in *. intros m Hm. apply IHms; [exact Hm|].
      destruct Hp as [Hd | Ht]; [left | now right].
      apply has_dropout_Sequential_false in Hd.
      rewrite Forall_forall in Hd. now apply Hd. }
    clear IHms Hp. intros w. rewrite call_Sequential. revert x w.
    induction Hall as [|m ms Hm _ IH]; intros x w; [reflexivity|].
    cbn [call_all]. apply keeps_bind; [exact untouched_trans | apply Hm |].
    intros y w'. apply IH.
Qed.

Lemma stages_untouched (self : Regressioner.t) (idx : list nat) :
  (forall m, In m (Regressioner.fc self) ->
             forall x, keeps untouched (call (Regressioner.training self) m x)) ->
  forall x acc, keeps untouched (Regressioner.stages self idx x acc).
Proof.
  intros Hm. induction idx as [|i idx IH]; intros x acc w.
  - reflexivity.
  - cbn [Regressioner.stages]. unfold bind at 1, module_list_get.
    destruct (nth_error (Regressioner.fc self) i) as [m|] eqn:E;
      [|reflexivity].
    unfold ret. apply keeps_bind; [exact untouched_trans | |].
    + apply Hm. eapply nth_error_In. exact E.
    + intros y. apply IH.
Qed.

Lemma Regressioner_layout_no_dropout (in_dim output_dim n : nat) :
  Forall (fun m => has_dropout m = false)
    (Regressioner_layout in_dim output_dim n false).
Proof.
  unfold Regressioner_layout. apply Forall_app. split.
  - apply Forall_forall. intros m Hm. apply in_map_iff in Hm.
    destruct Hm as (i & <- & _). reflexivity.
  - constructor; [reflexivity | constructor].
Qed.

Lemma Forall2_has_dropout (l l' : list nn_Module) :
  Forall2 similar l l' ->
  Forall (fun m => has_dropout m = false) l ->
  Forall (fun m => has_dropout m = false) l'.
Proof.
  induction 1 as [|a a' l l' Ha _ IH]; intros Hall; [constructor|].
  inversion Hall; subst. constructor; [|now apply IH].
  rewrite (similar_has_dropout _ _ Ha). assumption.
Qed.

(** ** The layers of the classifier *)

Lemma Forall2_concat_map {A} (R : nn_Module -> nn_Module -> Prop)
      (g : A -> list nn_Module) (l : list A) (ls : list (list nn_Module)) :
  Forall2 (fun a ly => Forall2 R (g a) ly) l ls ->
  Forall2 R (concat (map g l)) (concat ls).
Proof.
  induction 1 as [|a ly l ls Ha _ IH]; simpl; [constructor|].
  apply Forall2_app; assumption.
Qed.

Lemma Classifier_init_layout in_dim fc_layers cuda dropout w :
  (1 <= fc_layers <= 5)%Z ->
  exists c w',
    Classifier.__init__ in_dim fc_layers cuda dropout w = (Ok c, w')
    /\ similar
         (Sequential (Classifier_layout in_dim (Z.to_nat fc_layers) dropout))
         (Classifier.fc c).
Proof.
  intros H. unfold Classifier.__init__.
  apply fc_layers_check in H. rewrite H.
  set (f := fun i => nth i (fc_dim_list in_dim) 0).
  match goal with |- context [for_each ?idx ?body] =>
    destruct (@for_each_total _ _ body
                (fun i ly =>
                   Forall2 similar
                     ([Linear (f i) (f (i + 1)) (zeros []) (zeros [])]
                      ++ (if dropout then [Dropout 0.1] else [])
                      ++ [LeakyReLU 0.01]) ly) idx)
      with (w := w) as (ms & w1 & Hms & HP)
  end.
  { intros i w0 _.
    destruct (nn_Linear_run (f i) (f (i + 1)) w0) as (W & b & w0' & Hl & _).
    eexists _, w0'. unfold f in Hl. rewrite (bind_ok _ Hl).
    split; [reflexivity|].
    destruct dropout; repeat constructor; simpl; auto. }
  destruct (nn_Linear_run (f (Z.to_nat fc_layers)) 2 w1)
    as (W & b & w2 & Hl & _).
  eexists _, w2.
  unfold py_assert. rewrite (bind_ok (w' := w) (a := tt) _ eq_refl).
  unfold f in Hl. rewrite (bind_ok _ Hms), (bind_ok _ Hl).
  split; [reflexivity|]. cbn [Classifier.fc].
  apply similar_Sequential. unfold Classifier_layout. apply Forall2_app.
  - apply Forall2_concat_map. exact HP.
  - repeat constructor; simpl; auto.
Qed.

Lemma Classifier_constructed_layout (c : Classifier.t) :
  Classifier_constructed c ->
  (1 <= Classifier.fc_layers c <= 5)%Z
  /\ similar
       (Sequential (Classifier_layout (Classifier.in_dim c)
                      (Z.to_nat (Classifier.fc_layers c)) (Classifier.dropout c)))
       (Classifier.fc c).
Proof.
  intros (in_dim & fl & cuda & dr & w0 & c0 & w1 & Hinit & Hre).
  destruct Hre as (Hi & Hf & Hd & Hs).
  assert (Hfl : (1 <= fl <= 5)%Z).
  { destruct (Z_le_gt_dec 1 fl) as [L|G]; [destruct (Z_le_gt_dec fl 5)|];
      try lia.
    - rewrite Classifier_init_rejects in Hinit by lia. discriminate.
    - rewrite Classifier_init_rejects in Hinit by lia. discriminate. }
  destruct (Classifier_init_layout in_dim fl cuda dr w0 Hfl)
    as (c1 & w1' & Hrun & HL).
  destruct (Classifier_init_run in_dim fl cuda dr w0 Hfl)
    as (c2 & w2' & Hrun2 & F1 & F2 & F3 & _).
  rewrite Hrun in Hrun2. injection Hrun2 as <- <-.
  rewrite Hrun in Hinit. injection Hinit as -> _.
  rewrite Hi, Hf, Hd, F1, F2, F3. split; [exact Hfl|].
  apply similar_trans with (m2 := Classifier.fc c0); assumption.
Qed.

Lemma Classifier_layout_no_dropout (in_dim n : nat) :
  has_dropout (Sequential (Classifier_layout in_dim n false)) = false.
Proof.
  apply has_dropout_Sequential_false. unfold Classifier_layout.
  apply Forall_app. split.
  - apply Forall_forall. intros m Hm. apply in_concat in Hm.
    destruct Hm as (ly & Hly & Hm). apply in_map_iff in Hly.
    destruct Hly as (i & <- & _).
    cbn [app In] in Hm. destruct Hm as [<-|[<-|[]]]; reflexivity.
  - repeat constructor.
Qed.

(** X4: the forward pass of a constructed head has no effect on the random
    sources or on the output unless the head was built with dropout and is
    in training mode: it leaves the world as it found it, whether it
    returns or raises. *)
Theorem heads_draw_nothing_without_dropout :
  (forall r x _end,
      Regressioner_constructed r ->
      Regressioner.dropout r = false \/ Regressioner.training r = false ->
      keeps untouched (Regressioner.forward r x _end))
  /\ (forall c x alpha,
        Classifier_constructed c ->
        Classifier.dropout c = false \/ Classifier.training c = false ->
        keeps untouched (Classifier.forward c x alpha)).
Proof.
  split.
  - intros r x _end Hc Hp. unfold Regressioner.forward.
    apply keeps_bind; [exact untouched_trans | |].
    + apply stages_untouched. intros m Hm. apply call_untouched.
      destruct Hp as [Hd | Ht]; [left | now right].
      destruct (Regressioner_constructed_layout r Hc) as (_ & HL).
      rewrite Hd in HL.
      pose proof (Forall2_has_dropout _ _ HL
                    (Regressioner_layout_no_dropout _ _ _)) as Hall.
      rewrite Forall_forall in Hall. now apply Hall.
    + intros res. apply keeps_ret. exact untouched_refl.
  - intros c x alpha Hc Hp. unfold Classifier.forward.
    apply call_untouched.
    destruct Hp as [Hd | Ht]; [left | now right].
    destruct (Classifier_constructed_layout c Hc) as (_ & HL).
    rewrite Hd in HL.
    rewrite (similar_has_dropout _ _ HL). apply Classifier_layout_no_dropout.
Qed.

Lemma heads_draw_nothing_witness :
  exists r c,
    Regressioner_constructed r /\ Classifier_constructed c
    /\ snd (Regressioner.forward r (zeros [3; 4]) None (world_with_tape (1 / 2)))
       = world_with_tape (1 / 2)
    /\ snd (Classifier.forward c (zeros [3; 4]) 1 (world_with_tape (1 / 2)))
       = world_with_tape (1 / 2).
Proof.
  destruct (Regressioner_init_run 4 1 2 true false world0 ltac:(lia))
    as (r & w1 & Hr & _ & _ & _ & Hdr & _).
  destruct (Classifier_init_run 4 2 true false world0 ltac:(lia))
    as (c & w2 & Hcl & _ & _ & Hdc & _).
  pose proof (Regressioner_constructed_by_init _ _ _ _ _ _ _ _ Hr) as Hrc.
  pose proof (Classifier_constructed_by_init _ _ _ _ _ _ _ Hcl) as Hcc.
  exists r, c. split; [exact Hrc|]. split; [exact Hcc|].
  split.
  - apply (proj1 heads_draw_nothing_without_dropout r (zeros [3; 4]) None Hrc
             (or_introl Hdr)).
  - apply (proj2 heads_draw_nothing_without_dropout c (zeros [3; 4]) 1%R Hcc
             (or_introl Hdc)).
Defined.

(** ** Inputs of the wrong width *)

Lemma linear_rejects_width (i o : nat) (W b x : tensor) (lead : list nat)
      (d : nat) :
  shape x = lead ++ [d] -> d <> i ->
  linear i o W b x
  = Err (RuntimeError "mat1 and mat2 shapes cannot be multiplied").
Proof.
  intros Hs Hd. unfold linear. rewrite Hs, rev_app_distr. cbn [rev app].
  destruct (Nat.eqb_spec d i) as [E|_]; [contradiction | reflexivity].
Qed.

Lemma call_all_rejects_width (training : bool) (i o : nat) (W b : tensor)
      (rest : list nn_Module) (x : tensor) (lead : list nat) (d : nat)
      (w : World) :
  shape x = lead ++ [d] -> d <> i ->
  call training (Sequential (Linear i o W b :: rest)) x w
  = (Err (RuntimeError "mat1 and mat2 shapes cannot be multiplied"), w).
Proof.
  intros Hs Hd. rewrite call_Sequential. cbn [call_all call].
  unfold bind, lift. now rewrite (linear_rejects_width i o W b x lead d Hs Hd).
Qed.

Lemma similar_first_linear (i o : nat) (W b : tensor)
      (rest : list nn_Module) (m : nn_Module) :
  similar (Sequential (Linear i o W b :: rest)) m ->
  exists W' b' rest', m = Sequential (Linear i o W' b' :: rest').
Proof.
  intros Hs. destruct m as [| | | | | |ms]; simpl in Hs; try contradiction.
  destruct ms as [|m0 ms]; [contradiction|]. destruct Hs as [H0 _].
  destruct m0; simpl in H0; try contradiction. destruct H0 as [<- <-].
  eexists _, _, _. reflexivity.
Qed.

(** X5: a constructed head rejects an input whose last axis is not
    [in_dim] wide: [forward] raises [RuntimeError] in its first linear
    layer, before anything is drawn ([Regressioner.forward] when it is
    asked for one stage at least). *)
Theorem heads_reject_input_of_wrong_width :
  (forall r x lead d _end w,
      Regressioner_constructed r ->
      shape x = lead ++ [d] -> d <> Regressioner.in_dim r ->
      match _end with Some e => (1 <= e)%Z | None => True end ->
      exists msg,
        Regressioner.forward r x _end w = (Err (RuntimeError msg), w))
  /\ (forall c x lead d alpha w,
        Classifier_constructed c ->
        shape x = lead ++ [d] -> d <> Classifier.in_dim c ->
        exists msg,
          Classifier.forward c x alpha w = (Err (RuntimeError msg), w)).
Proof.
  split.
  - intros r x lead d _end w Hc Hs Hd He.
    destruct (Regressioner_constructed_layout r Hc) as (Hfl & HL).
    destruct (Regressioner_constructed_widths r Hc) as (_ & Hlen & _).
    unfold Regressioner_layout in HL.
    destruct (Z.to_nat (Regressioner.fc_layers r)) as [|n'] eqn:En; [lia|].
    cbn [seq map app nth fc_dim_list] in HL.
    inversion HL as [|m0 m0' l l' Hm0 _ E1 E2]; subst.
    destruct (similar_first_linear _ _ _ _ _ _ Hm0) as (W & b & rest & ->).
    eexists. unfold Regressioner.forward.
    set (k := Z.to_nat match _end with
                       | Some e => e
                       | None => Z.of_nat (length (Regressioner.fc r))
                       end).
    assert (Hk : k = S (k - 1)).
    { unfold k. destruct _end as [e|]; cbn beta iota in He.
      - clear - He. lia.
      - rewrite Nat2Z.id, <- E2. cbn [length]. lia. }
    rewrite Hk. cbn [seq Regressioner.stages].
    unfold bind at 1. unfold bind at 1. unfold module_list_get.
    rewrite <- E2. cbn [nth_error]. unfold ret at 1.
    unfold bind at 1.
    rewrite (call_all_rejects_width _ _ _ _ _ _ x lead d w Hs Hd).
    reflexivity.
  - intros c x lead d alpha w Hc Hs Hd.
    destruct (Classifier_constructed_layout c Hc) as (Hfl & HL).
    unfold Classifier_layout in HL.
    destruct (Z.to_nat (Classifier.fc_layers c)) as [|n'] eqn:En; [lia|].
    cbn [seq map concat app nth fc_dim_list] in HL.
    destruct (similar_first_linear _ _ _ _ _ _ HL) as (W & b & rest & E).
    eexists. unfold Classifier.forward, ReverseLayerF_apply. rewrite E.
    apply (call_all_rejects_width _ _ _ _ _ _ x lead d w Hs Hd).
Qed.

Lemma heads_reject_wrong_width_witness :
  exists r c msg msg',
    Regressioner.forward r (zeros [3; 5]) None world0
    = (Err (RuntimeError msg), world0)
    /\ Classifier.forward c (zeros [3; 5]) 1 world0
       = (Err (RuntimeError msg'), world0).
Proof.
  destruct (Regressioner_init_run 4 1 2 true true world0 ltac:(lia))
    as (r & w1 & Hr & Hin & _).
  destruct (Classifier_init_run 4 2 true true world0 ltac:(lia))
    as (c & w2 & Hcl & Hinc & _).
  pose proof (Regressioner_constructed_by_init _ _ _ _ _ _ _ _ Hr) as Hrc.
  pose proof (Classifier_constructed_by_init _ _ _ _ _ _ _ Hcl) as Hcc.
  destruct (proj1 heads_reject_input_of_wrong_width r (zeros [3; 5]) [3] 5 None
              world0 Hrc eq_refl ltac:(rewrite Hin; lia) Logic.I)
    as (msg & Hm).
  destruct (proj2 heads_reject_input_of_wrong_width c (zeros [3; 5]) [3] 5 1%R
              world0 Hcc eq_refl ltac:(rewrite Hinc; lia))
    as (msg' & Hm').
  exists r, c, msg, msg'. split; [exact Hm | exact Hm'].
Defined.

(** ** Classifier.forward: log-probabilities are negative *)

Lemma Classifier_forward_rows (c : Classifier.t) (x : tensor) (alpha : R)
      (B : nat) (w : World) :
  Classifier_constructed c ->
  shape x = [B; Classifier.in_dim c] ->
  exists out w',
    Classifier.forward c x alpha w = (Ok out, w')
    /\ shape out = [B; 2] /\ wf_tensor out
    /\ forall b, b < B ->
         length (row out b) = 2 /\ Rsum (map exp (row out b)) = 1%R.
Proof.
  intros Hc Hx.
  destruct (Classifier_constructed_structure c Hc) as (body & Hfc & Hw).
  unfold Classifier.forward, ReverseLayerF_apply. rewrite Hfc.
  destruct (call_all_width (Classifier.training c) body x B _ 2 w Hx Hw)
    as (y & w1 & Hy & Hsy).
  destruct (log_softmax_shape2 y B 2 Hsy) as (z & Hz & Hsz).
  exists z, w1. split.
  - rewrite call_Sequential, call_all_app. rewrite (bind_ok _ Hy).
    cbn [call_all call]. unfold bind, lift, ret. rewrite Hz. reflexivity.
  - exact (log_softmax_rows y z B 2 Hsy (Nat.lt_0_succ 1) Hz).
Qed.

(** X6: every entry that a constructed classifier returns on an input of
    shape [[batch, in_dim]] is strictly negative: each is the logarithm of
    a probability that the other class keeps below 1. *)
Theorem Classifier_forward_entries_negative (c : Classifier.t) (x : tensor)
        (alpha : R) (B : nat) (w : World) (out : tensor) (w' : World) :
  Classifier_constructed c ->
  shape x = [B; Classifier.in_dim c] ->
  Classifier.forward c x alpha w = (Ok out, w') ->
  forall v, In v (data out) -> (v < 0)%R.
Proof.
  intros Hc Hx Hrun v Hv.
  destruct (Classifier_forward_rows c x alpha B w Hc Hx)
    as (out' & w1 & Hrun' & Hs & Hwf & Hrows).
  rewrite Hrun in Hrun'. injection Hrun' as <- _.
  destruct (In_nth _ _ 0%R Hv) as (i & Hi & Ei).
  unfold wf_tensor in Hwf. rewrite Hs, !numel_cons, numel_nil in Hwf.
  rewrite Hwf in Hi.
  assert (Hb : i / 2 < B).
  { apply Nat.Div0.div_lt_upper_bound. change (i < 2 * B). lia. }
  destruct (Hrows (i / 2) Hb) as (_ & Hsum).
  assert (Hwf' : wf_tensor out).
  { unfold wf_tensor. rewrite Hs, !numel_cons, numel_nil. exact Hwf. }
  rewrite (row_get out B 2 (i / 2) Hwf' Hs Hb) in Hsum.
  unfold tab in Hsum. cbn [seq map Rsum fold_right] in Hsum.
  pose proof (Nat.div_mod_eq i 2) as Hdm.
  pose proof (Nat.mod_upper_bound i 2 ltac:(lia)) as Hm.
  assert (Ev : v = get out (i / 2 * 2 + i mod 2)).
  { unfold get. rewrite <- Ei. f_equal. lia. }
  pose proof (exp_pos (get out (i / 2 * 2 + 0))) as P0.
  pose proof (exp_pos (get out (i / 2 * 2 + 1))) as P1.
  apply exp_lt_inv. rewrite exp_0.
  assert (Hj : i mod 2 = 0 \/ i mod 2 = 1) by lia.
  destruct Hj as [Ej | Ej]; rewrite Ej in Ev; rewrite Ev; lra.
Qed.

Lemma Classifier_forward_entries_negative_witness :
  exists c out w',
    Classifier_constructed c
    /\ Classifier.forward c (zeros [3; 4]) (1 / 2) world0 = (Ok out, w')
    /\ forall v, In v (data out) -> (v < 0)%R.
Proof.
  destruct (Classifier_init_run 4 3 true true world0 ltac:(lia))
    as (c & w1 & Hinit & Hin & _).
  pose proof (Classifier_constructed_by_init _ _ _ _ _ _ _ Hinit) as Hc.
  destruct (Classifier_forward_rows c (zeros [3; 4]) (1 / 2) 3 world0 Hc
              ltac:(now rewrite Hin))
    as (out & w' & Hrun & _).
  exists c, out, w'. split; [exact Hc|]. split; [exact Hrun|].
  apply (Classifier_forward_entries_negative c (zeros [3; 4]) (1 / 2) 3 world0
           out w' Hc ltac:(now rewrite Hin) Hrun).
Defined.

(** ** FeatureExtractor: the rest of the constructor *)

(** X7: once the backbone is built, [FeatureExtractor] accepts no temporal
    aggregator but ['lstm']: any other [time_type] raises
    [NotImplementedError], in the state in which the backbone's constructor
    left the random sources. *)
Theorem FeatureExtractor_init_rejects_time_type
        arch time_len sequence_num output_dim cnn_type time_type fc_layers
        cnn_config cuda dropout w built w1 :
  FeatureExtractor.select_backbone arch sequence_num cnn_type cnn_config w
  = (Ok built, w1) ->
  time_type <> "lstm"%string ->
  FeatureExtractor.__init__ arch time_len sequence_num output_dim cnn_type
    time_type fc_layers cnn_config cuda dropout w
  = (Err NotImplementedError, w1).
Proof.
  intros Hb Ht. unfold FeatureExtractor.__init__. rewrite (bind_ok _ Hb).
  cbv beta zeta.
  destruct (string_dec time_type "lstm") as [E|_]; [contradiction|].
  reflexivity.
Qed.

Lemma FeatureExtractor_init_rejects_time_type_witness :
  FeatureExtractor.__init__ constant_arch 32 3 1 "resnet" "gru" 1 18 true false
    world0
  = (Err NotImplementedError, world0).
Proof.
  apply (FeatureExtractor_init_rejects_time_type constant_arch 32 3 1
           "resnet"%string "gru"%string 1%Z 18%Z true false world0
           (constant_backbone 512, 512) world0).
  - reflexivity.
  - discriminate.
Defined.





(** ** get_feature and forward: inputs of low rank, and what is left alone *)

(** X9: [get_feature] takes a matrix for a batch of one-channel series but
    has no such rule for a vector or a scalar: on a tensor with fewer than
    two axes it raises [IndexError] while it reads the shape, and nothing
    else happens. *)
Theorem get_feature_rejects_low_rank (fe : FeatureExtractor.t)
        (dynamic : tensor) (batch : Z) (reset : bool) (w : World) :
  rank dynamic < 2 ->
  FeatureExtractor.get_feature fe dynamic batch reset w
  = (Err (IndexError "tuple index out of range"), w).
Proof.
  intros H. unfold FeatureExtractor.get_feature.
  destruct (shape dynamic) as [|n0 [|n1 s]] eqn:E.
  - unfold bind at 1, shape_at at 1. rewrite E. reflexivity.
  - rewrite (bind_ok _ (shape_at_run dynamic 0 n0 w ltac:(now rewrite E))).
    unfold rank at 1. rewrite E. cbn [length Nat.eqb].
    rewrite (bind_ok (w' := w) (a := dynamic) _ eq_refl).
    unfold bind at 1, shape_at at 1. rewrite E. reflexivity.
  - unfold rank in H. rewrite E in H. cbn [length] in H. lia.
Qed.

Lemma get_feature_rejects_low_rank_witness :
  FeatureExtractor.get_feature (sample_extractor 32 1 true) (zeros [32]) 1 true
    world0
  = (Err (IndexError "tuple index out of range"), world0).
Proof.
  apply (get_feature_rejects_low_rank (sample_extractor 32 1 true) (zeros [32])
           1 true world0).
  cbn. lia.
Defined.

Ltac frame_side :=
  first [ exact untouched_refl | exact untouched_trans
        | exact torch_only_refl | exact torch_only_trans
        | exact numpy_only_refl | exact numpy_only_trans
        | exact silent_refl | exact silent_trans ].

Lemma keeps_uniform_ (s : list nat) (lo hi : R) :
  keeps torch_only (uniform_ s lo hi).
Proof. intros w. split; reflexivity. Qed.

Lemma keeps_xavier_uniform_ (s : list nat) : keeps torch_only (xavier_uniform_ s).
Proof.
  unfold xavier_uniform_. destruct s as [|n0 [|n1 rest]];
    try (apply keeps_raise; frame_side).
  destruct (_ =? 0); [apply keeps_raise; frame_side | apply keeps_uniform_].
Qed.

Lemma keeps_init_hidden (self : FeatureExtractor.t)
      (hidden_dim batch layer : nat) :
  keeps torch_only (FeatureExtractor.init_hidden self hidden_dim batch layer).
Proof.
  unfold FeatureExtractor.init_hidden.
  apply keeps_bind; [frame_side | apply keeps_xavier_uniform_ |]. intros h.
  destruct (string_dec _ _); [|apply keeps_ret; frame_side].
  apply keeps_bind; [frame_side | apply keeps_xavier_uniform_ |]. intros c.
  apply keeps_ret; frame_side.
Qed.

Lemma untouched_torch_only (w w' : World) : untouched w w' -> torch_only w w'.
Proof. intros ->. apply torch_only_refl. Qed.

Lemma untouched_numpy_only (w w' : World) : untouched w w' -> numpy_only w w'.
Proof. intros ->. apply numpy_only_refl. Qed.

Lemma torch_only_silent (w w' : World) : torch_only w w' -> silent w w'.
Proof. intros [_ H]. exact H. Qed.

Lemma numpy_only_silent (w w' : World) : numpy_only w w' -> silent w w'.
Proof. intros [_ H]. exact H. Qed.

Lemma keeps_conv1x1 (training : bool) (H : nat) (W b : tensor) (s : R)
      (x : tensor) :
  keeps untouched
    (call training (Sequential [Conv1d H 512 1 W b; LeakyReLU s]) x).
Proof. apply call_untouched. left. reflexivity. Qed.

Lemma keeps_get_feature_plain (fe : FeatureExtractor.t) (dynamic : tensor)
      (batch : Z) :
  FeatureExtractor_layers fe ->
  keeps untouched (FeatureExtractor.get_feature fe dynamic batch false).
Proof.
  intros (_ & _ & _ & _ & W & b & Hc11). unfold FeatureExtractor.get_feature.
  apply keeps_bind; [frame_side | apply keeps_shape_at; frame_side |].
  intros B.
  apply keeps_bind;
    [frame_side
    | destruct (_ =? 2); [apply keeps_lift | apply keeps_ret]; frame_side |].
  intros x.
  apply keeps_bind; [frame_side | apply keeps_shape_at; frame_side |].
  intros c.
  apply keeps_bind; [frame_side | apply keeps_py_assert; frame_side |].
  intros _.
  apply keeps_bind; [frame_side | apply keeps_lift; frame_side |]. intros y.
  apply keeps_bind; [frame_side | apply keeps_lift; frame_side |]. intros p.
  cbn [andb].
  apply keeps_bind; [frame_side | apply keeps_lift; frame_side |]. intros out.
  apply keeps_bind; [frame_side | apply keeps_lift; frame_side |]. intros q.
  rewrite Hc11. apply keeps_conv1x1.
Qed.

Lemma keeps_get_feature_reset (fe : FeatureExtractor.t) (dynamic : tensor)
      (batch : Z) :
  FeatureExtractor_layers fe ->
  keeps torch_only (FeatureExtractor.get_feature fe dynamic batch true).
Proof.
  intros (_ & _ & _ & _ & W & b & Hc11). unfold FeatureExtractor.get_feature.
  apply keeps_bind; [frame_side | apply keeps_shape_at; frame_side |].
  intros B.
  apply keeps_bind;
    [frame_side
    | destruct (_ =? 2); [apply keeps_lift | apply keeps_ret]; frame_side |].
  intros x.
  apply keeps_bind; [frame_side | apply keeps_shape_at; frame_side |].
  intros c.
  apply keeps_bind; [frame_side | apply keeps_py_assert; frame_side |].
  intros _.
  apply keeps_bind; [frame_side | apply keeps_lift; frame_side |]. intros y.
  apply keeps_bind; [frame_side | apply keeps_lift; frame_side |]. intros p.
  cbn [andb].
  apply keeps_bind; [frame_side | |].
  - destruct (in_dec _ _ _); [|apply keeps_lift; frame_side].
    apply keeps_bind; [frame_side | apply keeps_init_hidden |].
    intros hx. apply keeps_lift; frame_side.
  - intros out.
    apply keeps_bind; [frame_side | apply keeps_lift; frame_side |]. intros q.
    rewrite Hc11.
    apply (keeps_weaken untouched torch_only); [exact untouched_torch_only|].
    apply keeps_conv1x1.
Qed.

(** X10: on a constructed feature extractor, [get_feature] without [reset]
    has no effect at all, and with [reset] it can only advance torch's
    generator: numpy's random state and the output stay as they were,
    whether the call returns or raises. *)
Theorem get_feature_leaves_world (arch : arch_resnet)
        (fe : FeatureExtractor.t) (dynamic : tensor) (batch : Z) :
  FeatureExtractor_constructed arch fe ->
  keeps untouched (FeatureExtractor.get_feature fe dynamic batch false)
  /\ keeps torch_only (FeatureExtractor.get_feature fe dynamic batch true).
Proof.
  intros Hc.
  destruct (FeatureExtractor_constructed_inv arch fe Hc) as (Hlay & _).
  split; [now apply keeps_get_feature_plain | now apply keeps_get_feature_reset].
Qed.

Lemma get_feature_leaves_world_witness :
  untouched (world_with_tape (1 / 2))
    (snd (FeatureExtractor.get_feature (sample_extractor 32 3 true)
            (zeros [2; 3; 32]) 1 false (world_with_tape (1 / 2))))
  /\ torch_only (world_with_tape (1 / 2))
       (snd (FeatureExtractor.get_feature (sample_extractor 32 3 true)
               (zeros [2; 3; 32]) 1 true (world_with_tape (1 / 2)))).
Proof.
  destruct (get_feature_leaves_world constant_arch (sample_extractor 32 3 true)
              (zeros [2; 3; 32]) 1
              (sample_extractor_constructed 32 3 true ltac:(lia)))
    as [H1 H2].
  split; [apply H1 | apply H2].
Defined.

Lemma keeps_random_interval (max : nat) : keeps numpy_only (random_interval max).
Proof. intros w. unfold random_interval. destruct max; split; reflexivity. Qed.

Lemma keeps_shuffle_from (i : nat) :
  forall x, keeps numpy_only (shuffle_from i x).
Proof.
  induction i as [|i IH]; intros x; cbn [shuffle_from].
  - apply keeps_ret; frame_side.
  - apply keeps_bind; [frame_side | apply keeps_random_interval |].
    intros j. apply IH.
Qed.

Lemma keeps_draw_windows (k : nat) :
  keeps numpy_only (FeatureExtractor.draw_windows k).
Proof.
  unfold FeatureExtractor.draw_windows, np_random_shuffle.
  apply keeps_bind; [frame_side | apply keeps_shuffle_from |]. intros idx.
  apply keeps_bind; [frame_side | |].
  - unfold np_random_randint.
    destruct (_ <=? _)%Z; [apply keeps_raise; frame_side|].
    apply keeps_bind; [frame_side | apply keeps_random_interval |].
    intros r. apply keeps_ret; frame_side.
  - intros off. apply keeps_ret; frame_side.
Qed.

Lemma keeps_forward_sampling (Q : World -> World -> Prop)
      (fe : FeatureExtractor.t) (dynamic : tensor) (batch : Z) (reset : bool) :
  (forall w, Q w w) -> (forall w1 w2 w3, Q w1 w2 -> Q w2 w3 -> Q w1 w3) ->
  (forall w w', numpy_only w w' -> Q w w') ->
  (forall x, keeps Q (FeatureExtractor.get_feature fe x batch reset)) ->
  keeps Q (FeatureExtractor.forward fe dynamic None batch reset).
Proof.
  intros Qr Qt Qn Hg. unfold FeatureExtractor.forward.
  apply keeps_bind; [exact Qt | | intros f; now apply keeps_average].
  apply keeps_bind; [exact Qt | now apply keeps_shape_last |]. intros L.
  apply keeps_bind; [exact Qt | |].
  { unfold FeatureExtractor.py_mod.
    destruct (_ =? 0); [now apply keeps_raise | now apply keeps_ret]. }
  intros r.
  apply keeps_bind; [exact Qt | now apply keeps_py_assert |]. intros _.
  apply keeps_bind; [exact Qt | |].
  { unfold FeatureExtractor.py_floordiv.
    destruct (_ =? 0); [now apply keeps_raise | now apply keeps_ret]. }
  intros k.
  apply keeps_bind; [exact Qt | |].
  { apply (keeps_weaken numpy_only Q); [exact Qn | apply keeps_draw_windows]. }
  intros drawn. apply keeps_for_each; [exact Qr | exact Qt |]. intros i.
  unfold FeatureExtractor.window_feature.
  apply keeps_bind; [exact Qt | now apply keeps_lift |]. intros win.
  apply keeps_bind; [exact Qt | apply Hg |]. intros fea.
  now apply keeps_lift.
Qed.

(** X11: on a constructed feature extractor, [forward] never prints;
    without [reset] it draws from numpy alone and leaves torch's generator
    where it was; and when the per-window features are supplied it has no
    effect at all, whether it returns or raises. *)
Theorem forward_leaves_world (arch : arch_resnet) (fe : FeatureExtractor.t)
        (dynamic : tensor) (batch : Z) :
  FeatureExtractor_constructed arch fe ->
  keeps numpy_only (FeatureExtractor.forward fe dynamic None batch false)
  /\ keeps silent (FeatureExtractor.forward fe dynamic None batch true)
  /\ (forall given reset,
        keeps untouched
          (FeatureExtractor.forward fe dynamic (Some given) batch reset)).
Proof.
  intros Hc.
  destruct (FeatureExtractor_constructed_inv arch fe Hc) as (Hlay & _).
  split; [|split].
  - apply keeps_forward_sampling;
      [exact numpy_only_refl | exact numpy_only_trans | auto |].
    intros x. apply (keeps_weaken untouched numpy_only);
      [exact untouched_numpy_only | now apply keeps_get_feature_plain].
  - apply keeps_forward_sampling;
      [exact silent_refl | exact silent_trans | exact numpy_only_silent |].
    intros x. apply (keeps_weaken torch_only silent);
      [exact torch_only_silent | now apply keeps_get_feature_reset].
  - intros given reset. unfold FeatureExtractor.forward.
    apply keeps_bind; [frame_side | apply keeps_ret; frame_side |].
    intros f. apply keeps_average; frame_side.
Qed.

Lemma forward_leaves_world_witness :
  numpy_only (world_with_tape (1 / 2))
    (snd (FeatureExtractor.forward (sample_extractor 32 3 true)
            (zeros [2; 3; 4 * 32]) None 1 false (world_with_tape (1 / 2))))
  /\ silent (world_with_tape (1 / 2))
       (snd (FeatureExtractor.forward (sample_extractor 32 3 true)
               (zeros [2; 3; 4 * 32]) None 1 true (world_with_tape (1 / 2)))).
Proof.
  destruct (forward_leaves_world constant_arch (sample_extractor 32 3 true)
              (zeros [2; 3; 4 * 32]) 1
              (sample_extractor_constructed 32 3 true ltac:(lia)))
    as (H1 & H2 & _).
  split; [apply H1 | apply H2].
Defined.

(** ** FeatureExtractor.forward: the windows and their average *)

Lemma numel_pair (a b : nat) : numel [a; b] = a * b.
Proof. rewrite !numel_cons, numel_nil. lia. Qed.

Lemma nth_flat_map_list {A B} (g : A -> list B) (l : list A) (m r : nat)
      (d0 : A) (d : B) :
  (forall a, In a l -> length (g a) = m) -> r < m ->
  forall j, j < length l ->
    nth (j * m + r) (flat_map g l) d = nth r (g (nth j l d0)) d.
Proof.
  intros Hlen Hr. induction l as [|a l IH]; intros j Hj; [simpl in Hj; lia|].
  cbn [flat_map]. destruct j as [|j].
  - rewrite Nat.mul_0_l, Nat.add_0_l.
    rewrite app_nth1 by (rewrite Hlen; [lia | now left]). reflexivity.
  - rewrite app_nth2 by (rewrite Hlen; [lia | now left]).
    rewrite Hlen by (now left).
    replace (S j * m + r - m) with (j * m + r) by lia.
    cbn [nth]. apply IH.
    + intros a' Ha'. apply Hlen. now right.
    + simpl in Hj. lia.
Qed.

Lemma tab_nth_map {A B} (F : A -> B) (l : list A) (d0 : A) :
  tab (length l) (fun j => F (nth j l d0)) = map F l.
Proof.
  apply nth_ext with (d := F d0) (d' := F d0).
  - now rewrite length_tab, length_map.
  - intros i Hi. rewrite length_tab in Hi.
    rewrite nth_tab by exact Hi. now rewrite map_nth.
Qed.

Lemma cat1_stack_get (ts : list tensor) (y : tensor) (B C t : nat)
      (d0 : tensor) :
  Forall (fun x => shape x = [B; 1; C; t]) ts -> cat1 ts = Ok y ->
  forall b j r, b < B -> j < length ts -> r < numel [C; t] ->
    get y ((b * length ts + j) * numel [C; t] + r)
    = get (nth j ts d0) (b * numel [C; t] + r).
Proof.
  intros Hall Hy b j r Hb Hj Hr.
  assert (Hhd : exists t0 ts', ts = t0 :: ts' /\ shape t0 = [B; 1; C; t]).
  { destruct ts as [|t0 ts']; [simpl in Hj; lia|]. exists t0, ts'.
    split; [reflexivity | now inversion Hall]. }
  destruct Hhd as (t0 & ts' & Ets & H0).
  assert (Hcompat : forallb (fun x => cat_compatible [B; 1; C; t] (shape x)) ts
                    = true).
  { apply forallb_forall. intros x Hx.
    rewrite Forall_forall in Hall. rewrite (Hall x Hx).
    unfold cat_compatible. rewrite Nat.eqb_refl.
    destruct (list_eq_dec Nat.eq_dec [C; t] [C; t]); [reflexivity | congruence]. }
  set (inner := numel [C; t]) in *.
  assert (Hw : forall x, In x ts -> nth 1 (shape x) 0 * inner = inner).
  { intros x Hx. rewrite Forall_forall in Hall. rewrite (Hall x Hx).
    cbn [nth]. lia. }
  assert (Hlen : forall b',
             length (flat_map
                       (fun x => tab (nth 1 (shape x) 0 * inner)
                                   (fun i => get x (b' * (nth 1 (shape x) 0
                                                          * inner) + i)))
                       ts)
             = length ts * inner).
  { intros b'. apply length_flat_map_const. intros x Hx.
    rewrite length_tab. now apply Hw. }
  unfold cat1 in Hy. rewrite Ets in Hy. rewrite H0 in Hy. rewrite <- Ets in Hy.
  rewrite Hcompat in Hy. injection Hy as <-.
  unfold get at 1. cbn [data]. fold inner.
  replace ((b * length ts + j) * inner + r)
    with (b * (length ts * inner) + (j * inner + r)) by lia.
  rewrite nth_flat_map_const with (m := length ts * inner);
    [| intros; apply Hlen | exact Hb | nia].
  rewrite nth_flat_map_list with (m := inner) (d0 := d0);
    [| intros x Hx; rewrite length_tab; now apply Hw | exact Hr | exact Hj].
  assert (Hin : In (nth j ts d0) ts) by (now apply nth_In).
  change (C * (t * 1)) with inner.
  rewrite (Hw _ Hin). rewrite nth_tab by exact Hr. reflexivity.
Qed.

Lemma average_entries (ts : list tensor) (B C t : nat) (w : World) :
  ts <> [] ->
  Forall (fun x => shape x = [B; 1; C; t]) ts ->
  exists y,
    FeatureExtractor.average ts w = (Ok y, w)
    /\ shape y = [B; C * t] /\ wf_tensor y
    /\ forall b r, b < B -> r < C * t ->
         get y (b * (C * t) + r)
         = (Rsum (map (fun f => get f (b * (C * t) + r)) ts)
            / INR (length ts))%R.
Proof.
  intros Hne Hall.
  destruct (cat1_stack ts B C t Hne Hall) as (c & Hc & Hsc & _).
  destruct (average_run ts B C t w Hne Hall) as (y & Hy & Hsy & Hwy).
  exists y. split; [exact Hy|].
  rewrite numel_pair in Hsy. split; [exact Hsy|]. split; [exact Hwy|].
  intros b r Hb Hr.
  unfold FeatureExtractor.average, bind, lift in Hy. rewrite Hc in Hy.
  unfold mean1 in Hy. rewrite Hsc in Hy. unfold flatten1 in Hy.
  cbn [shape data] in Hy. injection Hy as <-.
  unfold get at 1. cbn [data]. rewrite <- (numel_pair C t) in *.
  rewrite nth_tab2 by assumption.
  f_equal. rewrite <- (tab_nth_map _ ts (zeros [])).
  f_equal. apply tab_ext. intros j Hj.
  apply (cat1_stack_get ts c B C t (zeros []) Hall Hc); assumption.
Qed.

(** X12: line 110 on supplied per-window features.  [forward] with
    [feature] given does not look at [dynamic] and has no effect; an empty
    list is rejected by [torch.cat] with [RuntimeError], and [n >= 1]
    features of shape [[B, 1, C, t]] give the matrix of shape [[B, C * t]]
    whose every entry is the arithmetic mean of the corresponding entries
    of the features. *)
Theorem forward_averages_supplied_features
        (fe : FeatureExtractor.t) (dynamic : tensor) (feats : list tensor)
        (B C t : nat) (batch : Z) (reset : bool) (w : World) :
  (exists msg,
      FeatureExtractor.forward fe dynamic (Some []) batch reset w
      = (Err (RuntimeError msg), w))
  /\ (feats <> [] ->
      Forall (fun f => shape f = [B; 1; C; t]) feats ->
      exists out,
        FeatureExtractor.forward fe dynamic (Some feats) batch reset w
        = (Ok out, w)
        /\ shape out = [B; C * t]
        /\ forall b r, b < B -> r < C * t ->
             get out (b * (C * t) + r)
             = (Rsum (map (fun f => get f (b * (C * t) + r)) feats)
                / INR (length feats))%R).
Proof.
  split.
  - eexists. reflexivity.
  - intros Hne Hall.
    destruct (average_entries feats B C t w Hne Hall)
      as (y & Hy & Hsy & _ & Hget).
    exists y. split; [|split; assumption].
    unfold FeatureExtractor.forward.
    rewrite (bind_ok (w' := w) (a := feats) _ eq_refl). exact Hy.
Qed.

Lemma forward_averages_supplied_features_witness :
  exists out,
    FeatureExtractor.forward (sample_extractor 32 3 true) (zeros [])
      (Some [ones [2; 1; 3; 4]; zeros [2; 1; 3; 4]]) 1 true world0
    = (Ok out, world0)
    /\ shape out = [2; 3 * 4]
    /\ get out (1 * (3 * 4) + 5)
       = Rdiv (Rsum (map (fun f => get f (1 * (3 * 4) + 5))
                       [ones [2; 1; 3; 4]; zeros [2; 1; 3; 4]]))
           (INR 2).
Proof.
  destruct (proj2 (forward_averages_supplied_features
                     (sample_extractor 32 3 true) (zeros [])
                     [ones [2; 1; 3; 4]; zeros [2; 1; 3; 4]] 2 3 4 1 true
                     world0))
    as (out & Hrun & Hs & Hget).
  - discriminate.
  - repeat constructor.
  - exists out. split; [exact Hrun|]. split; [exact Hs|].
    apply Hget; lia.
Defined.

Lemma slice_last_window_get (x : tensor) (B C k tl i : nat) :
  shape x = [B; C; k * tl] -> i < k ->
  exists win,
    slice_last x (i * tl) ((i + 1) * tl) = Ok win
    /\ shape win = [B; C; tl] /\ wf_tensor win
    /\ forall r j, r < B * C -> j < tl ->
         get win (r * tl + j) = get x (r * (k * tl) + (i * tl + j)).
Proof.
  intros Hs Hi. unfold slice_last. rewrite Hs. cbn [rev app].
  assert (E1 : Nat.min (i * tl) (k * tl) = i * tl) by nia.
  assert (E2 : Nat.max (i * tl) (Nat.min ((i + 1) * tl) (k * tl)) - i * tl = tl)
    by nia.
  rewrite E1, E2.
  eexists. split; [reflexivity|]. split; [reflexivity|]. split.
  - unfold wf_tensor. cbn [shape data app].
    rewrite length_tab2, !numel_cons, numel_nil. lia.
  - intros r j Hr Hj. unfold get at 1. cbn [data].
    rewrite nth_tab2; [f_equal; lia | | exact Hj].
    rewrite numel_pair. exact Hr.
Qed.

(** X13: the windows of [forward] tile the series.  On a series of shape
    [[B, C, k * time_len]], window [i < k] is the tensor of shape
    [[B, C, time_len]] that holds, for every row, the samples
    [i * time_len, ..., (i + 1) * time_len - 1] of that row; the loop body
    hands it to [get_feature] and adds an axis to the result. *)
Theorem forward_windows_tile_series
        (fe : FeatureExtractor.t) (dynamic : tensor) (B C k i : nat)
        (batch : Z) (reset : bool) :
  shape dynamic = [B; C; k * FeatureExtractor.time_len fe] -> i < k ->
  exists win,
    slice_last dynamic (i * FeatureExtractor.time_len fe)
      ((i + 1) * FeatureExtractor.time_len fe) = Ok win
    /\ shape win = [B; C; FeatureExtractor.time_len fe]
    /\ (forall r j, r < B * C -> j < FeatureExtractor.time_len fe ->
          get win (r * FeatureExtractor.time_len fe + j)
          = get dynamic (r * (k * FeatureExtractor.time_len fe)
                         + (i * FeatureExtractor.time_len fe + j)))
    /\ forall w,
         FeatureExtractor.window_feature fe dynamic batch reset i w
         = bind (FeatureExtractor.get_feature fe win batch reset)
             (fun fea => lift (unsqueeze fea 1)) w.
Proof.
  intros Hs Hi.
  destruct (slice_last_window_get dynamic B C k (FeatureExtractor.time_len fe)
              i Hs Hi)
    as (win & Hwin & Hsw & _ & Hget).
  exists win. repeat (split; [assumption|]).
  intros w. unfold FeatureExtractor.window_feature.
  unfold bind at 1, lift at 1. rewrite Hwin. reflexivity.
Qed.

Lemma forward_windows_tile_series_witness :
  exists win,
    slice_last (ones [2; 3; 4 * 32]) (1 * 32) ((1 + 1) * 32) = Ok win
    /\ shape win = [2; 3; 32]
    /\ get win (5 * 32 + 7) = get (ones [2; 3; 4 * 32]) (5 * (4 * 32) + (1 * 32 + 7)).
Proof.
  destruct (forward_windows_tile_series (sample_extractor 32 3 true)
              (ones [2; 3; 4 * 32]) 2 3 4 1 1 true eq_refl ltac:(lia))
    as (win & Hwin & Hs & Hget & _).
  exists win. split; [exact Hwin|]. split; [exact Hs|].
  apply (Hget 5 7); cbn [FeatureExtractor.time_len sample_extractor]; lia.
Defined.

(** ** A series of one window *)

Lemma tensor_ext (a b : tensor) :
  shape a = shape b -> wf_tensor a -> wf_tensor b ->
  (forall i, i < numel (shape a) -> get a i = get b i) -> a = b.
Proof.
  destruct a as [sa da], b as [sb db]. unfold wf_tensor, get. cbn [shape data].
  intros <- Ha Hb Hget. f_equal.
  apply nth_ext with (d := 0%R) (d' := 0%R); [congruence|].
  intros i Hi. apply Hget. now rewrite <- Ha.
Qed.

Lemma slice_last_whole (x : tensor) (B C L : nat) :
  wf_tensor x -> shape x = [B; C; L] ->
  slice_last x (0 * L) ((0 + 1) * L) = Ok x.
Proof.
  intros Hwf Hs.
  destruct (slice_last_window_get x B C 1 L 0) as (win & Hwin & Hsw & Hww & Hget);
    [now rewrite Nat.mul_1_l | lia |].
  rewrite Hwin. f_equal. apply tensor_ext; [congruence | assumption..|].
  intros i Hi. rewrite Hsw, !numel_cons, numel_nil in Hi.
  destruct (Nat.eq_dec L 0) as [->|HL]; [lia|].
  pose proof (Nat.div_mod_eq i L) as Hdm.
  pose proof (Nat.mod_upper_bound i L HL) as Hm.
  assert (Hr : i / L < B * C).
  { apply Nat.Div0.div_lt_upper_bound. change (i < L * (B * C)). nia. }
  replace i with (i / L * L + i mod L) at 1 by lia.
  rewrite (Hget _ _ Hr Hm). f_equal. lia.
Qed.

Lemma conv1x1_wf (training : bool) (H : nat) (W b : tensor) (s : R)
      (x y : tensor) (w w' : World) :
  call training (Sequential [Conv1d H 512 1 W b; LeakyReLU s]) x w = (Ok y, w') ->
  wf_tensor y.
Proof.
  cbn [call]. unfold lift at 1, conv1d.
  destruct (shape x) as [|B [|c [|t [|n3 sh]]]];
    try (unfold bind; discriminate).
  destruct (Nat.eqb_spec c H) as [->|]; [|unfold bind; discriminate].
  cbn [negb].
  destruct (Nat.ltb_spec t 1) as [|Ht]; [unfold bind; discriminate|].
  unfold bind, ret. intros E. injection E as <- _.
  unfold wf_tensor, map_tensor. cbn [shape data].
  rewrite length_map, length_tab3, !numel_cons, numel_nil. lia.
Qed.

Lemma get_feature_wf (fe : FeatureExtractor.t) (x z : tensor) (batch : Z)
      (reset : bool) (w w' : World) :
  FeatureExtractor_layers fe ->
  FeatureExtractor.get_feature fe x batch reset w = (Ok z, w') ->
  wf_tensor z /\ exists b t, shape z = [b; 512; t] /\ 1 <= t.
Proof.
  intros (_ & _ & _ & _ & W & bb & Hc11) H.
  unfold FeatureExtractor.get_feature in H. inv_run H. rewrite Hc11 in H.
  split; [eapply conv1x1_wf; exact H|].
  destruct (conv1x1_inv _ _ _ _ _ _ _ _ _ H) as (B & t & _ & Ht & Hs).
  now exists B, t.
Qed.

(** X14: on a series that is exactly one window long, [forward] draws
    nothing that matters: it returns what [get_feature] returns on the
    whole series, flattened to a matrix, and leaves the random sources as
    that call leaves them. *)
Theorem forward_single_window_is_get_feature
        (arch : arch_resnet) (fe : FeatureExtractor.t) (dynamic z : tensor)
        (B : nat) (batch : Z) (reset : bool) (w w' : World) :
  FeatureExtractor_constructed arch fe ->
  0 < FeatureExtractor.time_len fe ->
  wf_tensor dynamic ->
  shape dynamic
  = [B; FeatureExtractor.sequence_num fe; FeatureExtractor.time_len fe] ->
  FeatureExtractor.get_feature fe dynamic batch reset w = (Ok z, w') ->
  exists b t,
    shape z = [b; 512; t]
    /\ FeatureExtractor.forward fe dynamic None batch reset w
       = (Ok (mkTensor [b; 512 * t] (data z)), w').
Proof.
  intros Hc Htl Hwf Hs Hz.
  destruct (FeatureExtractor_constructed_inv arch fe Hc) as (Hlay & _).
  destruct (get_feature_wf fe dynamic z batch reset w w' Hlay Hz)
    as (Hwz & b & t & Hsz & Ht).
  exists b, t. split; [exact Hsz|].
  rewrite (forward_prologue fe dynamic [B; FeatureExtractor.sequence_num fe] 1
             batch reset w Htl)
    by (rewrite Hs, Nat.mul_1_l; reflexivity).
  assert (Hdraw : FeatureExtractor.draw_windows 1 w = (Ok (1%Z, [0]), w))
    by reflexivity.
  destruct (unsqueeze1_rank3 z b 512 t Hsz) as (u & Hu & Hsu & Hdu).
  destruct (average_entries [u] b 512 t w' ltac:(discriminate)
              ltac:(constructor; [exact Hsu | constructor]))
    as (y & Hy & Hsy & Hwy & Hget).
  assert (Ey : y = mkTensor [b; 512 * t] (data z)).
  { apply tensor_ext; [exact Hsy | exact Hwy | |].
    - unfold wf_tensor in *. cbn [shape data]. rewrite Hwz, Hsz.
      rewrite !numel_cons, numel_nil. lia.
    - intros i Hi. rewrite Hsy, !numel_cons, numel_nil in Hi.
      assert (Hn : 512 * t <> 0) by lia.
      pose proof (Nat.div_mod_eq i (512 * t)) as Hdm.
      pose proof (Nat.mod_upper_bound i (512 * t) Hn) as Hm.
      assert (Hb : i / (512 * t) < b).
      { apply Nat.Div0.div_lt_upper_bound. change (i < 512 * t * b). nia. }
      replace i with (i / (512 * t) * (512 * t) + i mod (512 * t)) by lia.
      rewrite (Hget _ _ Hb Hm). cbn [map Rsum fold_right length].
      change (INR 1) with 1%R. unfold get. cbn [data]. rewrite Hdu.
      unfold Rdiv. rewrite Rinv_1. lra. }
  unfold bind at 1. unfold bind at 1. rewrite Hdraw. cbn [snd for_each].
  unfold FeatureExtractor.window_feature.
  rewrite (slice_last_whole dynamic B _ _ Hwf Hs).
  unfold bind, lift, ret. rewrite Hz, Hu. rewrite <- Ey. exact Hy.
Qed.

Lemma forward_single_window_witness :
  exists z w' b t,
    FeatureExtractor.get_feature (sample_extractor 32 3 true)
      (zeros [2; 3; 32]) 1 true world0 = (Ok z, w')
    /\ FeatureExtractor.forward (sample_extractor 32 3 true)
         (zeros [2; 3; 32]) None 1 true world0
       = (Ok (mkTensor [b; 512 * t] (data z)), w').
Proof.
  destruct (get_feature_run (sample_extractor 32 3 true) (zeros [2; 3; 32])
              (zeros [2; 512; 32]) 2 32 32 1 true world0
              (sample_extractor_layers 32 3 true) eq_refl eq_refl eq_refl
              ltac:(lia))
    as (z & w' & Hz & _).
  destruct (forward_single_window_is_get_feature constant_arch
              (sample_extractor 32 3 true) (zeros [2; 3; 32]) z 2 1 true
              world0 w'
              (sample_extractor_constructed 32 3 true ltac:(lia))
              ltac:(cbn; lia) (wf_zeros _) eq_refl Hz)
    as (b & t & _ & Hf).
  exists z, w', b, t. split; [exact Hz | exact Hf].
Defined.

(** ** How far torch's generator advances *)

Lemma world_advance (n : nat) (w w' : World) :
  torch_rng w'
  = mkGenerator (g_tape (torch_rng w)) (g_pos (torch_rng w) + n) ->
  np_rng w' = np_rng w -> stdout w' = stdout w ->
  w' = advance n w.
Proof.
  destruct w' as [g' np' out']. cbn [torch_rng np_rng stdout].
  intros -> -> ->. reflexivity.
Qed.

Lemma advance_advance (n m : nat) (w : World) :
  advance m (advance n w) = advance (n + m) w.
Proof. unfold advance. cbn [torch_rng np_rng stdout g_tape g_pos].
  f_equal. f_equal. lia. Qed.

Lemma advance_0 (w : World) : advance 0 w = w.
Proof.
  destruct w as [[tape pos] np out]. unfold advance.
  cbn [torch_rng np_rng stdout g_tape g_pos]. now rewrite Nat.add_0_r.
Qed.

Lemma for_each_advance {A B} (body : A -> M B) (P : A -> B -> Prop) (c : nat)
      (l : list A) :
  (forall a w, In a l -> exists b, body a w = (Ok b, advance c w) /\ P a b) ->
  forall w,
    exists bs,
      for_each l body w = (Ok bs, advance (length l * c) w) /\ Forall2 P l bs.
Proof.
  induction l as [|a l IH]; intros Hbody w; cbn [for_each length].
  - exists []. rewrite Nat.mul_0_l, advance_0. split; [reflexivity | constructor].
  - destruct (Hbody a w (or_introl eq_refl)) as (b & Hb & HP).
    destruct (IH (fun a' w' Hin => Hbody a' w' (or_intror Hin)) (advance c w))
      as (bs & Hbs & HPs).
    exists (b :: bs). split; [|now constructor].
    rewrite (bind_ok _ Hb), (bind_ok _ Hbs). unfold ret.
    rewrite advance_advance. do 2 f_equal; lia.
Qed.

Lemma xavier_uniform__advance (layer batch hidden : nat) (w : World) :
  0 < hidden -> 0 < layer + batch ->
  exists t,
    xavier_uniform_ [layer; batch; hidden] w
    = (Ok t, advance (layer * batch * hidden) w)
    /\ shape t = [layer; batch; hidden] /\ wf_tensor t.
Proof.
  intros Hh Hlb.
  destruct (xavier_uniform__run layer batch [hidden] w) as (t & w1 & Ht & Hs & Hwf & Hnp & Hout).
  { rewrite numel_cons, numel_nil. nia. }
  destruct (xavier_uniform__values _ _ _ _ _ _ Ht) as (_ & Hg & _).
  exists t. split; [|split; assumption].
  rewrite Ht. f_equal. apply world_advance; [|assumption..].
  rewrite Hg. f_equal. rewrite !numel_cons, numel_nil. lia.
Qed.

(** X15: what [init_hidden] consumes.  For positive dimensions it always
    returns; with [time_type = 'lstm'] it makes two Xavier draws of
    [layer * batch * hidden_dim] samples each from torch's generator,
    whether or not the second one is used, and nothing else changes; with
    any other [time_type] it makes the first draw and returns [None]. *)
Theorem init_hidden_draws (self : FeatureExtractor.t)
        (hidden_dim batch layer : nat) (w : World) :
  0 < hidden_dim -> 0 < layer + batch ->
  (FeatureExtractor.time_type self = "lstm"%string ->
   exists h c,
     FeatureExtractor.init_hidden self hidden_dim batch layer w
     = (Ok (Some (h, c)), advance (2 * (layer * batch * hidden_dim)) w)
     /\ shape (values h) = [layer; batch; hidden_dim]
     /\ shape (values c) = [layer; batch; hidden_dim])
  /\ (FeatureExtractor.time_type self <> "lstm"%string ->
      FeatureExtractor.init_hidden self hidden_dim batch layer w
      = (Ok None, advance (layer * batch * hidden_dim) w)).
Proof.
  intros Hh Hlb.
  destruct (xavier_uniform__advance layer batch hidden_dim w Hh Hlb)
    as (t1 & H1 & S1 & _).
  destruct (xavier_uniform__advance layer batch hidden_dim
              (advance (layer * batch * hidden_dim) w) Hh Hlb)
    as (t2 & H2 & S2 & _).
  rewrite advance_advance in H2.
  replace (layer * batch * hidden_dim + layer * batch * hidden_dim)
    with (2 * (layer * batch * hidden_dim)) in H2 by lia.
  unfold FeatureExtractor.init_hidden. rewrite (bind_ok _ H1).
  cbv beta zeta.
  split.
  - intros Htt.
    destruct (string_dec (FeatureExtractor.time_type self) "lstm") as [_|N];
      [|contradiction].
    rewrite (bind_ok _ H2).
    destruct (FeatureExtractor._cuda self); eexists _, _;
      (split; [reflexivity|]); split; assumption.
  - intros Htt.
    destruct (string_dec (FeatureExtractor.time_type self) "lstm") as [E|_];
      [contradiction|].
    reflexivity.
Qed.

Lemma init_hidden_draws_witness :
  exists h c,
    FeatureExtractor.init_hidden (sample_extractor 32 3 true) 512 2 1 world0
    = (Ok (Some (h, c)), advance (2 * (1 * 2 * 512)) world0).
Proof.
  destruct (proj1 (init_hidden_draws (sample_extractor 32 3 true) 512 2 1 world0
                     ltac:(lia) ltac:(lia)) eq_refl)
    as (h & c & H & _).
  exists h, c. exact H.
Defined.

Lemma window_feature_advance (fe : FeatureExtractor.t) (dynamic : tensor)
      (B k t : nat) :
  FeatureExtractor_layers fe ->
  shape dynamic
  = [B; FeatureExtractor.sequence_num fe; k * FeatureExtractor.time_len fe] ->
  1 <= t ->
  (forall x, wf_tensor x ->
     shape x = [B; FeatureExtractor.sequence_num fe; FeatureExtractor.time_len fe] ->
     exists y, FeatureExtractor.conv fe x = Ok y
               /\ shape y = [B; FeatureExtractor.time_hid_dim fe; t]) ->
  forall batch i w,
    i < k ->
    exists fea,
      FeatureExtractor.window_feature fe dynamic batch true i w
      = (Ok fea, advance (2 * (B * FeatureExtractor.time_hid_dim fe)) w)
      /\ shape fea = [B; 1; 512; t].
Proof.
  intros Hlay Hs Ht Hconv batch i w Hi.
  destruct (slice_last_window dynamic B (FeatureExtractor.sequence_num fe)
              (k * FeatureExtractor.time_len fe) i (FeatureExtractor.time_len fe)
              Hs ltac:(nia))
    as (win & Hwin & Hsw & Hww).
  destruct (Hconv win Hww Hsw) as (y & Hy & Hsy).
  destruct (get_feature_run fe win y B (FeatureExtractor.time_len fe) t batch
              true w Hlay Hsw Hy Hsy Ht)
    as (out & w' & Hout & Hso & _ & Hnp & Hstd & _ & Hg).
  destruct (unsqueeze1_rank3 out B 512 t Hso) as (fea & Hfea & Hsf & _).
  exists fea. split; [|exact Hsf].
  unfold FeatureExtractor.window_feature.
  unfold lift at 1. rewrite Hwin.
  rewrite (bind_ok (w' := w) (a := win) _ eq_refl).
  rewrite (bind_ok _ Hout). unfold lift. rewrite Hfea. f_equal.
  apply world_advance; [|assumption..].
  rewrite (Hg eq_refl). f_equal. rewrite !numel_cons, numel_nil. lia.
Qed.

(** X16: with [reset], [forward] draws a fresh recurrent state for every
    window it visits.  On a constructed feature extractor with a backbone
    under contract and a series of [k >= 1] windows it returns, and between
    the state [w1] in which the numpy draws of the window selection left
    the random sources and the final state, torch's generator has advanced
    by [2 * B * time_hid_dim] samples for each of the [off] visited
    windows; nothing else has changed. *)
Theorem forward_reset_draws_per_window
        (arch : arch_resnet) (fe : FeatureExtractor.t) (dynamic : tensor)
        (B k : nat) (batch : Z) (w : World) :
  FeatureExtractor_constructed arch fe ->
  backbone_contract (FeatureExtractor.conv fe) (FeatureExtractor.sequence_num fe) ->
  0 < FeatureExtractor.time_len fe ->
  shape dynamic
  = [B; FeatureExtractor.sequence_num fe; k * FeatureExtractor.time_len fe] ->
  1 <= k ->
  exists off idx w1 out,
    FeatureExtractor.draw_windows k w = (Ok (off, idx), w1)
    /\ FeatureExtractor.forward fe dynamic None batch true w
       = (Ok out,
          advance (Z.to_nat off * (2 * (B * FeatureExtractor.time_hid_dim fe)))
            w1).
Proof.
  intros Hc Hbb Htl Hs Hk.
  destruct (FeatureExtractor_constructed_inv arch fe Hc)
    as (Hlay & y0 & b0 & t0 & Hy0 & Hsy0 & Ht0 & Hb0 & Hfc).
  destruct (Hbb _ y0 1 (FeatureExtractor.time_len fe) (wf_zeros _) eq_refl Hy0)
    as (Hwy0 & c & t & Hsy0' & Hall).
  rewrite Hsy0 in Hsy0'. injection Hsy0' as -> <- <-.
  rewrite (forward_prologue fe dynamic
             [B; FeatureExtractor.sequence_num fe] k batch true w Htl Hs).
  destruct (draw_windows_run k w Hk)
    as (off & idx & w1 & Hdraw & Hrange & Hlen & _ & Hlt & _).
  rewrite Forall_forall in Hlt.
  destruct (for_each_advance
              (FeatureExtractor.window_feature fe dynamic batch true)
              (fun _ fea => shape fea = [B; 1; 512; t0])
              (2 * (B * FeatureExtractor.time_hid_dim fe)) idx) with (w := w1)
    as (feas & Hfeas & HP).
  { intros i w' Hin.
    apply (window_feature_advance fe dynamic B k t0 Hlay Hs Ht0).
    - intros x Hwx Hsx. destruct (Hall x B Hwx Hsx) as (y & Hy & _ & Hsy).
      now exists y.
    - now apply Hlt. }
  assert (Hne : feas <> []).
  { apply Forall2_length in HP. destruct feas; [|discriminate].
    cbn in HP. lia. }
  assert (Hshapes : Forall (fun x => shape x = [B; 1; 512; t0]) feas).
  { clear - HP. induction HP; constructor; auto. }
  rewrite Hlen in Hfeas.
  destruct (average_run feas B 512 t0
              (advance (Z.to_nat off
                        * (2 * (B * FeatureExtractor.time_hid_dim fe))) w1)
              Hne Hshapes) as (out & Hout & _).
  exists off, idx, w1, out. split; [exact Hdraw|].
  unfold bind at 1. unfold bind at 1. rewrite Hdraw. cbn [snd].
  rewrite Hfeas. exact Hout.
Qed.

Lemma forward_reset_draws_witness :
  exists off idx w1 out,
    FeatureExtractor.draw_windows 4 world0 = (Ok (off, idx), w1)
    /\ FeatureExtractor.forward (sample_extractor 32 3 true)
         (zeros [2; 3; 4 * 32]) None 1 true world0
       = (Ok out, advance (Z.to_nat off * (2 * (2 * 512))) w1).
Proof.
  apply (forward_reset_draws_per_window constant_arch
           (sample_extractor 32 3 true) (zeros [2; 3; 4 * 32]) 2 4 1 world0
           (sample_extractor_constructed 32 3 true ltac:(lia))
           (constant_backbone_contract 512 3)).
  - cbn. lia.
  - reflexivity.
  - lia.
Defined.

(** ** The embedding is the mean over the visited windows *)

Lemma window_feature_run_data (fe : FeatureExtractor.t) (dynamic : tensor)
      (B k t : nat) :
  FeatureExtractor_layers fe ->
  shape dynamic
  = [B; FeatureExtractor.sequence_num fe; k * FeatureExtractor.time_len fe] ->
  1 <= t ->
  (forall x, wf_tensor x ->
     shape x = [B; FeatureExtractor.sequence_num fe; FeatureExtractor.time_len fe] ->
     exists y, FeatureExtractor.conv fe x = Ok y
               /\ shape y = [B; FeatureExtractor.time_hid_dim fe; t]) ->
  forall batch reset i w,
    i < k ->
    exists fea w',
      FeatureExtractor.window_feature fe dynamic batch reset i w = (Ok fea, w')
      /\ shape fea = [B; 1; 512; t]
      /\ exists win,
           slice_last dynamic (i * FeatureExtractor.time_len fe)
             ((i + 1) * FeatureExtractor.time_len fe) = Ok win
           /\ FeatureExtractor.get_feature fe win batch reset w
              = (Ok (mkTensor [B; 512; t] (data fea)), w').
Proof.
  intros Hlay Hs Ht Hconv batch reset i w Hi.
  destruct (slice_last_window dynamic B (FeatureExtractor.sequence_num fe)
              (k * FeatureExtractor.time_len fe) i (FeatureExtractor.time_len fe)
              Hs ltac:(nia))
    as (win & Hwin & Hsw & Hww).
  destruct (Hconv win Hww Hsw) as (y & Hy & Hsy).
  destruct (get_feature_run fe win y B (FeatureExtractor.time_len fe) t batch
              reset w Hlay Hsw Hy Hsy Ht)
    as (out & w' & Hout & Hso & _).
  destruct (unsqueeze1_rank3 out B 512 t Hso) as (fea & Hfea & Hsf & Hdf).
  exists fea, w'. split; [|split; [exact Hsf|]].
  - unfold FeatureExtractor.window_feature.
    unfold lift at 1. rewrite Hwin.
    rewrite (bind_ok (w' := w) (a := win) _ eq_refl).
    rewrite (bind_ok _ Hout). unfold lift. now rewrite Hfea.
  - exists win. split; [exact Hwin|]. rewrite Hout. do 2 f_equal.
    destruct out as [so dout]. cbn [shape data] in *. now subst.
Qed.

Lemma Forall2_map_right {A B C} (R : A -> C -> Prop) (g : B -> C)
      (l : list A) (l' : list B) :
  Forall2 (fun a b => R a (g b)) l l' -> Forall2 R l (map g l').
Proof. induction 1; simpl; constructor; auto. Qed.

(** X17: what [forward] computes from a series.  On a constructed feature
    extractor with a backbone under contract and a series of [k >= 1]
    windows, [forward] returns the matrix of shape [[B, 512 * t]] whose
    every entry is the arithmetic mean, over the windows it visited, of the
    corresponding entry of [get_feature] on that window ([t] time steps per
    window). *)
Theorem forward_is_mean_over_visited_windows
        (arch : arch_resnet) (fe : FeatureExtractor.t) (dynamic : tensor)
        (B k : nat) (batch : Z) (reset : bool) (w : World) :
  FeatureExtractor_constructed arch fe ->
  backbone_contract (FeatureExtractor.conv fe) (FeatureExtractor.sequence_num fe) ->
  0 < FeatureExtractor.time_len fe ->
  shape dynamic
  = [B; FeatureExtractor.sequence_num fe; k * FeatureExtractor.time_len fe] ->
  1 <= k ->
  exists off idx w1 zs t out w',
    FeatureExtractor.draw_windows k w = (Ok (off, idx), w1)
    /\ Forall2
         (fun i z =>
            exists win wa wb,
              slice_last dynamic (i * FeatureExtractor.time_len fe)
                ((i + 1) * FeatureExtractor.time_len fe) = Ok win
              /\ FeatureExtractor.get_feature fe win batch reset wa = (Ok z, wb)
              /\ shape z = [B; 512; t])
         idx zs
    /\ FeatureExtractor.forward fe dynamic None batch reset w = (Ok out, w')
    /\ shape out = [B; 512 * t]
    /\ forall b r, b < B -> r < 512 * t ->
         get out (b * (512 * t) + r)
         = (Rsum (map (fun z => get z (b * (512 * t) + r)) zs)
            / INR (length zs))%R.
Proof.
  intros Hc Hbb Htl Hs Hk.
  destruct (FeatureExtractor_constructed_inv arch fe Hc)
    as (Hlay & y0 & b0 & t0 & Hy0 & Hsy0 & Ht0 & Hb0 & Hfc).
  destruct (Hbb _ y0 1 (FeatureExtractor.time_len fe) (wf_zeros _) eq_refl Hy0)
    as (Hwy0 & c & t & Hsy0' & Hall).
  rewrite Hsy0 in Hsy0'. injection Hsy0' as -> <- <-.
  rewrite (forward_prologue fe dynamic
             [B; FeatureExtractor.sequence_num fe] k batch reset w Htl Hs).
  destruct (draw_windows_run k w Hk)
    as (off & idx & w1 & Hdraw & Hrange & Hlen & _ & Hlt & _).
  rewrite Forall_forall in Hlt.
  destruct (for_each_total
              (FeatureExtractor.window_feature fe dynamic batch reset)
              (fun i fea =>
                 shape fea = [B; 1; 512; t0]
                 /\ exists win wa wb,
                      slice_last dynamic (i * FeatureExtractor.time_len fe)
                        ((i + 1) * FeatureExtractor.time_len fe) = Ok win
                      /\ FeatureExtractor.get_feature fe win batch reset wa
                         = (Ok (mkTensor [B; 512; t0] (data fea)), wb))
              idx) with (w := w1)
    as (feas & w2 & Hfeas & HP).
  { intros i w' Hin.
    destruct (window_feature_run_data fe dynamic B k t0 Hlay Hs Ht0) with
      (batch := batch) (reset := reset) (i := i) (w := w')
      as (fea & w'' & Hrun & Hsf & win & Hwin & Hget).
    - intros x Hwx Hsx. destruct (Hall x B Hwx Hsx) as (y & Hy & _ & Hsy).
      now exists y.
    - now apply Hlt.
    - exists fea, w''. split; [exact Hrun|]. split; [exact Hsf|].
      now exists win, w', w''. }
  assert (Hne : feas <> []).
  { apply Forall2_length in HP. destruct feas; [|discriminate].
    cbn in HP. lia. }
  assert (Hshapes : Forall (fun x => shape x = [B; 1; 512; t0]) feas).
  { clear - HP. induction HP as [|? ? ? ? [H _]]; constructor; auto. }
  destruct (average_entries feas B 512 t0 w2 Hne Hshapes)
    as (out & Hout & Hso & _ & Hget).
  exists off, idx, w1, (map (fun fea => mkTensor [B; 512; t0] (data fea)) feas),
    t0, out, w2.
  split; [exact Hdraw|]. split.
  { apply Forall2_map_right.
    clear - HP. induction HP as [|i fea l l' [_ (win & wa & wb & H1 & H2)] _ IH];
      constructor; [|exact IH].
    exists win, wa, wb. repeat split; assumption. }
  split.
  { unfold bind at 1. unfold bind at 1. rewrite Hdraw. cbn [snd].
    rewrite Hfeas. exact Hout. }
  split; [exact Hso|].
  intros b r Hb Hr. rewrite (Hget b r Hb Hr).
  rewrite length_map, map_map. reflexivity.
Qed.

Lemma forward_is_mean_witness :
  exists off idx w1 (zs : list tensor) t out w',
    FeatureExtractor.draw_windows 4 world0 = (Ok (off, idx), w1)
    /\ length zs = length idx
    /\ FeatureExtractor.forward (sample_extractor 32 3 true)
         (zeros [2; 3; 4 * 32]) None 1 true world0 = (Ok out, w')
    /\ shape out = [2; 512 * t].
Proof.
  destruct (forward_is_mean_over_visited_windows constant_arch
              (sample_extractor 32 3 true) (zeros [2; 3; 4 * 32]) 2 4 1 true
              world0
              (sample_extractor_constructed 32 3 true ltac:(lia))
              (constant_backbone_contract 512 3)
              ltac:(cbn; lia) eq_refl ltac:(lia))
    as (off & idx & w1 & zs & t & out & w' & Hdraw & Hzs & Hrun & Hs & _).
  exists off, idx, w1, zs, t, out, w'.
  split; [exact Hdraw|]. split; [symmetry; exact (Forall2_length Hzs)|].
  split; [exact Hrun | exact Hs].
Defined.
